(** * jira-scrappy-view: the scraper (jira_scraper.py) and the viewer
    (jira_viewer.py), embedded shallowly.

    Python values that come out of [json.loads] are modelled by [json];
    Python dictionaries are association lists with unique keys in insertion
    order; exceptions are an inductive type carried by an error monad; the
    HTTP client and the SQLite connection are state-and-exception monads
    over an explicit world and an explicit set of tables. *)

From Stdlib Require Import ZArith Ascii String List Bool Lia Permutation Sorted.
From stdpp Require Import base tactics option list pretty.
Import ListNotations.

Local Open Scope string_scope.
Local Open Scope list_scope.
Local Open Scope Z_scope.

(** ** Exceptions and outcomes *)

(** The exceptions the two programs can raise on the paths embedded here.
    [SystemExit] is what [sys.exit] raises; it is not an [Exception] and is
    caught by no handler in the repository. *)
Inductive exn : Type :=
  | SystemExit (code : Z)
  | HTTPError (status : Z)
  | JSONDecodeError
  | AttributeError
  | TypeError
  | ValueError
  | RecursionError
  | OverflowError
  | ProgrammingError
  | IntegrityError
  | OperationalError
  | DatabaseError.

(** Result of a pure Python expression: a value or a raised exception. *)
Inductive result (A : Type) : Type :=
  | OK (a : A)
  | Err (e : exn).
Arguments OK {A} a.
Arguments Err {A} e.

Definition rbind {A B} (r : result A) (f : A -> result B) : result B :=
  match r with
  | OK a => f a
  | Err e => Err e
  end.

Declare Scope res_scope.
Delimit Scope res_scope with res.
Notation "'let*' x := r 'in' k" := (rbind r (fun x => k))
  (at level 10, x name, r at level 200, k at level 200) : res_scope.
Local Open Scope res_scope.

Fixpoint rmapM {A B} (f : A -> result B) (l : list A) : result (list B) :=
  match l with
  | [] => OK []
  | x :: r =>
      let* y := f x in
      let* ys := rmapM f r in
      OK (y :: ys)
  end.

(** ** JSON values

    What [json.loads] returns. Numbers are integers: the fields the two
    programs read hold text, booleans, lists and objects. *)

#[local] Set Warnings "-register-all".

Inductive json : Type :=
  | JNull
  | JBool (b : bool)
  | JInt (z : Z)
  | JStr (s : string)
  | JList (l : list json)
  | JObj (kv : list (string * json)).

Definition pydict : Type := list (string * json).

Section JsonInduction.
Variable P : json -> Prop.
Hypothesis Hnull : P JNull.
Hypothesis Hbool : forall b, P (JBool b).
Hypothesis Hint : forall z, P (JInt z).
Hypothesis Hstr : forall s, P (JStr s).
Hypothesis Hlist : forall l, Forall P l -> P (JList l).
Hypothesis Hobj : forall kv, Forall (fun p => P (snd p)) kv -> P (JObj kv).

Fixpoint json_nested_ind (j : json) : P j :=
  match j with
  | JNull => Hnull
  | JBool b => Hbool b
  | JInt z => Hint z
  | JStr s => Hstr s
  | JList l =>
      Hlist l
        ((fix go (l : list json) : Forall P l :=
            match l with
            | [] => @List.Forall_nil _ P
            | x :: r => @List.Forall_cons _ P x r (json_nested_ind x) (go r)
            end) l)
  | JObj kv =>
      Hobj kv
        ((fix go (kv : list (string * json))
            : Forall (fun p => P (snd p)) kv :=
            match kv with
            | [] => @List.Forall_nil _ _
            | p :: r =>
                @List.Forall_cons _ (fun p => P (snd p)) p r
                  (json_nested_ind (snd p)) (go r)
            end) kv)
  end.
End JsonInduction.

(** ** The Python operations the sources use on such values *)

(** First binding of [k]; a Python dict has at most one. *)
Fixpoint dict_lookup (k : string) (d : pydict) : option json :=
  match d with
  | [] => None
  | (k', v) :: r => if String.eqb k k' then Some v else dict_lookup k r
  end.

Definition dict_keys (d : pydict) : list string := map fst d.

(** [d[k] = v]: overwrite in place when present, append otherwise. *)
Fixpoint dict_set (k : string) (v : json) (d : pydict) : pydict :=
  match d with
  | [] => [(k, v)]
  | (k', v') :: r =>
      if String.eqb k k' then (k', v) :: r else (k', v') :: dict_set k v r
  end.

(** [k in d] *)
Definition dict_has (k : string) (d : pydict) : bool :=
  match dict_lookup k d with Some _ => true | None => false end.

(** [x.get(k, dflt)]: only a dict has [get]. *)
Definition py_get_default (x : json) (k : string) (dflt : json) : result json :=
  match x with
  | JObj d => OK (match dict_lookup k d with Some v => v | None => dflt end)
  | _ => Err AttributeError
  end.

(** [x.get(k)] *)
Definition py_get (x : json) (k : string) : result json :=
  py_get_default x k JNull.

(** [d.get(k)] and [d.get(k, dflt)] on a value known to be a dict. *)
Definition dget (d : pydict) (k : string) : json :=
  match dict_lookup k d with Some v => v | None => JNull end.
Definition dget_default (d : pydict) (k : string) (dflt : json) : json :=
  match dict_lookup k d with Some v => v | None => dflt end.

(** Truth value of [if x]. *)
Definition truthy (x : json) : bool :=
  match x with
  | JNull => false
  | JBool b => b
  | JInt z => negb (z =? 0)
  | JStr s => negb (String.eqb s "")
  | JList l => match l with [] => false | _ => true end
  | JObj d => match d with [] => false | _ => true end
  end.

(** [a or b] *)
Definition py_or (a b : json) : json := if truthy a then a else b.

Definition is_dict (x : json) : bool :=
  match x with JObj _ => true | _ => false end.

(** [for v in x]: a list gives its elements, a dict its keys, a string its
    characters; anything else is not iterable. *)
Definition py_iter (x : json) : result (list json) :=
  match x with
  | JList l => OK l
  | JObj d => OK (map (fun p => JStr (fst p)) d)
  | JStr s => OK (map (fun c => JStr (String c EmptyString)) (list_ascii_of_string s))
  | _ => Err TypeError
  end.

Definition nl : string := String (ascii_of_nat 10) EmptyString.

(** [s.startswith(p)] *)
Definition startswith (p s : string) : bool := String.prefix p s.

(** [s.replace(old, new)] for a non-empty [old]: every occurrence, left to
    right, without overlap. [skip] counts the characters of a replaced
    occurrence that are still to be dropped. *)
Fixpoint str_replace_go (old new : string) (skip : nat) (s : string) : string :=
  match s with
  | EmptyString => EmptyString
  | String c r =>
      match skip with
      | S k => str_replace_go old new k r
      | O =>
          if String.prefix old s
          then new +:+ str_replace_go old new (String.length old - 1) r
          else String c (str_replace_go old new 0 r)
      end
  end.

Definition str_replace (old new s : string) : string :=
  str_replace_go old new 0 s.

(** [node.get("type") == t] *)
Definition type_is (d : pydict) (t : string) : bool :=
  match dget d "type" with
  | JStr s => String.eqb s t
  | _ => false
  end.

(** [n >= x] for a Python int [n]: [x] has to be a number. *)
Definition py_int_ge (n : Z) (x : json) : result bool :=
  match x with
  | JInt z => OK (z <=? n)
  | JBool b => OK ((if b then 1 else 0) <=? n)
  | _ => Err TypeError
  end.

(** ** State and exceptions

    A computation over a state [S] returns a value, raises, or runs out of
    the fuel given to an unbounded loop; the state reached is kept in all
    three cases. *)
Inductive outcome (A : Type) : Type :=
  | Ret (a : A)
  | Raise (e : exn)
  | Diverge.
Arguments Ret {A} a.
Arguments Raise {A} e.
Arguments Diverge {A}.

Definition M (S A : Type) : Type := S -> outcome A * S.

Definition ret {S A} (a : A) : M S A := fun s => (Ret a, s).
Definition raise {S A} (e : exn) : M S A := fun s => (Raise e, s).
Definition diverge {S A} : M S A := fun s => (Diverge, s).
Definition bind {S A B} (m : M S A) (k : A -> M S B) : M S B :=
  fun s =>
    match m s with
    | (Ret a, s') => k a s'
    | (Raise e, s') => (Raise e, s')
    | (Diverge, s') => (Diverge, s')
    end.
Definition lift {S A} (r : result A) : M S A :=
  match r with
  | OK a => ret a
  | Err e => raise e
  end.
Definition gets {S A} (f : S -> A) : M S A := fun s => (Ret (f s), s).
Definition modify {S} (f : S -> S) : M S unit := fun s => (Ret tt, f s).

(** [try: m except <handles>: h] *)
Definition try_except {S A} (m : M S A) (handles : exn -> bool) (h : M S A) : M S A :=
  fun s =>
    match m s with
    | (Raise e, s') => if handles e then h s' else (Raise e, s')
    | r => r
    end.

Declare Scope m_scope.
Delimit Scope m_scope with M.
Notation "'let!' x := m 'in' k" := (bind m (fun x => k))
  (at level 10, x name, m at level 200, k at level 200) : m_scope.
Notation "m ';;' k" := (bind m (fun _ => k))
  (at level 100, k at level 200, right associativity) : m_scope.
Local Open Scope m_scope.

(** [sep.join(parts)] on strings. *)
Definition str_join (sep : string) (parts : list string) : string :=
  String.concat sep parts.

(** ** The world of the scraper

    Mutable dictionaries live in a heap and are passed by location, HTTP
    requests, sleeps and printed lines are recorded as events, and the clock
    is the text [datetime.now(timezone.utc).isoformat()] gives. *)
Record request : Type := mkRequest {
  req_endpoint : string;
  req_params : option pydict
}.

(** The [Retry-After] header: missing, a decimal integer, or other text. *)
Inductive retry_header : Type :=
  | HAbsent
  | HInt (z : Z)
  | HOther.

Record response : Type := mkResponse {
  status_code : Z;
  retry_after : retry_header;
  text : string;
  (** [response.json()]: [None] when the body is not JSON. *)
  body : option json
}.

Inductive event : Type :=
  | EvRequest (r : request)
  | EvSleep (milliseconds : Z)
  | EvPrint (line : string).

Record world : Type := mkWorld {
  heap : list pydict;
  events : list event;
  utc_now : string
}.

Definition is_request (e : event) : option request :=
  match e with EvRequest r => Some r | _ => None end.
Definition is_print (e : event) : option string :=
  match e with EvPrint l => Some l | _ => None end.

(** The requests made so far, oldest first, and the lines printed. *)
Definition requests_of (w : world) : list request := omap is_request (events w).
Definition printed (w : world) : list string := omap is_print (events w).

Definition emit (e : event) : M world unit :=
  modify (fun w => mkWorld (heap w) (events w ++ [e]) (utc_now w)).
Definition print (line : string) : M world unit := emit (EvPrint line).
Definition sleep_ms (ms : Z) : M world unit := emit (EvSleep ms).

(** A new dict object. *)
Definition alloc (d : pydict) : M world nat :=
  fun w => (Ret (length (heap w)), mkWorld (heap w ++ [d]) (events w) (utc_now w)).
(** The dict at a location (locations are never dangling in Python; one
    outside the heap reads as the empty dict). *)
Definition deref (l : nat) : M world pydict :=
  gets (fun w => default [] (heap w !! l)).
(** [obj[k] = v] *)
Definition setitem (l : nat) (k : string) (v : json) : M world unit :=
  fun w =>
    (Ret tt,
     mkWorld (alter (dict_set k v) l (heap w)) (events w) (utc_now w)).

(** ** The store: the schema of [JiraDatabase._create_tables]

    A [TEXT] column holds [NULL] or text ([option string]); the one
    [INTEGER] column, [is_subtask], holds an integer. Foreign keys are
    declared but not enforced (the pragma is never switched on). *)
Record ticket_cols : Type := mkTicketCols {
  t_key : option string;
  t_id : option string;
  t_summary : option string;
  t_description : option string;
  t_description_raw : option string;
  t_status : option string;
  t_status_category : option string;
  t_priority : option string;
  t_issue_type : option string;
  t_is_subtask : Z;
  t_project_key : option string;
  t_project_name : option string;
  t_creator_id : option string;
  t_creator_name : option string;
  t_creator_email : option string;
  t_reporter_id : option string;
  t_reporter_name : option string;
  t_reporter_email : option string;
  t_assignee_id : option string;
  t_assignee_name : option string;
  t_assignee_email : option string;
  t_created : option string;
  t_updated : option string;
  t_resolved : option string;
  t_resolution : option string;
  t_labels : option string;
  t_components : option string;
  t_fix_versions : option string;
  t_affects_versions : option string;
  t_parent_key : option string;
  t_parent_summary : option string;
  t_custom_fields : option string;
  t_raw_json : option string;
  t_exported_at : option string
}.

(** A row of [tickets] with its implicit [rowid]. *)
Record ticket_row : Type := mkTicketRow {
  t_rowid : Z;
  t_cols : ticket_cols
}.

Record comment_row : Type := mkCommentRow {
  c_id : option string;
  c_ticket_key : option string;
  c_author_id : option string;
  c_author_name : option string;
  c_author_email : option string;
  c_body : option string;
  c_body_raw : option string;
  c_created : option string;
  c_updated : option string
}.

Record changelog_cols : Type := mkChangelogCols {
  h_ticket_key : option string;
  h_field : option string;
  h_field_type : option string;
  h_from_value : option string;
  h_to_value : option string;
  h_author_id : option string;
  h_author_name : option string;
  h_author_email : option string;
  h_created : option string
}.

Record link_cols : Type := mkLinkCols {
  l_ticket_key : option string;
  l_link_type : option string;
  l_inward_key : option string;
  l_outward_key : option string
}.

Record subtask_cols : Type := mkSubtaskCols {
  s_ticket_key : option string;
  s_subtask_key : option string;
  s_subtask_summary : option string
}.

(** What the index [tickets_fts] holds for a [rowid]: the three texts it was
    given when the entry was written. The table is an external-content one
    ([content='tickets']), so the entry is not refreshed when the row is. *)
Record fts_entry : Type := mkFtsEntry {
  f_rowid : Z;
  f_key : option string;
  f_summary : option string;
  f_description : option string
}.

(** The tables; the three child tables with [INTEGER PRIMARY KEY
    AUTOINCREMENT] carry the ids handed out and the last one used.
    [tickets_fts] is [None] in a database file that has no such table (and
    then no trigger either). *)
Record tables : Type := mkTables {
  tickets : list ticket_row;
  comments : list comment_row;
  changelog : list (Z * changelog_cols);
  issue_links : list (Z * link_cols);
  subtasks : list (Z * subtask_cols);
  tickets_fts : option (list fts_entry);
  seq_changelog : Z;
  seq_issue_links : Z;
  seq_subtasks : Z
}.

(** A connection: what is committed and what the open transaction sees. *)
Record connection : Type := mkConnection {
  committed : tables;
  current : tables
}.

Definition empty_tables : tables :=
  mkTables [] [] [] [] [] None 0 0 0.

(** Equality of two SQL values in a [WHERE]: [NULL] equals nothing. *)
Definition sql_eq (a b : option string) : bool :=
  match a, b with
  | Some x, Some y => String.eqb x y
  | _, _ => false
  end.

(** Binding a Python value to a statement parameter that meets a [TEXT]
    column: numbers are stored as their decimal text. *)
Definition bind_text (v : json) : result (option string) :=
  match v with
  | JNull => OK None
  | JBool b => OK (Some (if b then "1" else "0"))
  | JInt z =>
      if (- 2 ^ 63 <=? z) && (z <? 2 ^ 63) then OK (Some (pretty z))
      else Err OverflowError
  | JStr s => OK (Some s)
  | JList _ | JObj _ => Err ProgrammingError
  end.

(** ** Python list operations of the viewer *)

(** [l[start:stop]] with Python's treatment of negative and out-of-range
    indices. *)
Definition clamp_index (n i : Z) : Z :=
  if i <? 0 then Z.max (i + n) 0 else Z.min i n.

Definition py_slice {A} (l : list A) (start stop : Z) : list A :=
  let n := Z.of_nat (length l) in
  let a := clamp_index n start in
  let b := clamp_index n stop in
  firstn (Z.to_nat (b - a)) (skipn (Z.to_nat a) l).

(** [l.sort(key=key, reverse=True)] on string keys. The sort is stable also
    when reversed: of two elements with equal keys the one that came first
    stays first. An element is therefore placed behind the strictly larger
    keys only. *)
Section SortDescending.
Context {A : Type} (key : A -> string).

Fixpoint insert_desc (x : A) (l : list A) : list A :=
  match l with
  | [] => [x]
  | y :: r =>
      if String.ltb (key x) (key y) then y :: insert_desc x r
      else x :: y :: r
  end.

Definition sort_desc (l : list A) : list A := fold_right insert_desc [] l.

(** [x] may stand before [y] in a list sorted by key, largest first. *)
Definition key_ge (x y : A) : Prop := String.leb (key y) (key x) = true.
End SortDescending.

Definition dquote : string := String (ascii_of_nat 34) EmptyString.

(** [' ' in s] *)
Definition has_space (s : string) : bool :=
  existsb (Ascii.eqb " "%char) (list_ascii_of_string s).

(** The two traversals of [extract_text], over the visit [f] of one node. *)
Section Visits.
Variable f : json -> result (list json).

(** [for item in node: extract_text(item)] *)
Fixpoint visit_each (l : list json) : result (list json) :=
  match l with
  | [] => OK []
  | item :: r =>
      let* a := f item in
      let* b := visit_each r in
      OK (a ++ b)
  end.

(** [content = node.get("content", []); if content: extract_text(content)] *)
Fixpoint visit_content (d : list (string * json)) : result (list json) :=
  match d with
  | [] => OK []
  | (k, v) :: r =>
      if String.eqb "content" k
      then (if truthy v then f v else OK [])
      else visit_content r
  end.
End Visits.

(** [ORDER BY col ASC] compares with [NULL] below every text. *)
Definition sql_le (a b : option string) : bool :=
  match a, b with
  | None, _ => true
  | Some _, None => false
  | Some x, Some y => String.leb x y
  end.

(** A stable sort by insertion: [before x y] says that [x] may stand in
    front of [y]; of two elements that may stand either way round the one
    that came first stays first. *)
Section SortBy.
Context {A : Type} (before : A -> A -> bool).

Fixpoint insert_by (x : A) (l : list A) : list A :=
  match l with
  | [] => [x]
  | y :: r => if before x y then x :: y :: r else y :: insert_by x r
  end.

Definition sort_by (l : list A) : list A := fold_right insert_by [] l.
End SortBy.

(** [sorted(set(l))] on strings: the distinct elements in ascending order.
    The order in which the set is walked does not matter, the elements being
    distinct. *)
Definition sorted_set (l : list string) : list string :=
  sort_by String.leb (List.nodup String.string_dec l).

(** [s.rstrip("/")] *)
Fixpoint rstrip_slash (s : string) : string :=
  match s with
  | EmptyString => EmptyString
  | String c r =>
      let r' := rstrip_slash r in
      if Ascii.eqb c "/"%char && String.eqb r' EmptyString
      then EmptyString
      else String c r'
  end.

(** ** Library operations taken as given

    [repr] of a [str], [json.dumps], the FTS5 [MATCH] operator and the SQL
    [LIKE] operator are not code of this repository. They are parameters of
    the development; the instances below are used where a statement has to
    be evaluated on concrete data. *)

(** Quotes a string the way [repr] does for text without quotes,
    backslashes or control characters. *)
Definition quote_repr (s : string) : string := "'" +:+ s +:+ "'".

Section Program.

Variable repr_str : string -> string.

(** [repr(x)]; [str(x)] differs from it on strings only. *)
Fixpoint py_repr (x : json) : string :=
  match x with
  | JNull => "None"
  | JBool true => "True"
  | JBool false => "False"
  | JInt z => pretty z
  | JStr s => repr_str s
  | JList l => "[" +:+ str_join ", " (map py_repr l) +:+ "]"
  | JObj d =>
      "{" +:+
      str_join ", "
        ((fix items (d : list (string * json)) : list string :=
            match d with
            | [] => []
            | (k, v) :: r => (repr_str k +:+ ": " +:+ py_repr v) :: items r
            end) d)
      +:+ "}"
  end.

Definition py_str (x : json) : string :=
  match x with
  | JStr s => s
  | _ => py_repr x
  end.

(** ** DocumentFlattener: [JiraScraper._adf_to_text] *)

(** The inner [extract_text]: the values appended to [text_parts], in
    order. A list is visited item by item; the [content] of a dict node is
    its first (only) binding of that key, visited when truthy. The function
    calls itself as deep as its input is nested: [frames] is the number of
    nested calls of it that the interpreter still allows, and a call made
    when none is left raises [RecursionError]. *)
Fixpoint extract_text (frames : nat) (node : json) : result (list json) :=
  match frames with
  | O => Err RecursionError
  | S frames' =>
      match node with
      | JStr s => OK [JStr s]
      | JList l => visit_each (extract_text frames') l
      | JObj d =>
          let* own :=
            if type_is d "text" then OK [dget_default d "text" (JStr "")]
            else if type_is d "hardBreak" then OK [JStr nl]
            else if type_is d "mention" then
              let* t :=
                py_get_default (dget_default d "attrs" (JObj [])) "text" (JStr "user") in
              OK [JStr ("@" +:+ py_str t)]
            else OK [] in
          let* below := visit_content (extract_text frames') d in
          OK (own ++ below)
      | _ => OK []
      end
  end.

(** [str.join(text_parts)]: every part has to be a [str]. *)
Fixpoint join_parts (parts : list json) : result string :=
  match parts with
  | [] => OK ""
  | JStr s :: r => let* t := join_parts r in OK (s +:+ t)
  | _ :: _ => Err TypeError
  end.

(** [_adf_to_text]; [deeper] is the number of calls of [extract_text] that
    the interpreter allows below the first one. It is what the recursion
    limit ([sys.getrecursionlimit()], 1000 unless changed) leaves where the
    flattener is called. *)
Definition _adf_to_text (deeper : nat) (adf : json) : result string :=
  if is_dict adf
  then let* parts := extract_text (S deeper) adf in join_parts parts
  else OK (py_str adf).

(** ** RecordNormalizer: the pure helpers of [JiraScraper] *)

(** How deep [extract_text] may nest below its first call when the
    flattener works on the description of an issue, called from
    [process_issue], and on the body of a comment, called from
    [extract_comment_info]. Every other call of the two programs nests to a
    fixed depth. *)
Variable description_depth comment_depth : nat.

(** [x.get(k1, {}).get(k2)] *)
Definition get2 (x : json) (k1 k2 : string) : result json :=
  let* y := py_get_default x k1 (JObj []) in
  py_get y k2.

(** [x.get(k1, {}).get(k2, {}).get(k3)] *)
Definition get3 (x : json) (k1 k2 k3 : string) : result json :=
  let* y := py_get_default x k1 (JObj []) in
  let* z := py_get_default y k2 (JObj []) in
  py_get z k3.

(** [x.get(k1, {}).get(k2) if x.get(k1) else None] *)
Definition get2_guarded (x : json) (k1 k2 : string) : result json :=
  let* c := py_get x k1 in
  if truthy c then get2 x k1 k2 else OK JNull.

Definition extract_user_info (user_data : json) : result json :=
  if negb (truthy user_data) then OK JNull
  else
    let* a := py_get user_data "accountId" in
    let* d := py_get user_data "displayName" in
    let* e := py_get user_data "emailAddress" in
    OK (JObj [("accountId", a); ("displayName", d); ("emailAddress", e)]).

Definition extract_comment_info (comment : json) : result json :=
  let* body := py_get_default comment "body" (JObj []) in
  let* body_text :=
    if is_dict body then _adf_to_text comment_depth body else OK (py_str body) in
  let* id := py_get comment "id" in
  let* author_raw := py_get comment "author" in
  let* author := extract_user_info author_raw in
  let* body_raw := py_get comment "body" in
  let* created := py_get comment "created" in
  let* updated := py_get comment "updated" in
  OK (JObj [("id", id); ("author", author); ("body", JStr body_text);
            ("bodyRaw", body_raw); ("created", created); ("updated", updated)]).

(** One [status_changes.append({...})] of [extract_changelog]. *)
Definition change_entry (history item : json) : result json :=
  let* field := py_get item "field" in
  let* fieldtype := py_get item "fieldtype" in
  let* from := py_get item "fromString" in
  let* to := py_get item "toString" in
  let* author_raw := py_get history "author" in
  let* author := extract_user_info author_raw in
  let* created := py_get history "created" in
  OK (JObj [("field", field); ("fieldtype", fieldtype); ("from", from);
            ("to", to); ("author", author); ("created", created)]).

Definition history_entries (history : json) : result (list json) :=
  let* items_raw := py_get_default history "items" (JList []) in
  let* items := py_iter items_raw in
  rmapM (change_entry history) items.

Definition extract_changelog (issue : json) : result (list json) :=
  let* changelog := py_get_default issue "changelog" (JObj []) in
  let* histories_raw := py_get_default changelog "histories" (JList []) in
  let* histories := py_iter histories_raw in
  let* per_history := rmapM history_entries histories in
  OK (concat per_history).

(** [v.get("value") or v.get("name") or v] *)
Definition value_or_name_or_raw (v : json) : result json :=
  let* a := py_get v "value" in
  if truthy a then OK a
  else
    let* b := py_get v "name" in
    OK (py_or b v).

(** What [_extract_custom_fields] stores for a non-null [value]. *)
Definition custom_value (value : json) : result json :=
  match value with
  | JObj d =>
      if dict_has "value" d then OK (dget d "value")
      else if dict_has "name" d then OK (dget d "name")
      else OK value
  | JList (first :: rest) =>
      if is_dict first
      then let* vs := rmapM value_or_name_or_raw (first :: rest) in OK (JList vs)
      else OK value
  | _ => OK value
  end.

(** The [for key, value in fields.items()] loop, [custom] being the dict
    built so far. *)
Fixpoint custom_fields_loop (items : pydict) (custom : pydict) : result pydict :=
  match items with
  | [] => OK custom
  | (key, value) :: rest =>
      if startswith "customfield_" key &&
         negb (match value with JNull => true | _ => false end)
      then
        let* v := custom_value value in
        custom_fields_loop rest (dict_set key v custom)
      else custom_fields_loop rest custom
  end.

Definition _extract_custom_fields (fields : json) : result json :=
  match fields with
  | JObj d => let* custom := custom_fields_loop d [] in OK (JObj custom)
  | _ => Err AttributeError
  end.

(** [[x.get("name") for x in fields.get(k, [])]] *)
Definition names_of (fields : json) (k : string) : result json :=
  let* raw := py_get_default fields k (JList []) in
  let* xs := py_iter raw in
  let* ns := rmapM (fun x => py_get x "name") xs in
  OK (JList ns).

Definition subtask_entry (st : json) : result json :=
  let* k := py_get st "key" in
  let* s := get2 st "fields" "summary" in
  OK (JObj [("key", k); ("summary", s)]).

Definition link_entry (link : json) : result json :=
  let* t := get2 link "type" "name" in
  let* i := get2 link "inwardIssue" "key" in
  let* o := get2 link "outwardIssue" "key" in
  OK (JObj [("type", t); ("inward", i); ("outward", o)]).

(** [process_issue] once the comments have been fetched and the clock
    read: the dict literal [processed], its entries evaluated in order. *)
Definition build_processed (issue fields issue_key comments : json)
    (description_text : string) (now : string) : result pydict :=
  let* id := py_get issue "id" in
  let* self := py_get issue "self" in
  let* summary := py_get fields "summary" in
  let* description_raw := py_get fields "description" in
  let* status_name := get2 fields "status" "name" in
  let* status_category := get3 fields "status" "statusCategory" "name" in
  let* priority_name := get2_guarded fields "priority" "name" in
  let* type_name := get2 fields "issuetype" "name" in
  let* type_subtask := get2 fields "issuetype" "subtask" in
  let* project_key := get2 fields "project" "key" in
  let* project_name := get2 fields "project" "name" in
  let* creator_raw := py_get fields "creator" in
  let* creator := extract_user_info creator_raw in
  let* reporter_raw := py_get fields "reporter" in
  let* reporter := extract_user_info reporter_raw in
  let* assignee_raw := py_get fields "assignee" in
  let* assignee := extract_user_info assignee_raw in
  let* created := py_get fields "created" in
  let* updated := py_get fields "updated" in
  let* resolved := py_get fields "resolutiondate" in
  let* resolution := get2_guarded fields "resolution" "name" in
  let* labels := py_get_default fields "labels" (JList []) in
  let* components := names_of fields "components" in
  let* fix_versions := names_of fields "fixVersions" in
  let* affects_versions := names_of fields "versions" in
  let* comment_list := py_iter comments in
  let* comment_infos := rmapM extract_comment_info comment_list in
  let* changelog := extract_changelog issue in
  let* subtasks_raw := py_get_default fields "subtasks" (JList []) in
  let* subtask_list := py_iter subtasks_raw in
  let* subtasks := rmapM subtask_entry subtask_list in
  let* parent_raw := py_get fields "parent" in
  let* parent :=
    if truthy parent_raw then
      let* k := get2 fields "parent" "key" in
      let* s := get3 fields "parent" "fields" "summary" in
      OK (JObj [("key", k); ("summary", s)])
    else OK JNull in
  let* links_raw := py_get_default fields "issuelinks" (JList []) in
  let* link_list := py_iter links_raw in
  let* links := rmapM link_entry link_list in
  let* custom := _extract_custom_fields fields in
  OK [("key", issue_key); ("id", id); ("self", self); ("summary", summary);
      ("description", JStr description_text);
      ("descriptionRaw", description_raw);
      ("status", JObj [("name", status_name); ("category", status_category)]);
      ("priority", JObj [("name", priority_name)]);
      ("issueType", JObj [("name", type_name); ("subtask", type_subtask)]);
      ("project", JObj [("key", project_key); ("name", project_name)]);
      ("creator", creator); ("reporter", reporter); ("assignee", assignee);
      ("created", created); ("updated", updated); ("resolved", resolved);
      ("resolution", resolution); ("labels", labels);
      ("components", components); ("fixVersions", fix_versions);
      ("affectsVersions", affects_versions);
      ("comments", JList comment_infos); ("changelog", JList changelog);
      ("subtasks", JList subtasks); ("parent", parent);
      ("links", JList links); ("customFields", custom);
      ("_exportedAt", JStr (str_replace "+00:00" "Z" now))].

(** ** PaginatingClient: [JiraScraper._api_get] and [JiraScraper._paginate] *)

(** The remote source answers a request given the requests it has already
    seen; [base_url] is [config.url]. *)
Variable source : list request -> request -> response.
Variable base_url : string.

(** [self.session.get(url, params=params)] *)
Definition session_get (endpoint : string) (params : option nat) : M world response :=
  let! ps :=
    match params with
    | None => ret None
    | Some l => let! d := deref l in ret (Some d)
    end in
  let req := mkRequest endpoint ps in
  let! seen := gets requests_of in
  emit (EvRequest req) ;;
  ret (source seen req).

(** [int(response.headers.get("Retry-After", 10))] *)
Definition retry_after_seconds (r : response) : result Z :=
  match retry_after r with
  | HAbsent => OK 10
  | HInt z => OK z
  | HOther => Err ValueError
  end.

(** The body of [for attempt in range(max_retries)], [left] iterations to go. *)
Fixpoint api_get_attempts (left : nat) (attempt : Z) (max_retries : Z)
    (endpoint : string) (params : option nat) : M world json :=
  let url := base_url +:+ "/rest/api/3/" +:+ endpoint in
  match left with
  | O =>
      print ("ERROR: Max retries (" +:+ pretty max_retries +:+ ") exceeded for " +:+ url) ;;
      raise (SystemExit 1)
  | S left' =>
      let! r := session_get endpoint params in
      if status_code r =? 429 then
        let! retry := lift (retry_after_seconds r) in
        let wait_time := Z.max retry (2 ^ attempt) in
        print (nl +:+ "  Rate limited. Waiting " +:+ pretty wait_time +:+
               "s before retry (" +:+ pretty (attempt + 1) +:+ "/" +:+
               pretty max_retries +:+ ")...") ;;
        sleep_ms (1000 * wait_time) ;;
        api_get_attempts left' (attempt + 1) max_retries endpoint params
      else if status_code r =? 401 then
        print "ERROR: Authentication failed (401 Unauthorized)" ;;
        print "Check your JIRA_EMAIL and JIRA_API_TOKEN" ;;
        print ("Response: " +:+ text r) ;;
        raise (SystemExit 1)
      else if status_code r =? 403 then
        print "ERROR: Access forbidden (403)" ;;
        print "Your token is valid but you don't have permission" ;;
        print ("Response: " +:+ text r) ;;
        raise (SystemExit 1)
      else if (400 <=? status_code r) && (status_code r <? 600) then
        (* [not response.ok]; [raise_for_status] raises for exactly these *)
        print ("ERROR: API request failed (" +:+ pretty (status_code r) +:+ ")") ;;
        print ("URL: " +:+ url) ;;
        print ("Response: " +:+ text r) ;;
        raise (HTTPError (status_code r))
      else
        match body r with
        | Some j => ret j
        | None => raise JSONDecodeError
        end
  end.

Definition _api_get_retries (max_retries : nat) (endpoint : string)
    (params : option nat) : M world json :=
  api_get_attempts max_retries 0 (Z.of_nat max_retries) endpoint params.

(** [max_retries] defaults to 5 and no caller overrides it. *)
Definition _api_get (endpoint : string) (params : option nat) : M world json :=
  _api_get_retries 5 endpoint params.

Definition when (b : bool) (m : M world unit) : M world unit :=
  if b then m else ret tt.

(** The [while True] of [_paginate]; [total = None] is [None]. *)
Fixpoint paginate_loop (fuel : nat) (endpoint : string) (params : nat)
    (key : string) (progress : bool) (all_results : list json)
    (total : option json) (page : Z) : M world (list json) :=
  match fuel with
  | O => diverge
  | S fuel' =>
      let page := page + 1 in
      let! data := _api_get endpoint (Some params) in
      let! results :=
        lift (if String.eqb key "issues"
              then py_get_default data "issues" (JList [])
              else py_get_default data key (JList [])) in
      let! items := lift (py_iter results) in
      let all_results := all_results ++ items in
      let n_results := Z.of_nat (length items) in
      let n_all := Z.of_nat (length all_results) in
      let! total :=
        match total with
        | None =>
            let! t := lift (py_get_default data "total" (JInt n_results)) in
            when progress (print ("  Total issues to fetch: " +:+ py_str t)) ;;
            ret t
        | Some t => ret t
        end in
      when progress
        (print ("  Page " +:+ pretty page +:+ ": fetched " +:+ pretty n_results +:+
                " issues (total so far: " +:+ pretty n_all +:+ "/" +:+
                py_str total +:+ ")")) ;;
      let! enough := lift (py_int_ge n_all total) in
      if enough then
        when progress (print ("  Done: fetched all " +:+ py_str total +:+ " issues")) ;;
        ret all_results
      else if negb (truthy results) then
        when progress
          (print ("  Warning: got empty page but only have " +:+ pretty n_all +:+
                  "/" +:+ py_str total)) ;;
        ret all_results
      else
        setitem params "startAt" (JInt n_all) ;;
        paginate_loop fuel' endpoint params key progress all_results (Some total) page
  end.

(** [_paginate(endpoint, params, key, progress)]; [params] is the caller's
    dict object or [None]. *)
Definition _paginate (fuel : nat) (endpoint : string) (params : option nat)
    (key : string) (progress : bool) : M world (list json) :=
  let! caller :=
    match params with
    | None => ret []
    | Some l => deref l
    end in
  (* [dict(params) if params else {}]: a new object either way *)
  let! own := alloc (if truthy (JObj caller) then caller else []) in
  setitem own "startAt" (JInt 0) ;;
  setitem own "maxResults" (JInt 100) ;;
  paginate_loop fuel endpoint own key progress [] None 0.

(** [JiraScraper.get_issue_comments] *)
Definition is_http_error (e : exn) : bool :=
  match e with HTTPError _ => true | _ => false end.

Definition get_issue_comments (issue_key : json) : M world json :=
  try_except
    (sleep_ms 100 ;;
     let! data := _api_get ("issue/" +:+ py_str issue_key +:+ "/comment") None in
     lift (py_get_default data "comments" (JList [])))
    is_http_error
    (ret (JList [])).

(** ** Storage: [JiraDatabase] *)

(** [json.dumps] *)
Variable json_dumps : json -> string.

Definition with_current (f : tables -> tables) : M connection unit :=
  modify (fun c => mkConnection (committed c) (f (current c))).

(** [self.conn.commit()] *)
Definition commit : M connection unit :=
  modify (fun c => mkConnection (current c) (current c)).

Fixpoint for_each {S A} (l : list A) (f : A -> M S unit) : M S unit :=
  match l with
  | [] => ret tt
  | x :: r => f x ;; for_each r f
  end.

(** The schema statements of [_create_tables] that matter here: every
    [CREATE ... IF NOT EXISTS] leaves an existing table alone, and a new
    [tickets_fts] starts with an empty index. *)
Definition _create_tables : M connection unit :=
  with_current (fun tb =>
    mkTables (tickets tb) (comments tb) (changelog tb) (issue_links tb)
      (subtasks tb)
      (Some (default [] (tickets_fts tb)))
      (seq_changelog tb) (seq_issue_links tb) (seq_subtasks tb)) ;;
  commit.

(** [JiraDatabase(db_path)] on a database file with the given content. *)
Definition open_database (file : tables) : connection :=
  snd (_create_tables (mkConnection file file)).

Definition fts_entry_of (r : ticket_row) : fts_entry :=
  mkFtsEntry (t_rowid r) (t_key (t_cols r)) (t_summary (t_cols r))
    (t_description (t_cols r)).

(** [rebuild_fts]: the ['rebuild'] command re-reads the content table. *)
Definition rebuild_fts : M connection unit :=
  let! tb := gets current in
  match tickets_fts tb with
  | None => raise OperationalError
  | Some _ =>
      with_current (fun tb =>
        mkTables (tickets tb) (comments tb) (changelog tb) (issue_links tb)
          (subtasks tb) (Some (map fts_entry_of (tickets tb)))
          (seq_changelog tb) (seq_issue_links tb) (seq_subtasks tb)) ;;
      commit
  end.

(** The helper [get_user_field] of [insert_ticket]. *)
Definition get_user_field (user_dict : json) (field : string) : result json :=
  match user_dict with
  | JNull => OK JNull
  | _ => py_get user_dict field
  end.

(** The parameter tuple of the [INSERT OR REPLACE INTO tickets]: first the
    Python expressions in order, then the binding of each value. *)
Definition ticket_params (ticket : pydict) : result ticket_cols :=
  let t := JObj ticket in
  let* status := get2_guarded t "status" "name" in
  let* status_category := get2_guarded t "status" "category" in
  let* priority := get2_guarded t "priority" "name" in
  let* issue_type := get2_guarded t "issueType" "name" in
  let* subtask := get2 t "issueType" "subtask" in
  let* project_key := get2_guarded t "project" "key" in
  let* project_name := get2_guarded t "project" "name" in
  let* creator_id := get_user_field (dget ticket "creator") "accountId" in
  let* creator_name := get_user_field (dget ticket "creator") "displayName" in
  let* creator_email := get_user_field (dget ticket "creator") "emailAddress" in
  let* reporter_id := get_user_field (dget ticket "reporter") "accountId" in
  let* reporter_name := get_user_field (dget ticket "reporter") "displayName" in
  let* reporter_email := get_user_field (dget ticket "reporter") "emailAddress" in
  let* assignee_id := get_user_field (dget ticket "assignee") "accountId" in
  let* assignee_name := get_user_field (dget ticket "assignee") "displayName" in
  let* assignee_email := get_user_field (dget ticket "assignee") "emailAddress" in
  let* parent_key := get2_guarded t "parent" "key" in
  let* parent_summary := get2_guarded t "parent" "summary" in
  let* b_key := bind_text (dget ticket "key") in
  let* b_id := bind_text (dget ticket "id") in
  let* b_summary := bind_text (dget ticket "summary") in
  let* b_description := bind_text (dget ticket "description") in
  let* b_status := bind_text status in
  let* b_status_category := bind_text status_category in
  let* b_priority := bind_text priority in
  let* b_issue_type := bind_text issue_type in
  let* b_project_key := bind_text project_key in
  let* b_project_name := bind_text project_name in
  let* b_creator_id := bind_text creator_id in
  let* b_creator_name := bind_text creator_name in
  let* b_creator_email := bind_text creator_email in
  let* b_reporter_id := bind_text reporter_id in
  let* b_reporter_name := bind_text reporter_name in
  let* b_reporter_email := bind_text reporter_email in
  let* b_assignee_id := bind_text assignee_id in
  let* b_assignee_name := bind_text assignee_name in
  let* b_assignee_email := bind_text assignee_email in
  let* b_created := bind_text (dget ticket "created") in
  let* b_updated := bind_text (dget ticket "updated") in
  let* b_resolved := bind_text (dget ticket "resolved") in
  let* b_resolution := bind_text (dget ticket "resolution") in
  let* b_parent_key := bind_text parent_key in
  let* b_parent_summary := bind_text parent_summary in
  let* b_exported_at := bind_text (dget ticket "_exportedAt") in
  OK {|
    t_key := b_key;
    t_id := b_id;
    t_summary := b_summary;
    t_description := b_description;
    t_description_raw := Some (json_dumps (dget ticket "descriptionRaw"));
    t_status := b_status;
    t_status_category := b_status_category;
    t_priority := b_priority;
    t_issue_type := b_issue_type;
    t_is_subtask := if truthy subtask then 1 else 0;
    t_project_key := b_project_key;
    t_project_name := b_project_name;
    t_creator_id := b_creator_id;
    t_creator_name := b_creator_name;
    t_creator_email := b_creator_email;
    t_reporter_id := b_reporter_id;
    t_reporter_name := b_reporter_name;
    t_reporter_email := b_reporter_email;
    t_assignee_id := b_assignee_id;
    t_assignee_name := b_assignee_name;
    t_assignee_email := b_assignee_email;
    t_created := b_created;
    t_updated := b_updated;
    t_resolved := b_resolved;
    t_resolution := b_resolution;
    t_labels := Some (json_dumps (dget_default ticket "labels" (JList [])));
    t_components := Some (json_dumps (dget_default ticket "components" (JList [])));
    t_fix_versions := Some (json_dumps (dget_default ticket "fixVersions" (JList [])));
    t_affects_versions :=
      Some (json_dumps (dget_default ticket "affectsVersions" (JList [])));
    t_parent_key := b_parent_key;
    t_parent_summary := b_parent_summary;
    t_custom_fields := Some (json_dumps (dget_default ticket "customFields" (JObj [])));
    t_raw_json := Some (json_dumps (JObj ticket));
    t_exported_at := b_exported_at
  |}.

(** The largest [rowid] in use, 0 for an empty table. *)
Definition max_rowid (rows : list ticket_row) : Z :=
  fold_right (fun r m => Z.max (t_rowid r) m) 0 rows.

(** [INSERT OR REPLACE INTO tickets]: the new row takes the next [rowid]; a
    row with the same (non-null) [key] is removed, and that removal does not
    run the [AFTER DELETE] trigger, because recursive triggers are off;
    the [AFTER INSERT] trigger [tickets_ai] then adds the index entry. *)
Definition sql_insert_or_replace_ticket (cols : ticket_cols) : M connection unit :=
  with_current (fun tb =>
    let row := mkTicketRow (max_rowid (tickets tb) + 1) cols in
    let kept :=
      List.filter (fun r => negb (sql_eq (t_key (t_cols r)) (t_key cols)))
        (tickets tb) in
    mkTables (kept ++ [row]) (comments tb) (changelog tb) (issue_links tb)
      (subtasks tb)
      (option_map (fun index => index ++ [fts_entry_of row]) (tickets_fts tb))
      (seq_changelog tb) (seq_issue_links tb) (seq_subtasks tb)).

(** The four [DELETE FROM ... WHERE ticket_key = ?]. *)
Definition sql_delete_children (k : option string) : M connection unit :=
  with_current (fun tb =>
    mkTables (tickets tb)
      (List.filter (fun r => negb (sql_eq (c_ticket_key r) k)) (comments tb))
      (List.filter (fun r => negb (sql_eq (h_ticket_key (snd r)) k)) (changelog tb))
      (List.filter (fun r => negb (sql_eq (l_ticket_key (snd r)) k)) (issue_links tb))
      (List.filter (fun r => negb (sql_eq (s_ticket_key (snd r)) k)) (subtasks tb))
      (tickets_fts tb)
      (seq_changelog tb) (seq_issue_links tb) (seq_subtasks tb)).

(** [INSERT INTO comments]: [id] is the primary key, so a second row with
    the same non-null [id] is refused. *)
Definition sql_insert_comment (row : comment_row) : M connection unit :=
  let! tb := gets current in
  if existsb (fun r => sql_eq (c_id r) (c_id row)) (comments tb)
  then raise IntegrityError
  else
    with_current (fun tb =>
      mkTables (tickets tb) (comments tb ++ [row]) (changelog tb)
        (issue_links tb) (subtasks tb) (tickets_fts tb)
        (seq_changelog tb) (seq_issue_links tb) (seq_subtasks tb)).

Definition sql_insert_changelog (cols : changelog_cols) : M connection unit :=
  with_current (fun tb =>
    let id := seq_changelog tb + 1 in
    mkTables (tickets tb) (comments tb) (changelog tb ++ [(id, cols)])
      (issue_links tb) (subtasks tb) (tickets_fts tb)
      id (seq_issue_links tb) (seq_subtasks tb)).

Definition sql_insert_link (cols : link_cols) : M connection unit :=
  with_current (fun tb =>
    let id := seq_issue_links tb + 1 in
    mkTables (tickets tb) (comments tb) (changelog tb)
      (issue_links tb ++ [(id, cols)]) (subtasks tb) (tickets_fts tb)
      (seq_changelog tb) id (seq_subtasks tb)).

Definition sql_insert_subtask (cols : subtask_cols) : M connection unit :=
  with_current (fun tb =>
    let id := seq_subtasks tb + 1 in
    mkTables (tickets tb) (comments tb) (changelog tb) (issue_links tb)
      (subtasks tb ++ [(id, cols)]) (tickets_fts tb)
      (seq_changelog tb) (seq_issue_links tb) id).

Definition comment_params (k : option string) (comment : json) : result comment_row :=
  let* id := py_get comment "id" in
  let* author := py_get comment "author" in
  let* author_id := get_user_field author "accountId" in
  let* author_name := get_user_field author "displayName" in
  let* author_email := get_user_field author "emailAddress" in
  let* body := py_get comment "body" in
  let* body_raw := py_get comment "bodyRaw" in
  let* created := py_get comment "created" in
  let* updated := py_get comment "updated" in
  let* b_id := bind_text id in
  let* b_author_id := bind_text author_id in
  let* b_author_name := bind_text author_name in
  let* b_author_email := bind_text author_email in
  let* b_body := bind_text body in
  let* b_created := bind_text created in
  let* b_updated := bind_text updated in
  OK (mkCommentRow b_id k b_author_id b_author_name b_author_email b_body
        (Some (json_dumps body_raw)) b_created b_updated).

Definition changelog_params (k : option string) (change : json) : result changelog_cols :=
  let* field := py_get change "field" in
  let* fieldtype := py_get change "fieldtype" in
  let* from := py_get change "from" in
  let* to := py_get change "to" in
  let* author := py_get change "author" in
  let* author_id := get_user_field author "accountId" in
  let* author_name := get_user_field author "displayName" in
  let* author_email := get_user_field author "emailAddress" in
  let* created := py_get change "created" in
  let* b_field := bind_text field in
  let* b_fieldtype := bind_text fieldtype in
  let* b_from := bind_text from in
  let* b_to := bind_text to in
  let* b_author_id := bind_text author_id in
  let* b_author_name := bind_text author_name in
  let* b_author_email := bind_text author_email in
  let* b_created := bind_text created in
  OK (mkChangelogCols k b_field b_fieldtype b_from b_to b_author_id
        b_author_name b_author_email b_created).

Definition link_params (k : option string) (link : json) : result link_cols :=
  let* type := py_get link "type" in
  let* inward := py_get link "inward" in
  let* outward := py_get link "outward" in
  let* b_type := bind_text type in
  let* b_inward := bind_text inward in
  let* b_outward := bind_text outward in
  OK (mkLinkCols k b_type b_inward b_outward).

Definition subtask_params (k : option string) (subtask : json) : result subtask_cols :=
  let* key := py_get subtask "key" in
  let* summary := py_get subtask "summary" in
  let* b_key := bind_text key in
  let* b_summary := bind_text summary in
  OK (mkSubtaskCols k b_key b_summary).

(** [JiraDatabase.insert_ticket] *)
Definition insert_ticket (ticket : pydict) : M connection unit :=
  let! cols := lift (ticket_params ticket) in
  sql_insert_or_replace_ticket cols ;;
  let! k := lift (bind_text (dget ticket "key")) in
  sql_delete_children k ;;
  let! cs := lift (py_iter (dget_default ticket "comments" (JList []))) in
  for_each cs (fun comment =>
    let! row := lift (comment_params k comment) in
    sql_insert_comment row) ;;
  let! hs := lift (py_iter (dget_default ticket "changelog" (JList []))) in
  for_each hs (fun change =>
    let! cols := lift (changelog_params k change) in
    sql_insert_changelog cols) ;;
  let! ls := lift (py_iter (dget_default ticket "links" (JList []))) in
  for_each ls (fun link =>
    let! cols := lift (link_params k link) in
    sql_insert_link cols) ;;
  let! ss := lift (py_iter (dget_default ticket "subtasks" (JList []))) in
  for_each ss (fun subtask =>
    let! cols := lift (subtask_params k subtask) in
    sql_insert_subtask cols) ;;
  commit.

(** ** FederatedQuery: [search] of jira_viewer.py *)

(** [tickets_fts MATCH q]: [None] when [q] is not a well-formed FTS5 query,
    otherwise the test on the three indexed texts of an entry. *)
Variable fts5_match :
  string -> option (option string * option string * option string -> bool).

(** [text LIKE pattern] on non-null text. *)
Variable sql_like : string -> string -> bool.

(** The nine columns both [SELECT]s of [search] return. *)
Record summary_row : Type := mkSummaryRow {
  r_key : option string;
  r_summary : option string;
  r_status : option string;
  r_status_category : option string;
  r_issue_type : option string;
  r_project_key : option string;
  r_assignee_name : option string;
  r_created : option string;
  r_updated : option string
}.

Definition select_summary (c : ticket_cols) : summary_row :=
  mkSummaryRow (t_key c) (t_summary c) (t_status c) (t_status_category c)
    (t_issue_type c) (t_project_key c) (t_assignee_name c) (t_created c)
    (t_updated c).

(** [AND col = ?], added only for a non-empty filter. *)
Definition filter_eq (wanted : string) (col : option string) : bool :=
  if String.eqb wanted EmptyString then true else sql_eq col (Some wanted).

Definition structured_filters (status project issue_type : string)
    (c : ticket_cols) : bool :=
  filter_eq status (t_status c) && filter_eq project (t_project_key c) &&
  filter_eq issue_type (t_issue_type c).

(** The row of the content table an index entry points to. *)
Definition content_row (rowid : Z) (rows : list ticket_row) : option ticket_row :=
  List.find (fun r => t_rowid r =? rowid) rows.

(** [tickets t JOIN tickets_fts fts ON t.key = fts.key WHERE tickets_fts
    MATCH ?]: the entries of the index that match are visited in order; the
    column [fts.key] of an entry is read from the content table, and an
    entry whose row is gone makes SQLite report a malformed database. *)
Fixpoint fts_join (matches : list fts_entry) (rows : list ticket_row)
    (keep : ticket_cols -> bool) : result (list summary_row) :=
  match matches with
  | [] => OK []
  | e :: rest =>
      match content_row (f_rowid e) rows with
      | None => Err DatabaseError
      | Some c =>
          let here :=
            List.filter
              (fun r => sql_eq (t_key (t_cols r)) (t_key (t_cols c)) &&
                        keep (t_cols r)) rows in
          let* more := fts_join rest rows keep in
          OK (map (fun r => select_summary (t_cols r)) here ++ more)
      end
  end.

Definition fts_query (query : string) : string :=
  if has_space query then dquote +:+ query +:+ dquote else query +:+ "*".

Definition fts_select (index : list fts_entry) (db : tables)
    (query status project issue_type : string) : result (list summary_row) :=
  match fts5_match (fts_query query) with
  | None => Err OperationalError
  | Some hit =>
      fts_join
        (List.filter (fun e => hit (f_key e, f_summary e, f_description e)) index)
        (tickets db) (structured_filters status project issue_type)
  end.

Definition like_any (pattern : string) (c : ticket_cols) : bool :=
  let like col := match col with Some s => sql_like pattern s | None => false end in
  like (t_key c) || like (t_summary c) || like (t_description c).

Definition like_select (db : tables) (query status project issue_type : string)
    : list summary_row :=
  let text_ok c :=
    if String.eqb query EmptyString then true
    else like_any ("%" +:+ query +:+ "%") c in
  map (fun r => select_summary (t_cols r))
    (List.filter
       (fun r => text_ok (t_cols r) &&
                 structured_filters status project issue_type (t_cols r))
       (tickets db)).

(** The body of [for db in get_all_dbs()]. *)
Definition search_db (query status project issue_type : string) (db : tables)
    : result (list summary_row) :=
  match tickets_fts db with
  | Some index =>
      if negb (String.eqb query EmptyString)
      then fts_select index db query status project issue_type
      else OK (like_select db query status project issue_type)
  | None => OK (like_select db query status project issue_type)
  end.

(** [x.get("updated") or ""] *)
Definition updated_key (x : summary_row) : string := default EmptyString (r_updated x).

(** [all_tickets] of [search] after the sort. *)
Definition search_all (dbs : list tables) (query status project issue_type : string)
    : result (list summary_row) :=
  let* per_db := rmapM (search_db query status project issue_type) dbs in
  OK (sort_desc updated_key (concat per_db)).

Definition per_page : Z := 50.

(** What [search] hands to the template: the page of tickets and
    [total_pages]; [page] is the request argument once parsed by [int]. *)
Definition search (dbs : list tables) (query status project issue_type : string)
    (page : Z) : result (list summary_row * Z) :=
  let* all_tickets := search_all dbs query status project issue_type in
  let total := Z.of_nat (length all_tickets) in
  let total_pages := (total + per_page - 1) / per_page in
  let offset := (page - 1) * per_page in
  OK (py_slice all_tickets offset (offset + per_page), total_pages).

(** [JiraScraper.process_issue] *)
Definition process_issue (issue : json) : M world pydict :=
  let! fields := lift (py_get_default issue "fields" (JObj [])) in
  let! issue_key := lift (py_get issue "key") in
  let! comments := get_issue_comments issue_key in
  let! description := lift (py_get_default fields "description" (JObj [])) in
  let! description_text :=
    lift (if is_dict description then _adf_to_text description_depth description
          else OK (if truthy description then py_str description else "")) in
  let! now := gets utc_now in
  lift (build_processed issue fields issue_key comments description_text now).

(** ** The other entry points of the scraper *)

(** [JiraConfig] and [JiraConfig.from_env], the three module globals being
    arguments. *)
Record JiraConfig : Type := mkJiraConfig {
  url : string;
  email : string;
  api_token : string
}.

Definition is_empty (s : string) : bool := String.eqb s EmptyString.

Definition from_env (JIRA_URL JIRA_EMAIL JIRA_API_TOKEN : string)
    : M world JiraConfig :=
  let missing :=
    (if is_empty JIRA_URL then ["JIRA_URL"] else []) ++
    (if is_empty JIRA_EMAIL then ["JIRA_EMAIL"] else []) ++
    (if is_empty JIRA_API_TOKEN then ["JIRA_API_TOKEN"] else []) in
  match missing with
  | [] => ret (mkJiraConfig (rstrip_slash JIRA_URL) JIRA_EMAIL JIRA_API_TOKEN)
  | _ :: _ =>
      print "ERROR: Missing required environment variables:" ;;
      for_each missing (fun var => print ("  - " +:+ var)) ;;
      print (nl +:+ "Set them in a .env file or as environment variables.") ;;
      print "See .env.example for reference." ;;
      raise (SystemExit 1)
  end.

(** [except Exception]: everything but [SystemExit]. *)
Definition is_exception (e : exn) : bool :=
  match e with SystemExit _ => false | _ => true end.

(** [JiraScraper.list_projects] *)
Definition list_projects : M world json :=
  try_except (_api_get "project" None) is_exception (ret (JList [])).

(** [JiraScraper.get_issue_transitions] *)
Definition get_issue_transitions (issue_key : json) : M world json :=
  try_except
    (let! data := _api_get ("issue/" +:+ py_str issue_key +:+ "/transitions") None in
     lift (py_get_default data "transitions" (JList [])))
    is_http_error
    (ret (JList [])).

(** The [while True] of [search_issues]; [next_page_token] starts as
    [None]. The [params] dict is a new object on every round. *)
Fixpoint search_issues_loop (fuel : nat) (jql : string) (progress : bool)
    (all_issues : list json) (next_page_token : json) (page : Z)
    : M world (list json) :=
  match fuel with
  | O => diverge
  | S fuel' =>
      let page := page + 1 in
      let! params :=
        alloc [("jql", JStr jql); ("expand", JStr "changelog,renderedFields");
               ("fields", JStr "*all"); ("maxResults", JInt 100)] in
      (if truthy next_page_token
       then setitem params "nextPageToken" next_page_token
       else ret tt) ;;
      let! data := _api_get "search/jql" (Some params) in
      let! issues := lift (py_get_default data "issues" (JList [])) in
      let! items := lift (py_iter issues) in
      let all_issues := all_issues ++ items in
      let! total := lift (py_get_default data "total" (JStr "?")) in
      when progress
        (print ("  Page " +:+ pretty page +:+ ": fetched " +:+
                pretty (Z.of_nat (length items)) +:+
                " issues (total so far: " +:+
                pretty (Z.of_nat (length all_issues)) +:+
                ", reported total: " +:+ py_str total +:+ ")")) ;;
      let! next := lift (py_get data "nextPageToken") in
      if negb (truthy next) || negb (truthy issues) then
        when progress
          (print ("  Done: fetched " +:+ pretty (Z.of_nat (length all_issues)) +:+
                  " issues")) ;;
        ret all_issues
      else search_issues_loop fuel' jql progress all_issues next page
  end.

(** [JiraScraper.search_issues] *)
Definition search_issues (fuel : nat) (jql : string) (progress : bool)
    : M world (list json) :=
  search_issues_loop fuel jql progress [] JNull 0.

(** [JiraDatabase.get_stats]; it reads through the connection, so it sees
    what the open transaction holds. *)
Record db_stats : Type := mkDbStats {
  stat_tickets : nat;
  stat_comments : nat;
  stat_changelog_entries : nat;
  stat_projects : nat
}.

Definition project_keys (tb : tables) : list string :=
  omap (fun r => t_project_key (t_cols r)) (tickets tb).

Definition get_stats (c : connection) : db_stats :=
  let tb := current c in
  mkDbStats (length (tickets tb)) (length (comments tb))
    (length (changelog tb))
    (length (List.nodup String.string_dec (project_keys tb))).

(** [JiraDatabase.close]: what was not committed is lost. *)
Definition close (c : connection) : connection :=
  mkConnection (committed c) (committed c).

(** [export_to_db] runs the client and the store side by side. *)
Definition in_world {A} (m : M world A) : M (world * connection) A :=
  fun s =>
    match m (fst s) with
    | (r, w') => (r, (w', snd s))
    end.

Definition in_db {A} (m : M connection A) : M (world * connection) A :=
  fun s =>
    match m (snd s) with
    | (r, c') => (r, (fst s, c'))
    end.

(** The [for i, issue in enumerate(issues)] of [export_to_db]. *)
Fixpoint export_loop (progress : bool) (total : nat) (i : nat)
    (issues : list json) : M (world * connection) unit :=
  match issues with
  | [] => ret tt
  | issue :: rest =>
      let! issue_key := lift (py_get issue "key") in
      in_world
        (when progress
           (print ("Processing " +:+ pretty (Z.of_nat (i + 1)) +:+ "/" +:+
                   pretty (Z.of_nat total) +:+ ": " +:+ py_str issue_key))) ;;
      let! processed := in_world (process_issue issue) in
      in_db (insert_ticket processed) ;;
      export_loop progress total (S i) rest
  end.

(** [JiraScraper.export_to_db]; the state holds the world and the database
    file at [db_path], seen as a connection with nothing pending. The search
    is made with its own default [progress=True]. *)
Definition export_to_db (fuel : nat) (jql : string) (db_path : string)
    (progress : bool) : M (world * connection) Z :=
  in_world (when progress (print ("Searching for issues with JQL: " +:+ jql))) ;;
  let! issues := in_world (search_issues fuel jql true) in
  let n := length issues in
  in_world (when progress
    (print ("Found " +:+ pretty (Z.of_nat n) +:+ " issues"))) ;;
  match issues with
  | [] => ret 0
  | _ :: _ =>
      in_db _create_tables ;;
      export_loop progress n 0 issues ;;
      let! stats := in_db (gets get_stats) in
      in_db (modify close) ;;
      in_world (when progress
        (print (nl +:+ "Exported " +:+ pretty (Z.of_nat n) +:+ " issues to " +:+ db_path) ;;
         print "Database stats:" ;;
         print ("  Total tickets: " +:+ pretty (Z.of_nat (stat_tickets stats))) ;;
         print ("  Total comments: " +:+ pretty (Z.of_nat (stat_comments stats))) ;;
         print ("  Total changelog entries: " +:+
                pretty (Z.of_nat (stat_changelog_entries stats))) ;;
         print ("  Projects: " +:+ pretty (Z.of_nat (stat_projects stats))))) ;;
      ret (Z.of_nat n)
  end.

(** ** The other routes of the viewer *)

(** [json.loads]; [None] when it raises. *)
Variable json_loads : string -> option json.

(** [get_db_for_ticket]: the first database, in the order they were
    opened, that has a ticket with this key. *)
Definition has_ticket (ticket_key : string) (db : tables) : bool :=
  existsb (fun r => sql_eq (t_key (t_cols r)) (Some ticket_key)) (tickets db).

Definition get_db_for_ticket (dbs : list tables) (ticket_key : string)
    : option tables :=
  List.find (has_ticket ticket_key) dbs.

(** [get_stats] of the viewer. *)
Record viewer_stats : Type := mkViewerStats {
  vs_tickets : nat;
  vs_comments : nat;
  vs_projects : nat
}.

Definition viewer_get_stats (dbs : list tables) : viewer_stats :=
  mkViewerStats
    (fold_left (fun n db => (n + length (tickets db))%nat) dbs 0%nat)
    (fold_left (fun n db => (n + length (comments db))%nat) dbs 0%nat)
    (length (List.nodup String.string_dec (concat (map project_keys dbs)))).

(** [get_filter_options] *)
Definition get_filter_options (dbs : list tables)
    : list string * list string * list string :=
  let column (col : ticket_cols -> option string) :=
    sorted_set (concat (map (fun db => omap (fun r => col (t_cols r)) (tickets db)) dbs)) in
  (column t_status, column t_project_key, column t_issue_type).

(** What [ticket_detail] hands to its template. *)
Record ticket_page : Type := mkTicketPage {
  tp_ticket : ticket_row;
  tp_comments : list comment_row;
  tp_changelog : list (Z * changelog_cols);
  tp_labels : json
}.

(** [ticket_detail]; [None] is the 404 answer. [ORDER BY created ASC] and
    [ORDER BY created DESC] are taken as stable sorts. *)
Definition ticket_detail (dbs : list tables) (key : string) : option ticket_page :=
  match get_db_for_ticket dbs key with
  | None => None
  | Some db =>
      match List.find (fun r => sql_eq (t_key (t_cols r)) (Some key)) (tickets db) with
      | None => None
      | Some ticket =>
          let cs :=
            sort_by (fun a b => sql_le (c_created a) (c_created b))
              (List.filter (fun r => sql_eq (c_ticket_key r) (Some key)) (comments db)) in
          let hs :=
            sort_by (fun a b => sql_le (h_created (snd b)) (h_created (snd a)))
              (List.filter (fun r => sql_eq (h_ticket_key (snd r)) (Some key))
                 (changelog db)) in
          let labels :=
            match t_labels (t_cols ticket) with
            | Some text =>
                if String.eqb text EmptyString then JList []
                else match json_loads text with
                     | Some v => v
                     | None => JList []
                     end
            | None => JList []
            end in
          Some (mkTicketPage ticket cs hs labels)
      end
  end.

End Program.

(** ** Notions used to state the properties *)

(** Well-formed rich-text input, as far as the flattener depends on it: the
    [text] of a text node, when present, is a string; the [attrs] of a
    mention node, when present, is an object; and so on in every list item
    and in every visited [content]. Any other shape is allowed. *)
Definition is_str (x : json) : bool :=
  match x with JStr _ => true | _ => false end.

Section ContentCheck.
Variable f : json -> bool.

Fixpoint content_ok (d : list (string * json)) : bool :=
  match d with
  | [] => true
  | (k, v) :: r =>
      if String.eqb "content" k
      then (if truthy v then f v else true)
      else content_ok r
  end.
End ContentCheck.

Fixpoint wf_adf (node : json) : bool :=
  match node with
  | JList l => forallb wf_adf l
  | JObj d =>
      (if type_is d "text" then is_str (dget_default d "text" (JStr ""))
       else if type_is d "hardBreak" then true
       else if type_is d "mention" then is_dict (dget_default d "attrs" (JObj []))
       else true)
      && content_ok wf_adf d
  | _ => true
  end.

(** The nesting of the calls of [extract_text] on a node: one call for the
    node, and below it those for the items of a list or for the visited
    [content] of a dict. *)
Section ContentFrames.
Variable f : json -> nat.

Fixpoint content_frames (d : list (string * json)) : nat :=
  match d with
  | [] => 0
  | (k, v) :: r =>
      if String.eqb "content" k
      then (if truthy v then f v else 0)
      else content_frames r
  end.
End ContentFrames.

Fixpoint frames_needed (node : json) : nat :=
  match node with
  | JList l => S (list_max (map frames_needed l))
  | JObj d => S (content_frames frames_needed d)
  | _ => 1
  end.

(** Whether a description is nested deeper than the calls left to
    [process_issue] allow. *)
Definition description_too_deep (description_depth : nat) (description : json)
    : bool :=
  is_dict description && (S description_depth <? frames_needed description)%nat.

(** A [content] chain [n] levels deep around [leaf]. *)
Fixpoint nest (n : nat) (leaf : json) : json :=
  match n with
  | O => leaf
  | S k => JObj [("type", JStr "paragraph"); ("content", JList [nest k leaf])]
  end.

Definition text_node (s : string) : json :=
  JObj [("type", JStr "text"); ("text", JStr s)].


(** What the list comprehension of [_extract_custom_fields] yields for an
    element that is an object: its [value] when that is truthy, else its
    [name] when that is truthy, else the element. *)
Definition element_projection (e : json) : json :=
  match e with
  | JObj o =>
      if truthy (dget o "value") then dget o "value"
      else if truthy (dget o "name") then dget o "name"
      else e
  | _ => e
  end.

Definition is_null (x : json) : bool :=
  match x with JNull => true | _ => false end.

(** An array whose first element is an object. *)
Definition starts_with_object (x : json) : bool :=
  match x with
  | JList (first :: _) => is_dict first
  | _ => false
  end.

(** A custom field the loop of [_extract_custom_fields] takes up. *)
Definition selected (k : string) (v : json) : bool :=
  startswith "customfield_" k && negb (is_null v).

(** A computation that leaves every dict object as it found it. *)
Definition keeps_heap {A} (m : M world A) : Prop :=
  forall w, heap (snd (m w)) = heap w.

(** A computation that allocates nothing and writes to [own] at most. *)
Definition writes_only {A} (own : nat) (m : M world A) : Prop :=
  forall w,
    length (heap (snd (m w))) = length (heap w) /\
    forall l, l <> own -> heap (snd (m w)) !! l = heap w !! l.

(** The request [_api_get] sends for [params] in world [w]. *)
Definition request_for (endpoint : string) (params : option nat) (w : world)
    : request :=
  mkRequest endpoint
    (match params with
     | None => None
     | Some l => Some (default [] (heap w !! l))
     end).

(** The answer to the comments request of [get_issue_comments] for a
    ticket, made in world [w], when it is sent for the [i]-th time again. *)
Definition comments_answer (repr_str : string -> string)
    (source : list request -> request -> response) (issue_key : json)
    (w : world) (i : nat) : response :=
  let req := mkRequest ("issue/" +:+ py_str repr_str issue_key +:+ "/comment") None in
  source (requests_of w ++ repeat req i) req.

(** A rate-limited answer whose [Retry-After] header, when present, is a
    number of seconds [time.sleep] accepts. *)
Definition rate_limited (r : response) (secs : Z) : Prop :=
  status_code r = 429 /\ retry_after_seconds r = OK secs /\ secs <= 9223372036.

Definition is_sleep (e : event) : option Z :=
  match e with EvSleep ms => Some ms | _ => None end.

(** The sleeps made so far, in milliseconds, oldest first. *)
Definition sleeps_of (w : world) : list Z := omap is_sleep (events w).

(** What one answer that is not rate limited makes of a call of
    [_api_get]. *)
Definition answer_outcome (r : response) : outcome json :=
  if (status_code r =? 401) || (status_code r =? 403) then Raise (SystemExit 1)
  else if (400 <=? status_code r) && (status_code r <? 600)
  then Raise (HTTPError (status_code r))
  else match body r with
       | Some data => Ret data
       | None => Raise JSONDecodeError
       end.

(** An answer that [_api_get] returns the body of. *)
Definition answers_ok (r : response) (data : json) : Prop :=
  status_code r <> 429 /\ status_code r <> 401 /\ status_code r <> 403 /\
  ~ (400 <= status_code r < 600) /\ body r = Some data.

(** The ids an [AUTOINCREMENT] table gives to rows inserted one after the
    other when the last id used is [last]. *)
Fixpoint numbered {A} (last : Z) (rows : list A) : list (Z * A) :=
  match rows with
  | [] => []
  | r :: rest => (last + 1, r) :: numbered (last + 1) rest
  end.

(** Whether [rows], inserted one after the other into a [comments] table
    holding [existing], all pass the primary-key check on [id]. *)
Fixpoint comments_accept (existing rows : list comment_row) : bool :=
  match rows with
  | [] => true
  | r :: rest =>
      negb (existsb (fun x => sql_eq (c_id x) (c_id r)) existing) &&
      comments_accept (existing ++ [r]) rest
  end.

(** The tables an accepted [insert_ticket] leaves, from those it found. *)
Definition upserted (tb : tables) (cols : ticket_cols)
    (crows : list comment_row) (hrows : list changelog_cols)
    (lrows : list link_cols) (srows : list subtask_cols) : tables :=
  let k := t_key cols in
  let row := mkTicketRow (max_rowid (tickets tb) + 1) cols in
  mkTables
    (List.filter (fun r => negb (sql_eq (t_key (t_cols r)) k)) (tickets tb) ++ [row])
    (List.filter (fun r => negb (sql_eq (c_ticket_key r) k)) (comments tb) ++ crows)
    (List.filter (fun r => negb (sql_eq (h_ticket_key (snd r)) k)) (changelog tb)
       ++ numbered (seq_changelog tb) hrows)
    (List.filter (fun r => negb (sql_eq (l_ticket_key (snd r)) k)) (issue_links tb)
       ++ numbered (seq_issue_links tb) lrows)
    (List.filter (fun r => negb (sql_eq (s_ticket_key (snd r)) k)) (subtasks tb)
       ++ numbered (seq_subtasks tb) srows)
    (option_map (fun index => index ++ [fts_entry_of row]) (tickets_fts tb))
    (seq_changelog tb + Z.of_nat (length hrows))
    (seq_issue_links tb + Z.of_nat (length lrows))
    (seq_subtasks tb + Z.of_nat (length srows)).

(** [SELECT COUNT( * ) FROM t WHERE col = k] for the five tables. *)
Definition count_tickets (k : string) (tb : tables) : nat :=
  length (List.filter (fun r => sql_eq (t_key (t_cols r)) (Some k)) (tickets tb)).
Definition count_comments (k : string) (tb : tables) : nat :=
  length (List.filter (fun r => sql_eq (c_ticket_key r) (Some k)) (comments tb)).
Definition count_changelog (k : string) (tb : tables) : nat :=
  length (List.filter (fun r => sql_eq (h_ticket_key (snd r)) (Some k)) (changelog tb)).
Definition count_links (k : string) (tb : tables) : nat :=
  length (List.filter (fun r => sql_eq (l_ticket_key (snd r)) (Some k)) (issue_links tb)).
Definition count_subtasks (k : string) (tb : tables) : nat :=
  length (List.filter (fun r => sql_eq (s_ticket_key (snd r)) (Some k)) (subtasks tb)).

(** The rows the five tables hold for a key, in table order. *)
Definition rows_for (k : string) (tb : tables)
    : list ticket_row * list comment_row * list (Z * changelog_cols) *
      list (Z * link_cols) * list (Z * subtask_cols) :=
  (List.filter (fun r => sql_eq (t_key (t_cols r)) (Some k)) (tickets tb),
   List.filter (fun r => sql_eq (c_ticket_key r) (Some k)) (comments tb),
   List.filter (fun r => sql_eq (h_ticket_key (snd r)) (Some k)) (changelog tb),
   List.filter (fun r => sql_eq (l_ticket_key (snd r)) (Some k)) (issue_links tb),
   List.filter (fun r => sql_eq (s_ticket_key (snd r)) (Some k)) (subtasks tb)).

(** The primary keys of [tickets] and [comments] hold: at most one ticket
    row for a key and for a [rowid], at most one comment row for an [id]. *)
Definition store_ok (tb : tables) : Prop :=
  (forall k, (count_tickets k tb <= 1)%nat) /\
  (forall z,
     (length (List.filter (fun r => Z.eqb (t_rowid r) z) (tickets tb)) <= 1)%nat) /\
  (forall id,
     (length (List.filter (fun r => sql_eq (c_id r) (Some id)) (comments tb)) <= 1)%nat).

(** [entry] is what [extract_changelog] makes of [item] of [history]: the
    six keys, [from] and [to] being the item's [fromString] and [toString],
    author and time being those of the history. *)
Definition entry_of (history item entry : json) : Prop :=
  exists d author,
    entry = JObj d /\
    dict_keys d = ["field"; "fieldtype"; "from"; "to"; "author"; "created"] /\
    py_get item "field" = OK (dget d "field") /\
    py_get item "fieldtype" = OK (dget d "fieldtype") /\
    py_get item "fromString" = OK (dget d "from") /\
    py_get item "toString" = OK (dget d "to") /\
    py_get history "author" = OK author /\
    extract_user_info author = OK (dget d "author") /\
    py_get history "created" = OK (dget d "created").

(** The number of pages of a hundred that a declared total asks for, one at
    least. *)
Definition pages_for (declared : Z) : nat :=
  Z.to_nat (Z.max 1 ((declared + 99) / 100)).

(** A computation that leaves the world as it is. *)
Definition silent {A} (m : M world A) : Prop := forall w, snd (m w) = w.

(** The world after more events. *)
Definition add_events (w : world) (more : list event) : world :=
  mkWorld (heap w) (events w ++ more) (utc_now w).

(** The text the key of a raw issue is stored as, when it has one. *)
Definition issue_key_text (issue : json) : option string :=
  match py_get issue "key" with
  | OK v => match bind_text v with OK k => k | Err _ => None end
  | Err _ => None
  end.

(** [n] slashes. *)
Fixpoint slashes (n : nat) : string :=
  match n with
  | O => EmptyString
  | S n' => String "/" (slashes n')
  end.

(** The last character of a text. *)
Fixpoint last_char (s : string) : option ascii :=
  match s with
  | EmptyString => None
  | String c EmptyString => Some c
  | String _ r => last_char r
  end.

(** The filters of [search], read off a row of its result. *)
Definition passes (status project issue_type : string) (x : summary_row) : bool :=
  filter_eq status (r_status x) && filter_eq project (r_project_key x) &&
  filter_eq issue_type (r_issue_type x).

(** The tickets [search] shows, none when it raises. *)
Definition shown (r : result (list summary_row * Z)) : list summary_row :=
  match r with
  | OK (tickets, _) => tickets
  | Err _ => []
  end.

(** [a] may stand before [b] in [ORDER BY ... ASC], and in [... DESC]. *)
Definition created_asc (a b : comment_row) : Prop :=
  sql_le (c_created a) (c_created b) = true.
Definition created_desc (a b : Z * changelog_cols) : Prop :=
  sql_le (h_created (snd b)) (h_created (snd a)) = true.

(** [a] stands strictly before [b] in the order of [sorted] on strings. *)
Definition str_lt (a b : string) : Prop := String.ltb a b = true.

(** The row has a key that is not [NULL]. *)
Definition has_key (c : ticket_cols) : bool :=
  match t_key c with Some _ => true | None => false end.

(** The three texts of a row that the index covers. *)
Definition indexed_texts (c : ticket_cols)
    : option string * option string * option string :=
  (t_key c, t_summary c, t_description c).

(** The index holds, row for row, what the content table holds. *)
Definition index_in_step (tb : tables) : Prop :=
  tickets_fts tb = Some (map fts_entry_of (tickets tb)).

(** A computation that writes to the open transaction only. *)
Definition keeps_committed {A} (m : M connection A) : Prop :=
  forall c, committed (snd (m c)) = committed c.

(** A computation that commits, if at all, only when it returns. *)
Definition commits_on_return {A} (m : M connection A) : Prop :=
  forall c,
    match fst (m c) with
    | Ret _ => True
    | _ => committed (snd (m c)) = committed c
    end.

(** The number of elements a [for] loop over [ticket.get(k, [])] visits. *)
Definition loop_length (ticket : pydict) (k : string) : nat :=
  match py_iter (dget_default ticket k (JList [])) with
  | OK l => length l
  | Err _ => 0
  end.

(** ** Instances and simulated sources

    Stand-ins for the library operations, and the remote sources and
    records of the scenarios, for the statements that are evaluated. *)

(** [json.dumps] on values whose strings need no escaping. *)
Fixpoint dumps_plain (x : json) : string :=
  match x with
  | JNull => "null"
  | JBool true => "true"
  | JBool false => "false"
  | JInt z => pretty z
  | JStr s => dquote +:+ s +:+ dquote
  | JList l => "[" +:+ str_join ", " (map dumps_plain l) +:+ "]"
  | JObj d =>
      "{" +:+
      str_join ", "
        ((fix items (d : list (string * json)) : list string :=
            match d with
            | [] => []
            | (k, v) :: r =>
                (dquote +:+ k +:+ dquote +:+ ": " +:+ dumps_plain v) :: items r
            end) d)
      +:+ "}"
  end.

(** The words of a text: the maximal runs without a space. *)
Fixpoint words_from (current : string) (s : string) : list string :=
  match s with
  | EmptyString =>
      if String.eqb current EmptyString then [] else [current]
  | String c r =>
      if Ascii.eqb c " "%char
      then (if String.eqb current EmptyString then [] else [current]) ++
           words_from EmptyString r
      else words_from (current +:+ String c EmptyString) r
  end.

Definition words (s : string) : list string := words_from EmptyString s.

(** [s[:-1]] *)
Fixpoint drop_last (s : string) : string :=
  match s with
  | EmptyString => EmptyString
  | String c EmptyString => EmptyString
  | String c r => String c (drop_last r)
  end.

Definition ends_with_star (s : string) : bool :=
  match String.get (String.length s - 1) s with
  | Some c => Ascii.eqb c "*"%char
  | None => false
  end.

(** A matcher for prefix queries [word*] over space-separated words; any
    other query is refused. *)
Definition word_prefix_match (q : string)
    : option (option string * option string * option string -> bool) :=
  if ends_with_star q then
    Some (fun doc =>
      let '(k, s, d) := doc in
      existsb (String.prefix (drop_last q))
        (words (default EmptyString k) ++ words (default EmptyString s) ++
         words (default EmptyString d)))
  else None.

(** [text LIKE '%q%'] without wildcards in [q], case-sensitive. *)
Definition contains_like (pattern text : string) : bool :=
  let q := drop_last (String.substring 1 (String.length pattern - 1) pattern) in
  match String.index 0 q text with
  | Some _ => true
  | None => String.eqb q EmptyString
  end.

(** The value of a request parameter that is a number. *)
Definition int_param (r : request) (k : string) (dflt : Z) : Z :=
  match req_params r with
  | Some d => match dget d k with JInt z => z | _ => dflt end
  | None => dflt
  end.

(** An offset-paginated source holding [recs] and declaring [declared] as
    its total: every answer is the page
    [recs[startAt : startAt + maxResults]]. *)
Definition offset_source (recs : list json) (declared : Z)
    : list request -> request -> response :=
  fun _ r =>
    let start := Z.to_nat (int_param r "startAt" 0) in
    let size := Z.to_nat (int_param r "maxResults" 50) in
    mkResponse 200 HAbsent EmptyString
      (Some (JObj [("startAt", JInt (Z.of_nat start));
                   ("maxResults", JInt (Z.of_nat size));
                   ("total", JInt declared);
                   ("values", JList (firstn size (skipn start recs)))])).

(** [n] records, [f i] being the one at position [i]. *)
Definition records (f : nat -> json) (n : nat) : list json := map f (seq 0 n).

(** A source that answers every request with the same status and an empty
    object as body. *)
Definition always_status (status : Z) : list request -> request -> response :=
  fun _ _ => mkResponse status HAbsent "{}" (Some (JObj [])).

(** A source that is rate limited for its first [k] requests, asking for
    three seconds each time, and then answers with [data]. *)
Definition limited_then_ok (k : nat) (data : json)
    : list request -> request -> response :=
  fun seen _ =>
    if (length seen <? k)%nat
    then mkResponse 429 (HInt 3) EmptyString None
    else mkResponse 200 HAbsent EmptyString (Some data).

(** A source that is rate limited for its first [k] requests, asking for
    three seconds each time, and then answers with [status] and an empty
    object as body. *)
Definition limited_then_status (k : nat) (status : Z)
    : list request -> request -> response :=
  fun seen _ =>
    if (length seen <? k)%nat
    then mkResponse 429 (HInt 3) EmptyString None
    else mkResponse status HAbsent "{}" (Some (JObj [])).

(** A cursor-paginated source holding [pages]: the answer to a request
    with token [i] (none for the first page) is page [i] and, unless it is
    the last one, the token [i + 1]. *)
Definition cursor_source (pages : list (list json))
    : list request -> request -> response :=
  fun _ r =>
    let i := Z.to_nat (int_param r "nextPageToken" 0) in
    mkResponse 200 HAbsent EmptyString
      (Some (JObj (("issues", JList (nth i pages [])) ::
                   if (S i <? length pages)%nat
                   then [("nextPageToken", JInt (Z.of_nat (S i)))]
                   else []))).

(** The request [search_issues] makes for page [i] of such a source. *)
Definition search_request (jql : string) (i : nat) : request :=
  mkRequest "search/jql"
    (Some ([("jql", JStr jql); ("expand", JStr "changelog,renderedFields");
            ("fields", JStr "*all"); ("maxResults", JInt 100)] ++
           match i with
           | O => []
           | S _ => [("nextPageToken", JInt (Z.of_nat i))]
           end)).

(** The token [search_issues] holds before it asks for page [i]. *)
Definition token_before (i : nat) : json :=
  match i with
  | O => JNull
  | S _ => JInt (Z.of_nat i)
  end.

(** A raw issue with two histories, of two items and of one. *)
Definition history_issue : json :=
  JObj [("key", JStr "PROJ-1");
        ("changelog",
         JObj [("histories",
                JList [JObj [("created", JStr "2024-01-02");
                             ("author", JObj [("displayName", JStr "Ada")]);
                             ("items",
                              JList [JObj [("field", JStr "status");
                                           ("fromString", JStr "Open");
                                           ("toString", JStr "Done")];
                                     JObj [("field", JStr "resolution");
                                           ("toString", JStr "Fixed")]])];
                       JObj [("created", JStr "2024-01-03");
                             ("items",
                              JList [JObj [("field", JStr "assignee")]])]])])].

(** The request [_paginate] makes, without parameters of the caller, when
    it holds [m] records. *)
Definition offset_request (endpoint : string) (m : nat) : request :=
  mkRequest endpoint
    (Some [("startAt", JInt (Z.of_nat m)); ("maxResults", JInt 100)]).

(** A source for an export: its issues come in [pages] with a cursor, and
    no issue has a comment. *)
Definition export_source (pages : list (list json))
    : list request -> request -> response :=
  fun seen r =>
    if String.eqb (req_endpoint r) "search/jql"
    then cursor_source pages seen r
    else mkResponse 200 HAbsent EmptyString (Some (JObj [("comments", JList [])])).

(** A second raw issue, and one that has the key of [raw_issue] again. *)
Definition raw_issue_two : json :=
  JObj [("key", JStr "PROJ-2"); ("id", JStr "2");
        ("fields",
         JObj [("summary", JStr "beta");
               ("status", JObj [("name", JStr "Open")]);
               ("issuetype", JObj [("name", JStr "Task")]);
               ("project", JObj [("key", JStr "PROJ")])])].

(** A source with no comments on any issue. *)
Definition no_comments_source : list request -> request -> response :=
  fun _ _ =>
    mkResponse 200 HAbsent EmptyString (Some (JObj [("comments", JList [])])).

(** A source with one comment on every issue. *)
Definition one_comment_source : list request -> request -> response :=
  fun _ _ =>
    mkResponse 200 HAbsent EmptyString
      (Some (JObj [("comments",
                    JList [JObj [("id", JStr "10001");
                                 ("body", JStr "looks good")]])])).

(** A nesting depth that none of the scenarios reaches. *)
Definition plenty : nat := 900.

Definition new_world : world := mkWorld [] [] "2024-06-01T12:00:00+00:00".

(** A normalized record with two comments, one changelog entry, one link
    and no subtask. *)
Definition sample_ticket : pydict :=
  [("key", JStr "PROJ-1"); ("id", JStr "1"); ("summary", JStr "alpha beta");
   ("description", JStr "gamma"); ("descriptionRaw", JStr "gamma");
   ("issueType", JObj [("name", JStr "Bug"); ("subtask", JBool false)]);
   ("updated", JStr "2024-01-01");
   ("comments",
    JList [JObj [("id", JStr "c1"); ("body", JStr "one"); ("bodyRaw", JStr "one")];
           JObj [("id", JStr "c2"); ("body", JStr "two"); ("bodyRaw", JStr "two")]]);
   ("changelog", JList [JObj [("field", JStr "status"); ("to", JStr "Done")]]);
   ("links", JList [JObj [("type", JStr "Blocks"); ("outward", JStr "PROJ-2")]])].

Definition new_database : connection := open_database empty_tables.

(** Two raw issues that differ only in a field the normalizer does not
    read. *)
Definition raw_issue : json :=
  JObj [("key", JStr "PROJ-1"); ("id", JStr "1");
        ("fields",
         JObj [("summary", JStr "alpha");
               ("description", JStr "plain text");
               ("status", JObj [("name", JStr "Open")]);
               ("issuetype", JObj [("name", JStr "Bug")]);
               ("project", JObj [("key", JStr "PROJ")])])].

Definition raw_issue_with_votes : json :=
  JObj [("key", JStr "PROJ-1"); ("id", JStr "1");
        ("fields",
         JObj [("summary", JStr "alpha");
               ("description", JStr "plain text");
               ("status", JObj [("name", JStr "Open")]);
               ("issuetype", JObj [("name", JStr "Bug")]);
               ("project", JObj [("key", JStr "PROJ")]);
               ("votes", JObj [("votes", JInt 3)])])].

(** A raw issue whose [status] is null. *)
Definition raw_issue_null_status : json :=
  JObj [("key", JStr "PROJ-1"); ("id", JStr "1");
        ("fields", JObj [("summary", JStr "alpha"); ("status", JNull)])].

(** The store after one upsert of [sample_ticket] into a new database. *)
Definition once_upserted : connection :=
  snd (insert_ticket dumps_plain sample_ticket new_database).

(** The store after a second upsert of it. *)
Definition twice_upserted : connection :=
  snd (insert_ticket dumps_plain sample_ticket once_upserted).

(** A row of [tickets] with nothing but a key and an [updated] text. *)
Definition cols_updated (key updated : option string) : ticket_cols :=
  mkTicketCols key None None None None None None None None 0 None
    None None None None None None None None None None None updated
    None None None None None None None None None None None.

(** A record with another key, and the store after its upsert into
    [once_upserted]. *)
Definition other_ticket : pydict :=
  [("key", JStr "PROJ-2"); ("summary", JStr "beta");
   ("comments", JList [JObj [("id", JStr "c9"); ("body", JStr "nine")]])].

Definition two_tickets : connection :=
  snd (insert_ticket dumps_plain other_ticket once_upserted).

(** The store after the upsert of [other_ticket] into a new database. *)
Definition other_upserted : connection :=
  snd (insert_ticket dumps_plain other_ticket new_database).

(** The store after a second upsert of [other_ticket]. *)
Definition other_twice_upserted : connection :=
  snd (insert_ticket dumps_plain other_ticket other_upserted).

(** A record whose comments are not a list. *)
Definition broken_ticket : pydict :=
  [("key", JStr "PROJ-1"); ("summary", JStr "alpha"); ("comments", JInt 3)].

(** [json.loads] on the one text the scenarios store as labels. *)
Definition loads_empty_list (s : string) : option json :=
  if String.eqb s "[]" then Some (JList []) else None.

(** Two database files with one ticket each. *)
Definition ticket_updated (key updated : string) : ticket_row :=
  mkTicketRow 1 (cols_updated (Some key) (Some updated)).

(** The columns [insert_ticket] stores for [sample_ticket], and the test
    the prefix query for [alpha] makes. *)
Definition sample_cols : ticket_cols :=
  match ticket_params dumps_plain sample_ticket with
  | OK cols => cols
  | Err _ => cols_updated None None
  end.

Definition sample_hit : option string * option string * option string -> bool :=
  match word_prefix_match (fts_query "alpha") with
  | Some hit => hit
  | None => fun _ => false
  end.

(** What [process_issue] returns for [raw_issue] when the source has one
    comment, the world it leaves, and the store after the upsert of that
    record. *)
Definition normalized_sample : pydict :=
  match fst (process_issue quote_repr plenty plenty one_comment_source
               "https://example.atlassian.net" raw_issue new_world) with
  | Ret processed => processed
  | _ => []
  end.

Definition world_after_sample : world :=
  snd (process_issue quote_repr plenty plenty one_comment_source
         "https://example.atlassian.net" raw_issue new_world).

Definition store_after_sample : connection :=
  snd (insert_ticket dumps_plain normalized_sample new_database).

Definition store_january : tables :=
  mkTables [ticket_updated "A-1" "2024-01-01"] [] [] [] [] (Some []) 0 0 0.
Definition store_june : tables :=
  mkTables [ticket_updated "B-1" "2024-06-01"] [] [] [] [] None 0 0 0.

(** A world in which the caller holds one dict. *)
Definition caller_world : world :=
  mkWorld [[("jql", JStr "project = PROJ")]] [] "2024-06-01T12:00:00+00:00".

(** Raw fields with custom fields of every shape. *)
Definition custom_fields_sample : pydict :=
  [("summary", JStr "alpha");
   ("customfield_1", JObj [("value", JStr "High")]);
   ("customfield_2", JObj [("name", JStr "Gold")]);
   ("customfield_3", JList [JObj [("value", JStr "A")]; JObj [("value", JStr "B")]]);
   ("customfield_4", JNull);
   ("customfield_5", JInt 7)].

(** * Properties *)

#[local] Arguments String.eqb : simpl never.
#[local] Arguments String.prefix : simpl never.
#[local] Arguments String.append : simpl never.

(** ** DocumentFlattener *)

Section FlattenerProperties.
Variable repr_str : string -> string.

Lemma join_parts_total (parts : list json) :
  forallb is_str parts = true -> exists s, join_parts parts = OK s.
Proof.
  induction parts as [|x r IH]; simpl; intros H.
  - eexists; reflexivity.
  - apply andb_true_iff in H as [Hx Hr].
    destruct x; try discriminate.
    destruct (IH Hr) as [t Ht]. rewrite Ht. simpl. eexists; reflexivity.
Qed.

Lemma frames_needed_pos (node : json) : (1 <= frames_needed node)%nat.
Proof. destruct node; cbn [frames_needed]; lia. Qed.

(** The visits of a list, each of whose items either returns strings or
    runs out of frames. *)
Lemma visit_each_frames (f : json -> result (list json)) (frames : nat)
    (l : list json) :
  Forall (fun x =>
            ((frames_needed x <= frames)%nat ->
             exists parts, f x = OK parts /\ forallb is_str parts = true) /\
            ((frames < frames_needed x)%nat -> f x = Err RecursionError)) l ->
  ((list_max (map frames_needed l) <= frames)%nat ->
   exists parts, visit_each f l = OK parts /\ forallb is_str parts = true) /\
  ((frames < list_max (map frames_needed l))%nat ->
   visit_each f l = Err RecursionError).
Proof.
  induction 1 as [|x r [Hfit Hdeep] _ [IHfit IHdeep]]; cbn [map list_max visit_each].
  - split; [intros _; exists []; split; reflexivity | cbn; lia].
  - change (list_max (frames_needed x :: map frames_needed r))
      with (Nat.max (frames_needed x) (list_max (map frames_needed r))).
    split.
    + intros Hle. destruct Hfit as (px & Hx & Hpx); [lia|].
      destruct IHfit as (pr & Hr & Hpr); [lia|].
      rewrite Hx, Hr. cbn [rbind]. exists (px ++ pr). split; [reflexivity|].
      rewrite forallb_app, Hpx, Hpr. reflexivity.
    + intros Hlt. destruct (Nat.le_gt_cases (frames_needed x) frames) as [Hx | Hx].
      * destruct Hfit as (px & Hpx & _); [exact Hx|].
        rewrite Hpx, IHdeep by lia. reflexivity.
      * rewrite (Hdeep Hx). reflexivity.
Qed.

Lemma visit_content_frames (f : json -> result (list json)) (frames : nat)
    (d : list (string * json)) :
  (forall v, wf_adf v = true ->
     ((frames_needed v <= frames)%nat ->
      exists parts, f v = OK parts /\ forallb is_str parts = true) /\
     ((frames < frames_needed v)%nat -> f v = Err RecursionError)) ->
  content_ok wf_adf d = true ->
  ((content_frames frames_needed d <= frames)%nat ->
   exists parts, visit_content f d = OK parts /\ forallb is_str parts = true) /\
  ((frames < content_frames frames_needed d)%nat ->
   visit_content f d = Err RecursionError).
Proof.
  intros Hf. induction d as [|[k v] r IH]; cbn [content_ok content_frames visit_content].
  - intros _. split; [intros _; exists []; split; reflexivity | lia].
  - destruct (String.eqb "content" k); [|exact IH].
    destruct (truthy v); [apply Hf|].
    intros _. split; [intros _; exists []; split; reflexivity | lia].
Qed.

(** On a well-formed node [extract_text] returns strings when the nesting
    of the node fits in the frames it has, and raises [RecursionError] when
    it does not. *)
Lemma extract_text_frames (frames : nat) :
  forall node, wf_adf node = true ->
  ((frames_needed node <= frames)%nat ->
   exists parts,
     extract_text repr_str frames node = OK parts /\ forallb is_str parts = true) /\
  ((frames < frames_needed node)%nat ->
   extract_text repr_str frames node = Err RecursionError).
Proof.
  induction frames as [|frames' IH]; intros node Hwf.
  - pose proof (frames_needed_pos node). split; [lia | reflexivity].
  - destruct node as [| b | z | s | l | d]; cbn [extract_text frames_needed];
      try (split; [intros _; eexists; split; reflexivity | lia]).
    + cbn [wf_adf] in Hwf. rewrite forallb_forall in Hwf.
      destruct (visit_each_frames (extract_text repr_str frames') frames' l)
        as [Hfit Hdeep].
      { apply List.Forall_forall. intros x Hx. apply IH, Hwf, Hx. }
      split; intros H; [apply Hfit | apply Hdeep]; lia.
    + cbn [wf_adf] in Hwf. apply andb_true_iff in Hwf as [Hown Hcontent].
      destruct (visit_content_frames (extract_text repr_str frames') frames' d IH
                  Hcontent) as [Hfit Hdeep].
      assert (Hself : exists own,
                (if type_is d "text" then OK [dget_default d "text" (JStr "")]
                 else if type_is d "hardBreak" then OK [JStr nl]
                 else if type_is d "mention" then
                   let* t := py_get_default (dget_default d "attrs" (JObj [])) "text"
                               (JStr "user") in
                   OK [JStr ("@" +:+ py_str repr_str t)]
                 else OK []) = OK own /\ forallb is_str own = true).
      { destruct (type_is d "text").
        { eexists; split; [reflexivity|]. cbn [forallb]. rewrite Hown. reflexivity. }
        destruct (type_is d "hardBreak"); [eexists; split; reflexivity|].
        destruct (type_is d "mention"); [|eexists; split; reflexivity].
        destruct (dget_default d "attrs" (JObj [])); try discriminate.
        eexists; split; reflexivity. }
      destruct Hself as (own & Hself & Hstr). rewrite Hself. cbn [rbind].
      split; intros H.
      * destruct Hfit as (below & Hb & Hsb); [lia|]. rewrite Hb. cbn [rbind].
        eexists. split; [reflexivity|]. rewrite forallb_app, Hstr, Hsb. reflexivity.
      * rewrite Hdeep by lia. reflexivity.
Qed.










Lemma adf_to_text_returns (deeper : nat) (node : json) :
  wf_adf node = true -> (frames_needed node <= S deeper)%nat ->
  exists out, _adf_to_text repr_str deeper node = OK out.
Proof.
  intros Hwf Hfit. unfold _adf_to_text. destruct (is_dict node).
  - destruct (proj1 (extract_text_frames (S deeper) node Hwf) Hfit) as [parts [Hp Hs]].
    rewrite Hp. cbn [rbind]. apply join_parts_total, Hs.
  - eexists; reflexivity.
Qed.

Lemma adf_to_text_too_deep (deeper : nat) (node : json) :
  wf_adf node = true -> is_dict node = true -> (S deeper < frames_needed node)%nat ->
  _adf_to_text repr_str deeper node = Err RecursionError.
Proof.
  intros Hwf Hdict Hdeep. unfold _adf_to_text. rewrite Hdict.
  rewrite (proj2 (extract_text_frames (S deeper) node Hwf) Hdeep). reflexivity.
Qed.


End FlattenerProperties.

(** ** Dictionaries *)

Lemma dict_lookup_set_eq (k : string) (v : json) (d : pydict) :
  dict_lookup k (dict_set k v d) = Some v.
Proof.
  induction d as [|[k' v'] r IH]; cbn [dict_set dict_lookup].
  - rewrite String.eqb_refl. reflexivity.
  - destruct (String.eqb k k') eqn:E; cbn [dict_lookup]; rewrite E; auto.
Qed.

Lemma dict_lookup_set_ne (k k0 : string) (v : json) (d : pydict) :
  k0 <> k -> dict_lookup k0 (dict_set k v d) = dict_lookup k0 d.
Proof.
  intros Hne. induction d as [|[k' v'] r IH]; cbn [dict_set dict_lookup].
  - apply String.eqb_neq in Hne. rewrite Hne. reflexivity.
  - destruct (String.eqb k k') eqn:E; cbn [dict_lookup].
    + apply String.eqb_eq in E. subst k'.
      apply String.eqb_neq in Hne. rewrite Hne. reflexivity.
    + destruct (String.eqb k0 k'); auto.
Qed.

Lemma dict_lookup_none_not_in (k : string) (d : pydict) :
  k ∉ dict_keys d -> dict_lookup k d = None.
Proof.
  induction d as [|[k' v'] r IH]; cbn [dict_keys map dict_lookup fst]; intros H.
  - reflexivity.
  - apply not_elem_of_cons in H as [Hne Hr].
    apply String.eqb_neq in Hne. rewrite Hne. apply IH, Hr.
Qed.

(** ** RecordNormalizer: custom fields *)

Lemma custom_fields_loop_cons (k : string) (v : json) (rest custom : pydict) :
  custom_fields_loop ((k, v) :: rest) custom =
  if selected k v
  then let* x := custom_value v in custom_fields_loop rest (dict_set k x custom)
  else custom_fields_loop rest custom.
Proof. unfold selected, is_null. destruct v; reflexivity. Qed.

(** The loop leaves, for each key, the projection of the value [fields]
    binds it to when that binding is selected, and what [custom] had
    otherwise. *)
Lemma custom_fields_loop_lookup (items : pydict) :
  NoDup (dict_keys items) ->
  forall custom result_,
  custom_fields_loop items custom = OK result_ ->
  forall k,
  dict_lookup k result_ =
  match dict_lookup k items with
  | Some v =>
      if selected k v
      then match custom_value v with OK x => Some x | Err _ => None end
      else dict_lookup k custom
  | None => dict_lookup k custom
  end.
Proof.
  induction items as [|[k0 v0] rest IH]; intros Hnd custom res Hrun k.
  - cbn in Hrun. inversion Hrun; subst. reflexivity.
  - cbn [dict_keys map fst] in Hnd. inversion Hnd as [|? ? Hnotin Hnd']; subst.
    rewrite custom_fields_loop_cons in Hrun.
    cbn [dict_lookup].
    destruct (String.eqb k k0) eqn:E.
    + apply String.eqb_eq in E. subst k0.
      destruct (selected k v0) eqn:Hsel.
      * destruct (custom_value v0) as [x|e]; [|discriminate]. cbn [rbind] in Hrun.
        rewrite (IH Hnd' _ _ Hrun k).
        rewrite (dict_lookup_none_not_in k rest Hnotin).
        apply dict_lookup_set_eq.
      * rewrite (IH Hnd' _ _ Hrun k).
        rewrite (dict_lookup_none_not_in k rest Hnotin). reflexivity.
    + apply String.eqb_neq in E.
      destruct (selected k0 v0) eqn:Hsel.
      * destruct (custom_value v0) as [x|e]; [|discriminate]. cbn [rbind] in Hrun.
        rewrite (IH Hnd' _ _ Hrun k).
        destruct (dict_lookup k rest) as [v|]; [destruct (selected k v)|];
          try reflexivity; apply dict_lookup_set_ne; exact E.
      * rewrite (IH Hnd' _ _ Hrun k). reflexivity.
Qed.

Lemma dict_lookup_in (k : string) (v : json) (d : pydict) :
  dict_lookup k d = Some v -> In (k, v) d.
Proof.
  induction d as [|[k' v'] r IH]; cbn [dict_lookup]; [discriminate|].
  destruct (String.eqb k k') eqn:E.
  - apply String.eqb_eq in E. intros [= ->]. subst. left. reflexivity.
  - intros H. right. apply IH, H.
Qed.

Lemma custom_fields_loop_total (items : pydict) :
  (forall k v, In (k, v) items -> selected k v = true ->
     exists x, custom_value v = OK x) ->
  forall custom, exists result_, custom_fields_loop items custom = OK result_.
Proof.
  induction items as [|[k0 v0] rest IH]; intros Hok custom.
  - eexists; reflexivity.
  - rewrite custom_fields_loop_cons.
    assert (Hrest : forall k v, In (k, v) rest -> selected k v = true ->
              exists x, custom_value v = OK x).
    { intros k v Hin. apply Hok. right. exact Hin. }
    destruct (selected k0 v0) eqn:Hsel.
    + destruct (Hok k0 v0 (or_introl eq_refl) Hsel) as [x Hx].
      rewrite Hx. cbn [rbind]. apply IH, Hrest.
    + apply IH, Hrest.
Qed.

Lemma value_or_name_or_raw_object (o : pydict) :
  value_or_name_or_raw (JObj o) = OK (element_projection (JObj o)).
Proof.
  unfold value_or_name_or_raw, element_projection, py_get, py_get_default, py_or, dget.
  cbn [rbind].
  destruct (truthy (match dict_lookup "value" o with Some v => v | None => JNull end));
    [reflexivity|].
  cbn [rbind].
  destruct (truthy (match dict_lookup "name" o with Some v => v | None => JNull end));
    reflexivity.
Qed.

Lemma rmapM_value_or_name_objects (l : list json) :
  forallb is_dict l = true ->
  rmapM value_or_name_or_raw l = OK (map element_projection l).
Proof.
  induction l as [|e r IH]; cbn [forallb rmapM map]; intros H; [reflexivity|].
  apply andb_true_iff in H as [He Hr].
  destruct e; try discriminate.
  rewrite value_or_name_or_raw_object. cbn [rbind].
  rewrite (IH Hr). reflexivity.
Qed.

Lemma custom_value_object (o : pydict) :
  custom_value (JObj o) =
  OK (match dict_lookup "value" o with
      | Some a => a
      | None =>
          match dict_lookup "name" o with
          | Some b => b
          | None => JObj o
          end
      end).
Proof.
  unfold custom_value, dict_has, dget.
  destruct (dict_lookup "value" o); [reflexivity|].
  destruct (dict_lookup "name" o); reflexivity.
Qed.

Lemma custom_value_array (first : json) (rest : list json) :
  is_dict first = true -> forallb is_dict rest = true ->
  custom_value (JList (first :: rest)) =
  OK (JList (map element_projection (first :: rest))).
Proof.
  intros Hf Hr. unfold custom_value. rewrite Hf.
  rewrite (rmapM_value_or_name_objects (first :: rest)); [reflexivity|].
  cbn [forallb]. rewrite Hf, Hr. reflexivity.
Qed.

Lemma custom_value_other (v : json) :
  is_dict v = false -> starts_with_object v = false -> custom_value v = OK v.
Proof.
  destruct v as [| | | | l | d]; try reflexivity; [|discriminate].
  destruct l as [|first rest]; [reflexivity|].
  cbn [starts_with_object custom_value]. intros _ ->. reflexivity.
Qed.

(** What the extraction selects and how it projects each kind of value.
    For a [fields] dict whose custom-field arrays that
    begin with an object hold objects only, the extraction returns a
    mapping that binds exactly the keys with the custom-field prefix and a
    non-null value. An object value is projected to its [value] entry when
    it has that key, else to its [name] entry when it has that key, else
    kept whole. An array that begins with an object is mapped element by
    element to the element's [value] when truthy, else its [name] when
    truthy, else the element. Every other value is kept unchanged. *)
Theorem extract_custom_fields_projection (d : pydict) :
  NoDup (dict_keys d) ->
  (forall k first rest,
     In (k, JList (first :: rest)) d -> is_dict first = true ->
     forallb is_dict rest = true) ->
  exists custom,
    _extract_custom_fields (JObj d) = OK (JObj custom) /\
    forall k,
      (is_Some (dict_lookup k custom) <->
       startswith "customfield_" k = true /\
       exists v, dict_lookup k d = Some v /\ v <> JNull) /\
      (forall v,
         startswith "customfield_" k = true ->
         dict_lookup k d = Some v -> v <> JNull ->
         (forall o, v = JObj o ->
            dict_lookup k custom =
            Some (match dict_lookup "value" o with
                  | Some a => a
                  | None =>
                      match dict_lookup "name" o with
                      | Some b => b
                      | None => v
                      end
                  end)) /\
         (forall l, v = JList l -> starts_with_object v = true ->
            dict_lookup k custom = Some (JList (map element_projection l))) /\
         (is_dict v = false -> starts_with_object v = false ->
            dict_lookup k custom = Some v)).
Proof.
  intros Hnd Harr.
  assert (Hval : forall k v, In (k, v) d -> exists x, custom_value v = OK x).
  { intros k v Hin.
    destruct (is_dict v) eqn:Ed.
    - destruct v; try discriminate. rewrite custom_value_object. eauto.
    - destruct (starts_with_object v) eqn:Es.
      + destruct v as [| | | | [|first rest] |]; try discriminate.
        cbn [starts_with_object] in Es.
        rewrite (custom_value_array _ _ Es (Harr _ _ _ Hin Es)). eauto.
      + rewrite (custom_value_other _ Ed Es). eauto. }
  destruct (custom_fields_loop_total d (fun k v Hin _ => Hval k v Hin) [])
    as [custom Hrun].
  exists custom. split.
  { cbn [_extract_custom_fields]. rewrite Hrun. reflexivity. }
  intros k.
  pose proof (custom_fields_loop_lookup d Hnd [] custom Hrun k) as Hk.
  cbn [dict_lookup] in Hk.
  split.
  - rewrite Hk. split.
    + intros [x Hx].
      destruct (dict_lookup k d) as [v|] eqn:Ev; [|discriminate].
      destruct (selected k v) eqn:Hsel; [|discriminate].
      unfold selected in Hsel. apply andb_true_iff in Hsel as [Hp Hn].
      split; [exact Hp|]. exists v. split; [reflexivity|].
      intros ->. discriminate.
    + intros [Hp [v [Ev Hv]]]. rewrite Ev.
      assert (Hsel : selected k v = true).
      { unfold selected. rewrite Hp. destruct v; try reflexivity. contradiction. }
      rewrite Hsel.
      destruct (Hval k v (dict_lookup_in _ _ _ Ev)) as [x Hx]. rewrite Hx. eauto.
  - intros v Hp Ev Hv.
    assert (Hsel : selected k v = true).
    { unfold selected. rewrite Hp. destruct v; try reflexivity. contradiction. }
    rewrite Ev, Hsel in Hk.
    repeat split.
    + intros o ->. rewrite custom_value_object in Hk. exact Hk.
    + intros l -> Hs.
      destruct l as [|first rest]; [discriminate|].
      cbn [starts_with_object] in Hs.
      rewrite (custom_value_array _ _ Hs
                 (Harr _ _ _ (dict_lookup_in _ _ _ Ev) Hs)) in Hk.
      exact Hk.
    + intros Ed Es. rewrite (custom_value_other _ Ed Es) in Hk. exact Hk.
Qed.

(** C7 at its failing inputs. The projection is not applied uniformly: an
    object whose [value] entry is present but falsy (an empty string, zero,
    [false], [null], an empty array or object) is projected to that entry
    when it is the value of a custom field, by key presence, and to
    something else when it is an element of a custom-field array, by
    truthiness: to its [name] when that is truthy, else to the whole
    object. *)
Theorem element_rule_breaks_uniformity (k1 k2 : string) (o : pydict) (a : json) :
  startswith "customfield_" k1 = true ->
  startswith "customfield_" k2 = true ->
  k1 <> k2 ->
  dict_lookup "value" o = Some a ->
  truthy a = false ->
  _extract_custom_fields (JObj [(k1, JList [JObj o]); (k2, JObj o)]) =
    OK (JObj [(k1, JList [element_projection (JObj o)]); (k2, a)]) /\
  element_projection (JObj o) =
    match dict_lookup "name" o with
    | Some b => if truthy b then b else JObj o
    | None => JObj o
    end /\
  truthy (element_projection (JObj o)) = true /\
  element_projection (JObj o) <> a.
Proof.
  intros Hk1 Hk2 Hne Hvalue Hfalsy.
  assert (Hproj : element_projection (JObj o) =
                  match dict_lookup "name" o with
                  | Some b => if truthy b then b else JObj o
                  | None => JObj o
                  end).
  { unfold element_projection, dget. rewrite Hvalue, Hfalsy.
    destruct (dict_lookup "name" o) as [b|]; reflexivity. }
  assert (Htruthy : truthy (element_projection (JObj o)) = true).
  { rewrite Hproj. destruct (dict_lookup "name" o) as [b|].
    - destruct (truthy b) eqn:Eb; [exact Eb|].
      destruct o; [discriminate | reflexivity].
    - destruct o; [discriminate | reflexivity]. }
  split; [|split; [exact Hproj|split; [exact Htruthy|]]].
  - unfold _extract_custom_fields. cbn [custom_fields_loop].
    rewrite Hk1, Hk2. cbn [andb negb].
    rewrite (custom_value_array (JObj o) [] eq_refl eq_refl). cbn [rbind map dict_set].
    rewrite custom_value_object, Hvalue. cbn [rbind].
    destruct (String.eqb_spec k2 k1) as [E|_]; [congruence|]. reflexivity.
  - intros E. rewrite E, Hfalsy in Htruthy. discriminate.
Qed.

(** ** The monad *)

Lemma bind_Ret_inv {S A B} (m : M S A) (k : A -> M S B) (s s' : S) (b : B) :
  bind m k s = (Ret b, s') ->
  exists a s1, m s = (Ret a, s1) /\ k a s1 = (Ret b, s').
Proof.
  unfold bind. destruct (m s) as [[a| e |] s1]; intros H; try discriminate.
  exists a, s1. auto.
Qed.

Lemma lift_Ret_inv {S A} (r : result A) (s s' : S) (a : A) :
  lift r s = (Ret a, s') -> r = OK a /\ s' = s.
Proof.
  destruct r; cbn; unfold ret, raise; intros H; inversion H; auto.
Qed.

Lemma bind_Ret {S A B} (m : M S A) (k : A -> M S B) (s s1 : S) (a : A) :
  m s = (Ret a, s1) -> bind m k s = k a s1.
Proof. unfold bind. intros ->. reflexivity. Qed.

(** ** Lists *)

Lemma rmapM_length {A B} (f : A -> result B) (l : list A) (rows : list B) :
  rmapM f l = OK rows -> length rows = length l.
Proof.
  revert rows. induction l as [|x r IH]; intros rows H; cbn [rmapM] in H.
  - inversion H. reflexivity.
  - destruct (f x); [|discriminate]. cbn [rbind] in H.
    destruct (rmapM f r) as [rows'|]; [|discriminate]. cbn [rbind] in H.
    inversion H; subst. cbn [length]. rewrite (IH rows' eq_refl). reflexivity.
Qed.

Lemma rmapM_Forall {A B} (f : A -> result B) (P : B -> Prop) (l : list A)
    (rows : list B) :
  (forall x y, f x = OK y -> P y) ->
  rmapM f l = OK rows -> Forall P rows.
Proof.
  intros Hf. revert rows. induction l as [|x r IH]; intros rows H; cbn [rmapM] in H.
  - inversion H. constructor.
  - destruct (f x) as [y|] eqn:E; [|discriminate]. cbn [rbind] in H.
    destruct (rmapM f r) as [rows'|]; [|discriminate]. cbn [rbind] in H.
    inversion H; subst. constructor; [apply (Hf x), E | apply IH; reflexivity].
Qed.

Lemma filter_negb_filter {A} (p : A -> bool) (l : list A) :
  List.filter p (List.filter (fun x => negb (p x)) l) = [].
Proof.
  induction l as [|x r IH]; [reflexivity|].
  cbn [List.filter]. destruct (p x) eqn:E; cbn [negb List.filter]; [exact IH|].
  rewrite E. exact IH.
Qed.

Lemma filter_idempotent {A} (p : A -> bool) (l : list A) :
  List.filter p (List.filter p l) = List.filter p l.
Proof.
  induction l as [|x r IH]; [reflexivity|].
  cbn [List.filter]. destruct (p x) eqn:E; cbn [List.filter]; [|exact IH].
  rewrite E, IH. reflexivity.
Qed.

Lemma filter_all {A} (p : A -> bool) (l : list A) :
  Forall (fun x => p x = true) l -> List.filter p l = l.
Proof.
  induction 1 as [|x r Hx _ IH]; [reflexivity|].
  cbn [List.filter]. rewrite Hx, IH. reflexivity.
Qed.

Lemma filter_none {A} (p : A -> bool) (l : list A) :
  Forall (fun x => p x = false) l -> List.filter p l = [].
Proof.
  induction 1 as [|x r Hx _ IH]; [reflexivity|].
  cbn [List.filter]. rewrite Hx, IH. reflexivity.
Qed.

Lemma numbered_length {A} (last : Z) (rows : list A) :
  length (numbered last rows) = length rows.
Proof.
  revert last. induction rows as [|x r IH]; intros last; [reflexivity|].
  cbn [numbered length]. rewrite IH. reflexivity.
Qed.

Lemma numbered_Forall {A} (P : A -> Prop) (last : Z) (rows : list A) :
  Forall P rows -> Forall (fun r => P (snd r)) (numbered last rows).
Proof.
  intros H. revert last. induction H as [|x r Hx _ IH]; intros last;
    cbn [numbered]; constructor; [exact Hx | apply IH].
Qed.

(** ** Storage *)

(** Runs through the [let*] steps of a computation known to succeed. *)
Ltac step_params H :=
  repeat match type of H with
         | rbind ?r _ = OK _ =>
             let E := fresh "E" in
             destruct r eqn:E; cbn [rbind] in H; [|discriminate H]
         end.

Ltac munfold :=
  unfold bind, lift, ret, raise, with_current, modify, gets, commit in *.

Section StorageProperties.
Variable json_dumps : json -> string.

Lemma for_each_comments (k : option string) (cs : list json) :
  forall c c',
  for_each cs (fun comment =>
    let! row := lift (comment_params json_dumps k comment) in
    sql_insert_comment row) c = (Ret tt, c') ->
  exists rows,
    rmapM (comment_params json_dumps k) cs = OK rows /\
    comments_accept (comments (current c)) rows = true /\
    committed c' = committed c /\
    current c' =
    mkTables (tickets (current c)) (comments (current c) ++ rows)
      (changelog (current c)) (issue_links (current c)) (subtasks (current c))
      (tickets_fts (current c)) (seq_changelog (current c))
      (seq_issue_links (current c)) (seq_subtasks (current c)).
Proof.
  induction cs as [|x r IH]; intros c c' Hrun.
  - cbn in Hrun. inversion Hrun; subst. exists [].
    rewrite app_nil_r. destruct c' as [cm [? ? ? ? ? ? ? ? ?]]. auto.
  - cbn [for_each rmapM] in *. unfold bind at 1 in Hrun.
    unfold bind at 1 in Hrun.
    destruct (comment_params json_dumps k x) as [row|e]; cbn [lift] in Hrun;
      [|discriminate].
    unfold ret at 1 in Hrun. unfold sql_insert_comment in Hrun.
    munfold.
    destruct (existsb _ _) eqn:Hdup; [discriminate|].
    apply IH in Hrun as [rows [Hrows [Hacc [Hcm Hcur]]]]. cbn in Hacc, Hcm, Hcur.
    exists (row :: rows). rewrite Hrows. cbn [rbind comments_accept].
    rewrite Hdup, Hacc, Hcur, <- app_assoc. auto.
Qed.

Lemma sql_insert_comment_fresh (row : comment_row) (c : connection) :
  existsb (fun r => sql_eq (c_id r) (c_id row)) (comments (current c)) = false ->
  sql_insert_comment row c =
  (Ret tt,
   mkConnection (committed c)
     (mkTables (tickets (current c)) (comments (current c) ++ [row])
        (changelog (current c)) (issue_links (current c)) (subtasks (current c))
        (tickets_fts (current c)) (seq_changelog (current c))
        (seq_issue_links (current c)) (seq_subtasks (current c)))).
Proof.
  intros H. unfold sql_insert_comment, bind, gets, with_current, modify.
  rewrite H. reflexivity.
Qed.

Lemma for_each_comments_run (k : option string) (cs : list json) :
  forall rows c,
  rmapM (comment_params json_dumps k) cs = OK rows ->
  comments_accept (comments (current c)) rows = true ->
  for_each cs (fun comment =>
    let! row := lift (comment_params json_dumps k comment) in
    sql_insert_comment row) c =
  (Ret tt,
   mkConnection (committed c)
     (mkTables (tickets (current c)) (comments (current c) ++ rows)
        (changelog (current c)) (issue_links (current c)) (subtasks (current c))
        (tickets_fts (current c)) (seq_changelog (current c))
        (seq_issue_links (current c)) (seq_subtasks (current c)))).
Proof.
  induction cs as [|x r IH]; intros rows c Hrows Hacc.
  - cbn in Hrows. inversion Hrows; subst. cbn. unfold ret.
    rewrite app_nil_r. destruct c as [cm [? ? ? ? ? ? ? ? ?]]. reflexivity.
  - cbn [rmapM] in Hrows.
    destruct (comment_params json_dumps k x) as [row|e] eqn:Ex; [|discriminate].
    cbn [rbind] in Hrows.
    destruct (rmapM (comment_params json_dumps k) r) as [rows'|e] eqn:Er;
      [|discriminate].
    cbn [rbind] in Hrows. inversion Hrows; subst rows.
    cbn [comments_accept] in Hacc. apply andb_true_iff in Hacc as [Hdup Hacc].
    apply negb_true_iff in Hdup.
    cbn [for_each]. unfold bind at 1. unfold bind at 1. rewrite Ex. cbn [lift].
    unfold ret at 1. rewrite (sql_insert_comment_fresh _ _ Hdup).
    rewrite (IH rows' _ eq_refl);
      [cbn; rewrite <- app_assoc; reflexivity | exact Hacc].
Qed.

Ltac autoinc_loop IH params :=
  match goal with
  | Hrun : for_each (_ :: _) _ _ = _ |- _ =>
      cbn [for_each rmapM] in *; unfold bind at 1 in Hrun;
      unfold bind at 1 in Hrun;
      destruct params as [row|e]; cbn [lift] in Hrun; [|discriminate];
      unfold ret at 1 in Hrun;
      unfold sql_insert_changelog, sql_insert_link, sql_insert_subtask in Hrun;
      munfold;
      apply IH in Hrun as [rows [Hrows [Hcm Hcur]]]; cbn in Hcm, Hcur;
      exists (row :: rows); rewrite Hrows; cbn [rbind numbered length];
      rewrite Hcur, <- app_assoc; repeat split; auto; f_equal; lia
  end.

Lemma for_each_changelog (k : option string) (hs : list json) :
  forall c c',
  for_each hs (fun change =>
    let! cols := lift (changelog_params k change) in
    sql_insert_changelog cols) c = (Ret tt, c') ->
  exists rows,
    rmapM (changelog_params k) hs = OK rows /\
    committed c' = committed c /\
    current c' =
    mkTables (tickets (current c)) (comments (current c))
      (changelog (current c) ++ numbered (seq_changelog (current c)) rows)
      (issue_links (current c)) (subtasks (current c))
      (tickets_fts (current c))
      (seq_changelog (current c) + Z.of_nat (length rows))
      (seq_issue_links (current c)) (seq_subtasks (current c)).
Proof.
  induction hs as [|x r IH]; intros c c' Hrun.
  - cbn in Hrun. inversion Hrun; subst. exists []. cbn [numbered length].
    rewrite app_nil_r, Z.add_0_r. destruct c' as [cm [? ? ? ? ? ? ? ? ?]]. auto.
  - autoinc_loop IH (changelog_params k x).
Qed.

Lemma for_each_links (k : option string) (ls : list json) :
  forall c c',
  for_each ls (fun link =>
    let! cols := lift (link_params k link) in
    sql_insert_link cols) c = (Ret tt, c') ->
  exists rows,
    rmapM (link_params k) ls = OK rows /\
    committed c' = committed c /\
    current c' =
    mkTables (tickets (current c)) (comments (current c))
      (changelog (current c))
      (issue_links (current c) ++ numbered (seq_issue_links (current c)) rows)
      (subtasks (current c)) (tickets_fts (current c))
      (seq_changelog (current c))
      (seq_issue_links (current c) + Z.of_nat (length rows))
      (seq_subtasks (current c)).
Proof.
  induction ls as [|x r IH]; intros c c' Hrun.
  - cbn in Hrun. inversion Hrun; subst. exists []. cbn [numbered length].
    rewrite app_nil_r, Z.add_0_r. destruct c' as [cm [? ? ? ? ? ? ? ? ?]]. auto.
  - autoinc_loop IH (link_params k x).
Qed.

Lemma for_each_subtasks (k : option string) (ss : list json) :
  forall c c',
  for_each ss (fun subtask =>
    let! cols := lift (subtask_params k subtask) in
    sql_insert_subtask cols) c = (Ret tt, c') ->
  exists rows,
    rmapM (subtask_params k) ss = OK rows /\
    committed c' = committed c /\
    current c' =
    mkTables (tickets (current c)) (comments (current c))
      (changelog (current c)) (issue_links (current c))
      (subtasks (current c) ++ numbered (seq_subtasks (current c)) rows)
      (tickets_fts (current c)) (seq_changelog (current c))
      (seq_issue_links (current c))
      (seq_subtasks (current c) + Z.of_nat (length rows)).
Proof.
  induction ss as [|x r IH]; intros c c' Hrun.
  - cbn in Hrun. inversion Hrun; subst. exists []. cbn [numbered length].
    rewrite app_nil_r, Z.add_0_r. destruct c' as [cm [? ? ? ? ? ? ? ? ?]]. auto.
  - autoinc_loop IH (subtask_params k x).
Qed.

Lemma for_each_changelog_run (k : option string) (hs : list json) :
  forall rows c,
  rmapM (changelog_params k) hs = OK rows ->
  for_each hs (fun change =>
    let! cols := lift (changelog_params k change) in
    sql_insert_changelog cols) c =
  (Ret tt,
   mkConnection (committed c)
     (mkTables (tickets (current c)) (comments (current c))
        (changelog (current c) ++ numbered (seq_changelog (current c)) rows)
        (issue_links (current c)) (subtasks (current c))
        (tickets_fts (current c))
        (seq_changelog (current c) + Z.of_nat (length rows))
        (seq_issue_links (current c)) (seq_subtasks (current c)))).
Proof.
  induction hs as [|x r IH]; intros rows c Hrows.
  - cbn in Hrows. inversion Hrows; subst. cbn. unfold ret.
    rewrite app_nil_r, Z.add_0_r. destruct c as [cm [? ? ? ? ? ? ? ? ?]]. reflexivity.
  - cbn [rmapM] in Hrows.
    destruct (changelog_params k x) as [row|e] eqn:Ex; [|discriminate].
    cbn [rbind] in Hrows.
    destruct (rmapM (changelog_params k) r) as [rows'|e] eqn:Er; [|discriminate].
    cbn [rbind] in Hrows. inversion Hrows; subst rows.
    cbn [for_each]. unfold bind at 1. unfold bind at 1. rewrite Ex. cbn [lift].
    unfold ret at 1. unfold sql_insert_changelog, with_current, modify.
    rewrite (IH rows' _ eq_refl).
    cbn [current committed tickets comments changelog issue_links subtasks
         tickets_fts seq_changelog seq_issue_links seq_subtasks numbered length].
    rewrite <- app_assoc, Nat2Z.inj_succ.
    do 3 f_equal. lia.
Qed.

Lemma for_each_links_run (k : option string) (ls : list json) :
  forall rows c,
  rmapM (link_params k) ls = OK rows ->
  for_each ls (fun link =>
    let! cols := lift (link_params k link) in
    sql_insert_link cols) c =
  (Ret tt,
   mkConnection (committed c)
     (mkTables (tickets (current c)) (comments (current c))
        (changelog (current c))
        (issue_links (current c) ++ numbered (seq_issue_links (current c)) rows)
        (subtasks (current c)) (tickets_fts (current c))
        (seq_changelog (current c))
        (seq_issue_links (current c) + Z.of_nat (length rows))
        (seq_subtasks (current c)))).
Proof.
  induction ls as [|x r IH]; intros rows c Hrows.
  - cbn in Hrows. inversion Hrows; subst. cbn. unfold ret.
    rewrite app_nil_r, Z.add_0_r. destruct c as [cm [? ? ? ? ? ? ? ? ?]]. reflexivity.
  - cbn [rmapM] in Hrows.
    destruct (link_params k x) as [row|e] eqn:Ex; [|discriminate].
    cbn [rbind] in Hrows.
    destruct (rmapM (link_params k) r) as [rows'|e] eqn:Er; [|discriminate].
    cbn [rbind] in Hrows. inversion Hrows; subst rows.
    cbn [for_each]. unfold bind at 1. unfold bind at 1. rewrite Ex. cbn [lift].
    unfold ret at 1. unfold sql_insert_link, with_current, modify.
    rewrite (IH rows' _ eq_refl).
    cbn [current committed tickets comments changelog issue_links subtasks
         tickets_fts seq_changelog seq_issue_links seq_subtasks numbered length].
    rewrite <- app_assoc, Nat2Z.inj_succ.
    do 3 f_equal. lia.
Qed.

Lemma for_each_subtasks_run (k : option string) (ss : list json) :
  forall rows c,
  rmapM (subtask_params k) ss = OK rows ->
  for_each ss (fun subtask =>
    let! cols := lift (subtask_params k subtask) in
    sql_insert_subtask cols) c =
  (Ret tt,
   mkConnection (committed c)
     (mkTables (tickets (current c)) (comments (current c))
        (changelog (current c)) (issue_links (current c))
        (subtasks (current c) ++ numbered (seq_subtasks (current c)) rows)
        (tickets_fts (current c)) (seq_changelog (current c))
        (seq_issue_links (current c))
        (seq_subtasks (current c) + Z.of_nat (length rows)))).
Proof.
  induction ss as [|x r IH]; intros rows c Hrows.
  - cbn in Hrows. inversion Hrows; subst. cbn. unfold ret.
    rewrite app_nil_r, Z.add_0_r. destruct c as [cm [? ? ? ? ? ? ? ? ?]]. reflexivity.
  - cbn [rmapM] in Hrows.
    destruct (subtask_params k x) as [row|e] eqn:Ex; [|discriminate].
    cbn [rbind] in Hrows.
    destruct (rmapM (subtask_params k) r) as [rows'|e] eqn:Er; [|discriminate].
    cbn [rbind] in Hrows. inversion Hrows; subst rows.
    cbn [for_each]. unfold bind at 1. unfold bind at 1. rewrite Ex. cbn [lift].
    unfold ret at 1. unfold sql_insert_subtask, with_current, modify.
    rewrite (IH rows' _ eq_refl).
    cbn [current committed tickets comments changelog issue_links subtasks
         tickets_fts seq_changelog seq_issue_links seq_subtasks numbered length].
    rewrite <- app_assoc, Nat2Z.inj_succ.
    do 3 f_equal. lia.
Qed.

Lemma ticket_params_columns (ticket : pydict) (cols : ticket_cols) :
  ticket_params json_dumps ticket = OK cols ->
  bind_text (dget ticket "key") = OK (t_key cols) /\
  bind_text (dget ticket "summary") = OK (t_summary cols) /\
  bind_text (dget ticket "description") = OK (t_description cols) /\
  bind_text (dget ticket "updated") = OK (t_updated cols) /\
  t_description_raw cols = Some (json_dumps (dget ticket "descriptionRaw")) /\
  t_raw_json cols = Some (json_dumps (JObj ticket)).
Proof.
  unfold ticket_params. intros H. step_params H.
  inversion H; subst; cbn. repeat split; assumption.
Qed.

Lemma insert_ticket_shape (ticket : pydict) (c c' : connection) :
  insert_ticket json_dumps ticket c = (Ret tt, c') ->
  exists cols cs hs ls ss crows hrows lrows srows,
    ticket_params json_dumps ticket = OK cols /\
    py_iter (dget_default ticket "comments" (JList [])) = OK cs /\
    rmapM (comment_params json_dumps (t_key cols)) cs = OK crows /\
    comments_accept
      (List.filter (fun r => negb (sql_eq (c_ticket_key r) (t_key cols)))
         (comments (current c))) crows = true /\
    py_iter (dget_default ticket "changelog" (JList [])) = OK hs /\
    rmapM (changelog_params (t_key cols)) hs = OK hrows /\
    py_iter (dget_default ticket "links" (JList [])) = OK ls /\
    rmapM (link_params (t_key cols)) ls = OK lrows /\
    py_iter (dget_default ticket "subtasks" (JList [])) = OK ss /\
    rmapM (subtask_params (t_key cols)) ss = OK srows /\
    current c' = upserted (current c) cols crows hrows lrows srows /\
    committed c' = current c'.
Proof.
  unfold insert_ticket. intros H.
  apply bind_Ret_inv in H as (cols & c1 & H1 & H).
  apply lift_Ret_inv in H1 as [Hcols ->].
  apply bind_Ret_inv in H as ([] & c2 & H2 & H).
  apply bind_Ret_inv in H as (k & c3 & H3 & H).
  apply lift_Ret_inv in H3 as [Hk ->].
  apply bind_Ret_inv in H as ([] & c4 & H4 & H).
  apply bind_Ret_inv in H as (cs & c5 & H5 & H).
  apply lift_Ret_inv in H5 as [Hcs ->].
  apply bind_Ret_inv in H as ([] & c6 & H6 & H).
  apply bind_Ret_inv in H as (hs & c7 & H7 & H).
  apply lift_Ret_inv in H7 as [Hhs ->].
  apply bind_Ret_inv in H as ([] & c8 & H8 & H).
  apply bind_Ret_inv in H as (ls & c9 & H9 & H).
  apply lift_Ret_inv in H9 as [Hls ->].
  apply bind_Ret_inv in H as ([] & c10 & H10 & H).
  apply bind_Ret_inv in H as (ss & c11 & H11 & H).
  apply lift_Ret_inv in H11 as [Hss ->].
  apply bind_Ret_inv in H as ([] & c12 & H12 & H).
  destruct (ticket_params_columns _ _ Hcols) as [Hkey _].
  rewrite Hkey in Hk. inversion Hk; subst k.
  apply for_each_comments in H6 as (crows & Hcrows & Hacc & Hcm6 & Hcur6).
  apply for_each_changelog in H8 as (hrows & Hhrows & Hcm8 & Hcur8).
  apply for_each_links in H10 as (lrows & Hlrows & Hcm10 & Hcur10).
  apply for_each_subtasks in H12 as (srows & Hsrows & Hcm12 & Hcur12).
  exists cols, cs, hs, ls, ss, crows, hrows, lrows, srows.
  unfold sql_insert_or_replace_ticket in H2. unfold sql_delete_children in H4.
  munfold.
  inversion H2; subst c2. inversion H4; subst c4. inversion H; subst c'.
  cbn in Hacc.
  repeat (split; [assumption|]).
  cbn [current committed]. split; [|reflexivity].
  rewrite Hcur12, Hcur10, Hcur8, Hcur6. cbn. reflexivity.
Qed.

Lemma insert_ticket_run (ticket : pydict) (c : connection)
    (cols : ticket_cols) (cs hs ls ss : list json) (crows : list comment_row)
    (hrows : list changelog_cols) (lrows : list link_cols)
    (srows : list subtask_cols) :
  ticket_params json_dumps ticket = OK cols ->
  py_iter (dget_default ticket "comments" (JList [])) = OK cs ->
  rmapM (comment_params json_dumps (t_key cols)) cs = OK crows ->
  comments_accept
    (List.filter (fun r => negb (sql_eq (c_ticket_key r) (t_key cols)))
       (comments (current c))) crows = true ->
  py_iter (dget_default ticket "changelog" (JList [])) = OK hs ->
  rmapM (changelog_params (t_key cols)) hs = OK hrows ->
  py_iter (dget_default ticket "links" (JList [])) = OK ls ->
  rmapM (link_params (t_key cols)) ls = OK lrows ->
  py_iter (dget_default ticket "subtasks" (JList [])) = OK ss ->
  rmapM (subtask_params (t_key cols)) ss = OK srows ->
  insert_ticket json_dumps ticket c =
  (Ret tt,
   mkConnection (upserted (current c) cols crows hrows lrows srows)
     (upserted (current c) cols crows hrows lrows srows)).
Proof.
  intros Hcols Hcs Hcrows Hacc Hhs Hhrows Hls Hlrows Hss Hsrows.
  destruct (ticket_params_columns _ _ Hcols) as [Hkey _].
  unfold insert_ticket.
  erewrite bind_Ret by (rewrite Hcols; reflexivity).
  erewrite bind_Ret by reflexivity.
  erewrite bind_Ret by (rewrite Hkey; reflexivity).
  erewrite bind_Ret by reflexivity.
  erewrite bind_Ret by (rewrite Hcs; reflexivity).
  erewrite bind_Ret by (apply for_each_comments_run; [exact Hcrows | exact Hacc]).
  erewrite bind_Ret by (rewrite Hhs; reflexivity).
  erewrite bind_Ret by (apply for_each_changelog_run; exact Hhrows).
  erewrite bind_Ret by (rewrite Hls; reflexivity).
  erewrite bind_Ret by (apply for_each_links_run; exact Hlrows).
  erewrite bind_Ret by (rewrite Hss; reflexivity).
  erewrite bind_Ret by (apply for_each_subtasks_run; exact Hsrows).
  reflexivity.
Qed.

Lemma comment_params_key (k : option string) (x : json) (row : comment_row) :
  comment_params json_dumps k x = OK row -> c_ticket_key row = k.
Proof. unfold comment_params. intros H. step_params H. inversion H. reflexivity. Qed.

Lemma changelog_params_key (k : option string) (x : json) (row : changelog_cols) :
  changelog_params k x = OK row -> h_ticket_key row = k.
Proof. unfold changelog_params. intros H. step_params H. inversion H. reflexivity. Qed.

Lemma link_params_key (k : option string) (x : json) (row : link_cols) :
  link_params k x = OK row -> l_ticket_key row = k.
Proof. unfold link_params. intros H. step_params H. inversion H. reflexivity. Qed.

Lemma subtask_params_key (k : option string) (x : json) (row : subtask_cols) :
  subtask_params k x = OK row -> s_ticket_key row = k.
Proof. unfold subtask_params. intros H. step_params H. inversion H. reflexivity. Qed.

Lemma sql_eq_refl (k : string) : sql_eq (Some k) (Some k) = true.
Proof. apply String.eqb_refl. Qed.

(** The rows a key has in the five tables after an accepted upsert of a
    record with that key: one ticket, and as many children as the record
    lists. *)
Lemma upserted_counts (tb : tables) (cols : ticket_cols) (key : string)
    (crows : list comment_row) (hrows : list changelog_cols)
    (lrows : list link_cols) (srows : list subtask_cols) :
  t_key cols = Some key ->
  Forall (fun r => c_ticket_key r = Some key) crows ->
  Forall (fun r => h_ticket_key r = Some key) hrows ->
  Forall (fun r => l_ticket_key r = Some key) lrows ->
  Forall (fun r => s_ticket_key r = Some key) srows ->
  let tb' := upserted tb cols crows hrows lrows srows in
  count_tickets key tb' = 1%nat /\
  count_comments key tb' = length crows /\
  count_changelog key tb' = length hrows /\
  count_links key tb' = length lrows /\
  count_subtasks key tb' = length srows.
Proof.
  intros Hk Hc Hh Hl Hs tb'. subst tb'.
  unfold count_tickets, count_comments, count_changelog, count_links,
    count_subtasks, upserted.
  cbn [tickets comments changelog issue_links subtasks]. rewrite Hk.
  rewrite !List.filter_app, !length_app.
  rewrite (filter_negb_filter (fun r => sql_eq (t_key (t_cols r)) (Some key))).
  rewrite (filter_negb_filter (fun r => sql_eq (c_ticket_key r) (Some key))).
  rewrite (filter_negb_filter (fun r => sql_eq (h_ticket_key (snd r)) (Some key))).
  rewrite (filter_negb_filter (fun r => sql_eq (l_ticket_key (snd r)) (Some key))).
  rewrite (filter_negb_filter (fun r => sql_eq (s_ticket_key (snd r)) (Some key))).
  cbn [List.filter t_cols t_key length]. rewrite Hk, sql_eq_refl.
  rewrite (filter_all _ crows).
  2:{ eapply Forall_impl; [exact Hc|]. intros r ->. apply sql_eq_refl. }
  rewrite (filter_all _ (numbered _ hrows)).
  2:{ apply (numbered_Forall (fun r => sql_eq (h_ticket_key r) (Some key) = true)).
      eapply Forall_impl; [exact Hh|]. intros r ->. apply sql_eq_refl. }
  rewrite (filter_all _ (numbered _ lrows)).
  2:{ apply (numbered_Forall (fun r => sql_eq (l_ticket_key r) (Some key) = true)).
      eapply Forall_impl; [exact Hl|]. intros r ->. apply sql_eq_refl. }
  rewrite (filter_all _ (numbered _ srows)).
  2:{ apply (numbered_Forall (fun r => sql_eq (s_ticket_key r) (Some key) = true)).
      eapply Forall_impl; [exact Hs|]. intros r ->. apply sql_eq_refl. }
  rewrite !numbered_length. cbn [length]. auto.
Qed.

(** What any accepted upsert leaves for the key of its record. *)
Lemma insert_ticket_counts (ticket : pydict) (key : string) (c c' : connection) :
  bind_text (dget ticket "key") = OK (Some key) ->
  insert_ticket json_dumps ticket c = (Ret tt, c') ->
  count_tickets key (current c') = 1%nat /\
  count_comments key (current c') = loop_length ticket "comments" /\
  count_changelog key (current c') = loop_length ticket "changelog" /\
  count_links key (current c') = loop_length ticket "links" /\
  count_subtasks key (current c') = loop_length ticket "subtasks".
Proof.
  intros Hkey Hrun.
  apply insert_ticket_shape in Hrun
    as (cols & cs & hs & ls & ss & crows & hrows & lrows & srows &
        Hcols & Hcs & Hcrows & Hacc & Hhs & Hhrows & Hls & Hlrows &
        Hss & Hsrows & Hcur & Hcm).
  destruct (ticket_params_columns _ _ Hcols) as [Hk _].
  rewrite Hkey in Hk. inversion Hk as [Hk']. symmetry in Hk'.
  rewrite Hk' in *.
  unfold loop_length. rewrite Hcs, Hhs, Hls, Hss.
  rewrite <- (rmapM_length _ _ _ Hcrows), <- (rmapM_length _ _ _ Hhrows),
    <- (rmapM_length _ _ _ Hlrows), <- (rmapM_length _ _ _ Hsrows).
  rewrite Hcur. apply upserted_counts.
  - exact Hk'.
  - eapply rmapM_Forall; [|exact Hcrows]. apply comment_params_key.
  - eapply rmapM_Forall; [|exact Hhrows]. apply changelog_params_key.
  - eapply rmapM_Forall; [|exact Hlrows]. apply link_params_key.
  - eapply rmapM_Forall; [|exact Hsrows]. apply subtask_params_key.
Qed.

(** A record that was accepted is accepted again right after. *)
Lemma insert_ticket_again (ticket : pydict) (key : string) (c c1 : connection) :
  bind_text (dget ticket "key") = OK (Some key) ->
  insert_ticket json_dumps ticket c = (Ret tt, c1) ->
  exists c2, insert_ticket json_dumps ticket c1 = (Ret tt, c2).
Proof.
  intros Hkey Hrun.
  apply insert_ticket_shape in Hrun
    as (cols & cs & hs & ls & ss & crows & hrows & lrows & srows &
        Hcols & Hcs & Hcrows & Hacc & Hhs & Hhrows & Hls & Hlrows &
        Hss & Hsrows & Hcur & Hcm).
  destruct (ticket_params_columns _ _ Hcols) as [Hk _].
  rewrite Hkey in Hk. inversion Hk as [Hk']. symmetry in Hk'.
  eexists.
  eapply insert_ticket_run; try eassumption.
  rewrite Hcur. unfold upserted. cbn [comments].
  rewrite List.filter_app, filter_idempotent.
  rewrite (filter_none _ crows); [rewrite app_nil_r; exact Hacc|].
  eapply rmapM_Forall; [|exact Hcrows].
  intros x row Hrow. cbn beta.
  rewrite (comment_params_key _ _ _ Hrow), Hk', sql_eq_refl. reflexivity.
Qed.

(** C1. A record with a key that the store accepted is accepted again, and
    after this second ingestion the store holds exactly one ticket row for
    the key and as many comment, changelog, link and subtask rows for it as
    the record lists, not the rows of both ingestions; the first ingestion
    left the same counts, and everything is committed. *)
Theorem upsert_idempotent (ticket : pydict) (key : string) (c c1 : connection) :
  bind_text (dget ticket "key") = OK (Some key) ->
  insert_ticket json_dumps ticket c = (Ret tt, c1) ->
  exists c2,
    insert_ticket json_dumps ticket c1 = (Ret tt, c2) /\
    count_tickets key (current c2) = 1%nat /\
    count_comments key (current c2) = loop_length ticket "comments" /\
    count_changelog key (current c2) = loop_length ticket "changelog" /\
    count_links key (current c2) = loop_length ticket "links" /\
    count_subtasks key (current c2) = loop_length ticket "subtasks" /\
    count_comments key (current c2) = count_comments key (current c1) /\
    count_changelog key (current c2) = count_changelog key (current c1) /\
    count_links key (current c2) = count_links key (current c1) /\
    count_subtasks key (current c2) = count_subtasks key (current c1) /\
    committed c2 = current c2.
Proof.
  intros Hkey Hrun.
  destruct (insert_ticket_again _ _ _ _ Hkey Hrun) as [c2 Hrun2].
  exists c2.
  destruct (insert_ticket_counts _ _ _ _ Hkey Hrun) as (_ & Hc1 & Hh1 & Hl1 & Hs1).
  destruct (insert_ticket_counts _ _ _ _ Hkey Hrun2) as (Ht2 & Hc2 & Hh2 & Hl2 & Hs2).
  apply insert_ticket_shape in Hrun2 as Hshape.
  destruct Hshape as (? & ? & ? & ? & ? & ? & ? & ? & ? & Hshape).
  repeat (split; [first [assumption | congruence]|]).
  apply Hshape.
Qed.

End StorageProperties.

(** ** PaginatingClient: the caller's objects *)

Lemma keeps_heap_bind {A B} (m : M world A) (k : A -> M world B) :
  keeps_heap m -> (forall a, keeps_heap (k a)) -> keeps_heap (bind m k).
Proof.
  intros Hm Hk w. unfold bind. specialize (Hm w).
  destruct (m w) as [[a|e|] w1]; cbn [snd] in *; [|assumption|assumption].
  rewrite (Hk a w1). exact Hm.
Qed.

Lemma keeps_heap_ret {A} (a : A) : keeps_heap (ret a).
Proof. intros w. reflexivity. Qed.

Lemma keeps_heap_raise {A} (e : exn) : keeps_heap (@raise world A e).
Proof. intros w. reflexivity. Qed.

Lemma keeps_heap_lift {A} (r : result A) : keeps_heap (@lift world A r).
Proof. destruct r; intros w; reflexivity. Qed.

Lemma keeps_heap_gets {A} (f : world -> A) : keeps_heap (gets f).
Proof. intros w. reflexivity. Qed.

Lemma keeps_heap_emit (e : event) : keeps_heap (emit e).
Proof. intros w. reflexivity. Qed.

Lemma keeps_heap_when (b : bool) (m : M world unit) :
  keeps_heap m -> keeps_heap (when b m).
Proof. intros H. destruct b; [exact H | apply keeps_heap_ret]. Qed.

Lemma keeps_heap_writes_only {A} (own : nat) (m : M world A) :
  keeps_heap m -> writes_only own m.
Proof. intros H w. rewrite (H w). auto. Qed.

Lemma writes_only_bind {A B} (own : nat) (m : M world A) (k : A -> M world B) :
  writes_only own m -> (forall a, writes_only own (k a)) ->
  writes_only own (bind m k).
Proof.
  intros Hm Hk w. unfold bind. specialize (Hm w).
  destruct (m w) as [[a|e|] w1]; cbn [snd] in *; [|assumption|assumption].
  destruct Hm as [Hlen Hm]. destruct (Hk a w1) as [Hlen' Hk'].
  split; [congruence|]. intros l Hl. rewrite (Hk' l Hl). apply Hm, Hl.
Qed.

Lemma writes_only_setitem (own : nat) (k : string) (v : json) :
  writes_only own (setitem own k v).
Proof.
  intros w. unfold setitem. cbn [snd heap]. split.
  - apply length_alter.
  - intros l Hl. apply list_lookup_alter_ne. congruence.
Qed.

Create HintDb heap.
#[local] Hint Resolve keeps_heap_ret keeps_heap_raise keeps_heap_lift
  keeps_heap_gets keeps_heap_emit keeps_heap_when : heap.

Section ClientProperties.
Variable repr_str : string -> string.
Variable source : list request -> request -> response.
Variable base_url : string.

Lemma keeps_heap_session_get (endpoint : string) (params : option nat) :
  keeps_heap (session_get source endpoint params).
Proof.
  unfold session_get, deref.
  apply keeps_heap_bind.
  - destruct params; [apply keeps_heap_bind|]; auto with heap.
  - intros ps. repeat (apply keeps_heap_bind; [auto with heap | intros ?]).
    auto with heap.
Qed.

Lemma keeps_heap_api_get_attempts (left : nat) :
  forall attempt max_retries endpoint params,
  keeps_heap (api_get_attempts source base_url left attempt max_retries endpoint params).
Proof.
  induction left as [|left' IH]; intros attempt max_retries endpoint params;
    cbn [api_get_attempts]; unfold print, sleep_ms.
  - apply keeps_heap_bind; auto with heap.
  - apply keeps_heap_bind; [apply keeps_heap_session_get|]. intros r.
    repeat match goal with
           | |- keeps_heap (if ?b then _ else _) => destruct b
           | |- keeps_heap (bind _ _) => apply keeps_heap_bind; [|intros ?]
           | |- keeps_heap (match ?o with Some _ => _ | None => _ end) => destruct o
           | |- keeps_heap (api_get_attempts _ _ _ _ _ _ _) => apply IH
           | |- _ => solve [auto with heap]
           end.
Qed.

Lemma keeps_heap_api_get (endpoint : string) (params : option nat) :
  keeps_heap (_api_get source base_url endpoint params).
Proof. apply keeps_heap_api_get_attempts. Qed.

Lemma writes_only_paginate_loop (fuel : nat) :
  forall endpoint own key progress all_results total page,
  writes_only own
    (paginate_loop repr_str source base_url fuel endpoint own key progress
       all_results total page).
Proof.
  induction fuel as [|fuel' IH]; intros endpoint own key progress all_results
    total page; cbn [paginate_loop].
  - apply keeps_heap_writes_only. intros w. reflexivity.
  - apply writes_only_bind;
      [apply keeps_heap_writes_only, keeps_heap_api_get | intros data].
    apply writes_only_bind; [apply keeps_heap_writes_only; auto with heap | intros results].
    apply writes_only_bind; [apply keeps_heap_writes_only; auto with heap | intros items].
    apply writes_only_bind.
    { apply keeps_heap_writes_only. destruct total; [auto with heap|].
      apply keeps_heap_bind; [auto with heap | intros t].
      apply keeps_heap_bind; [|intros ?]; unfold print; auto with heap. }
    intros total'.
    apply writes_only_bind;
      [apply keeps_heap_writes_only; unfold print; auto with heap | intros ?].
    apply writes_only_bind; [apply keeps_heap_writes_only; auto with heap | intros enough].
    destruct enough.
    { apply keeps_heap_writes_only.
      apply keeps_heap_bind; [|intros ?]; unfold print; auto with heap. }
    destruct (negb (truthy results)).
    { apply keeps_heap_writes_only.
      apply keeps_heap_bind; [|intros ?]; unfold print; auto with heap. }
    apply writes_only_bind; [apply writes_only_setitem | intros ?].
    apply IH.
Qed.

(** C10. Whatever the source answers and however the call ends (a result,
    an exception, or still running when the fuel is spent), every dict
    object that existed before [_paginate] was called, the caller's
    [params] among them, holds afterwards what it held before: the
    pagination keys are written to a copy. *)
Theorem paginate_keeps_caller_params (fuel : nat) (endpoint : string)
    (params : option nat) (key : string) (progress : bool) (w : world)
    (l : nat) (d : pydict) :
  heap w !! l = Some d ->
  heap (snd (_paginate repr_str source base_url fuel endpoint params key
               progress w)) !! l = Some d /\
  firstn (length (heap w))
    (heap (snd (_paginate repr_str source base_url fuel endpoint params key
                  progress w))) = heap w.
Proof.
  intros Hl.
  assert (Hframe : forall l', (l' < length (heap w))%nat ->
            heap (snd (_paginate repr_str source base_url fuel endpoint params
                         key progress w)) !! l' = heap w !! l').
  { intros l' Hlt. unfold _paginate.
    set (caller := match params with None => ret [] | Some l0 => deref l0 end).
    assert (Hcaller : keeps_heap caller).
    { subst caller. destruct params; unfold deref; auto with heap. }
    unfold bind at 1. specialize (Hcaller w).
    destruct (caller w) as [[cd|e|] w1]; cbn [snd] in *;
      [|rewrite Hcaller; reflexivity|rewrite Hcaller; reflexivity].
    unfold bind at 1. unfold alloc at 1. cbn match.
    set (own := length (heap w1)).
    set (w2 := mkWorld _ _ _).
    assert (Hw2 : heap w2 !! l' = heap w !! l').
    { subst w2. cbn [heap]. rewrite Hcaller.
      apply lookup_app_l. exact Hlt. }
    assert (Hne : l' <> own) by (subst own; rewrite Hcaller; lia).
    rewrite <- Hw2.
    assert (Hrest : writes_only own
              (bind (setitem own "startAt" (JInt 0)) (fun _ =>
               bind (setitem own "maxResults" (JInt 100)) (fun _ =>
               paginate_loop repr_str source base_url fuel endpoint own key
                 progress [] None 0)))).
    { apply writes_only_bind; [apply writes_only_setitem | intros ?].
      apply writes_only_bind; [apply writes_only_setitem | intros ?].
      apply writes_only_paginate_loop. }
    apply (Hrest w2), Hne. }
  split.
  - rewrite Hframe; [exact Hl|]. apply lookup_lt_Some in Hl. exact Hl.
  - apply list_eq. intros i.
    destruct (decide (i < length (heap w))%nat) as [Hi|Hi].
    + rewrite lookup_take_lt by exact Hi. apply Hframe, Hi.
    + rewrite lookup_take_ge by lia. symmetry. apply lookup_ge_None. lia.
Qed.

Lemma requests_of_sleep (w : world) (ms : Z) :
  requests_of (snd (sleep_ms ms w)) = requests_of w.
Proof.
  unfold requests_of, sleep_ms, emit, modify. cbn [snd events].
  rewrite omap_app. cbn. apply app_nil_r.
Qed.

End ClientProperties.

(** ** FederatedQuery: the order of the merged result *)

Lemma ascii_compare_lt_trans (a b c : ascii) :
  Ascii.compare a b = Lt -> Ascii.compare b c = Lt -> Ascii.compare a c = Lt.
Proof.
  unfold Ascii.compare. rewrite !N.compare_lt_iff. lia.
Qed.

Lemma ascii_compare_refl (a : ascii) : Ascii.compare a a = Eq.
Proof. unfold Ascii.compare. apply N.compare_refl. Qed.

Lemma string_compare_refl (s : string) : String.compare s s = Eq.
Proof.
  induction s as [|a s IH]; cbn [String.compare]; [reflexivity|].
  rewrite ascii_compare_refl. exact IH.
Qed.

Lemma string_compare_lt_trans (s1 : string) :
  forall s2 s3,
  String.compare s1 s2 = Lt -> String.compare s2 s3 = Lt ->
  String.compare s1 s3 = Lt.
Proof.
  induction s1 as [|a s1 IH]; intros [|b s2] [|c s3]; cbn [String.compare];
    try discriminate; try reflexivity.
  destruct (Ascii.compare a b) eqn:Eab; try discriminate;
    destruct (Ascii.compare b c) eqn:Ebc; try discriminate; intros H1 H2.
  - apply Ascii.compare_eq_iff in Eab, Ebc. subst.
    rewrite ascii_compare_refl. apply (IH s2 s3); assumption.
  - apply Ascii.compare_eq_iff in Eab. subst. rewrite Ebc. reflexivity.
  - apply Ascii.compare_eq_iff in Ebc. subst. rewrite Eab. reflexivity.
  - rewrite (ascii_compare_lt_trans _ _ _ Eab Ebc). reflexivity.
Qed.

Lemma string_leb_trans (s1 s2 s3 : string) :
  String.leb s1 s2 = true -> String.leb s2 s3 = true -> String.leb s1 s3 = true.
Proof.
  unfold String.leb.
  destruct (String.compare s1 s2) eqn:E12; try discriminate;
    destruct (String.compare s2 s3) eqn:E23; try discriminate; intros _ _.
  - apply String.compare_eq_iff in E12, E23. subst.
    rewrite string_compare_refl. reflexivity.
  - apply String.compare_eq_iff in E12. subst. rewrite E23. reflexivity.
  - apply String.compare_eq_iff in E23. subst. rewrite E12. reflexivity.
  - rewrite (string_compare_lt_trans _ _ _ E12 E23). reflexivity.
Qed.

Lemma string_ltb_leb (s1 s2 : string) :
  String.ltb s1 s2 = true -> String.leb s1 s2 = true.
Proof.
  unfold String.ltb, String.leb. destruct (String.compare s1 s2); auto.
Qed.

Lemma string_not_ltb_leb (s1 s2 : string) :
  String.ltb s1 s2 = false -> String.leb s2 s1 = true.
Proof.
  unfold String.ltb, String.leb. rewrite (String.compare_antisym s2 s1).
  destruct (String.compare s1 s2); cbn; auto.
Qed.

Lemma string_leb_empty (s : string) : String.leb s "" = true -> s = "".
Proof. destruct s; [reflexivity | discriminate]. Qed.

Section SortProperties.
Context {A : Type} (key : A -> string).

Lemma insert_desc_perm (x : A) (l : list A) :
  Permutation (insert_desc key x l) (x :: l).
Proof.
  induction l as [|y r IH]; cbn [insert_desc]; [reflexivity|].
  destruct (String.ltb (key x) (key y)); [|reflexivity].
  rewrite IH. apply perm_swap.
Qed.

Lemma sort_desc_perm (l : list A) : Permutation (sort_desc key l) l.
Proof.
  induction l as [|x r IH]; cbn [sort_desc fold_right]; [reflexivity|].
  fold (sort_desc key r). rewrite insert_desc_perm, IH. reflexivity.
Qed.

Lemma insert_desc_sorted (x : A) (l : list A) :
  StronglySorted (key_ge key) l -> StronglySorted (key_ge key) (insert_desc key x l).
Proof.
  induction 1 as [|y r Hr IH Hy]; cbn [insert_desc].
  - repeat constructor.
  - destruct (String.ltb (key x) (key y)) eqn:E.
    + constructor; [exact IH|].
      rewrite insert_desc_perm.
      constructor; [apply string_ltb_leb, E | exact Hy].
    + apply string_not_ltb_leb in E.
      constructor; [constructor; assumption|].
      constructor; [exact E|].
      eapply Forall_impl; [exact Hy|]. intros z Hz. unfold key_ge in *.
      eapply string_leb_trans; eassumption.
Qed.

Lemma sort_desc_sorted (l : list A) :
  StronglySorted (key_ge key) (sort_desc key l).
Proof.
  induction l as [|x r IH]; cbn [sort_desc fold_right]; [constructor|].
  apply insert_desc_sorted, IH.
Qed.

(** Stability: elements with the same key keep their order. *)
Lemma insert_desc_same_key (k : string) (x : A) (l : list A) :
  List.filter (fun y => String.eqb (key y) k) (insert_desc key x l) =
  List.filter (fun y => String.eqb (key y) k) (x :: l).
Proof.
  induction l as [|y r IH]; cbn [insert_desc]; [reflexivity|].
  destruct (String.ltb (key x) (key y)) eqn:E; [|reflexivity].
  cbn [List.filter] in *. rewrite IH.
  destruct (String.eqb (key x) k) eqn:Ex; [|reflexivity].
  destruct (String.eqb (key y) k) eqn:Ey; [|reflexivity].
  apply String.eqb_eq in Ex, Ey. rewrite Ex, Ey in E.
  unfold String.ltb in E. rewrite string_compare_refl in E. discriminate.
Qed.

Lemma sort_desc_stable (k : string) (l : list A) :
  List.filter (fun y => String.eqb (key y) k) (sort_desc key l) =
  List.filter (fun y => String.eqb (key y) k) l.
Proof.
  induction l as [|x r IH]; cbn [sort_desc fold_right]; [reflexivity|].
  fold (sort_desc key r). rewrite insert_desc_same_key.
  cbn [List.filter]. rewrite IH. reflexivity.
Qed.

End SortProperties.

Lemma StronglySorted_after {A} (R : A -> A -> Prop) (pre : list A) (a : A)
    (post : list A) :
  StronglySorted R (pre ++ a :: post) -> Forall (R a) post.
Proof.
  induction pre as [|x pre IH]; cbn [app]; intros H.
  - inversion H; assumption.
  - inversion H; subst. apply IH. assumption.
Qed.

Section ViewerProperties.
Variable fts5_match :
  string -> option (option string * option string * option string -> bool).
Variable sql_like : string -> string -> bool.

Lemma like_select_no_text (db : tables) :
  like_select sql_like db "" "" "" "" =
  map (fun r => select_summary (t_cols r)) (tickets db).
Proof.
  unfold like_select. f_equal. apply filter_all.
  apply List.Forall_forall. intros r _. reflexivity.
Qed.

Lemma search_db_no_text (db : tables) :
  search_db fts5_match sql_like "" "" "" "" db =
  OK (map (fun r => select_summary (t_cols r)) (tickets db)).
Proof.
  unfold search_db. rewrite like_select_no_text.
  destruct (tickets_fts db); reflexivity.
Qed.

Lemma search_all_no_text_total (dbs : list tables)
    (status project issue_type : string) :
  exists all_tickets,
    search_all fts5_match sql_like dbs "" status project issue_type
      = OK all_tickets.
Proof.
  unfold search_all.
  assert (H : exists per_db,
            rmapM (search_db fts5_match sql_like "" status project issue_type) dbs
              = OK per_db).
  { induction dbs as [|db rest [per_db IH]]; cbn [rmapM]; [eexists; reflexivity|].
    assert (Hdb : search_db fts5_match sql_like "" status project issue_type db
                  = OK (like_select sql_like db "" status project issue_type)).
    { unfold search_db. destruct (tickets_fts db); reflexivity. }
    rewrite Hdb, IH. cbn [rbind]. eexists; reflexivity. }
  destruct H as [per_db H]. rewrite H. cbn [rbind]. eexists; reflexivity.
Qed.

(** C9. The sorted list [search] pages through is a permutation of the
    concatenation of the per-store matches and is sorted by the [updated]
    text, largest first, a missing [updated] counting as the empty string:
    whatever follows a ticket without [updated] has an empty key as well.
    A search without query text returns such a list for any stores.
    For two stores holding one ticket each, updated 2024-01-01 and
    2024-06-01, an unfiltered search returns the 2024-06-01 ticket first, in
    whichever order the stores are listed. *)
Theorem federated_search_order (dbs : list tables)
    (query status project issue_type : string) (all_tickets : list summary_row)
    (db1 db2 : tables) (r1 r2 : ticket_row) :
  search_all fts5_match sql_like dbs query status project issue_type = OK all_tickets ->
  tickets db1 = [r1] -> tickets db2 = [r2] ->
  t_updated (t_cols r1) = Some "2024-01-01" ->
  t_updated (t_cols r2) = Some "2024-06-01" ->
  (exists per_db,
     rmapM (search_db fts5_match sql_like query status project issue_type) dbs
       = OK per_db /\
     Permutation all_tickets (concat per_db)) /\
  StronglySorted (key_ge updated_key) all_tickets /\
  (forall pre a post,
     all_tickets = pre ++ a :: post -> r_updated a = None ->
     Forall (fun b => updated_key b = "") post) /\
  (exists sorted,
     search_all fts5_match sql_like dbs "" status project issue_type = OK sorted) /\
  search fts5_match sql_like [db1; db2] "" "" "" "" 1 =
    OK ([select_summary (t_cols r2); select_summary (t_cols r1)], 1) /\
  search fts5_match sql_like [db2; db1] "" "" "" "" 1 =
    OK ([select_summary (t_cols r2); select_summary (t_cols r1)], 1).
Proof.
  intros Hall H1 H2 Hu1 Hu2.
  unfold search_all in Hall.
  destruct (rmapM _ dbs) as [per_db|e] eqn:Eper; [|discriminate].
  cbn [rbind] in Hall. inversion Hall; subst all_tickets. clear Hall.
  split; [exists per_db; split; [reflexivity | apply sort_desc_perm]|].
  split; [apply sort_desc_sorted|].
  split.
  { intros pre a post Heq Ha.
    pose proof (sort_desc_sorted updated_key (concat per_db)) as Hs.
    rewrite Heq in Hs. apply StronglySorted_after in Hs.
    eapply Forall_impl; [exact Hs|]. intros b Hb. unfold key_ge in Hb.
    unfold updated_key at 2 in Hb. rewrite Ha in Hb. cbn [default] in Hb.
    apply string_leb_empty, Hb. }
  split; [apply search_all_no_text_total|].
  assert (K1 : updated_key (select_summary (t_cols r1)) = "2024-01-01").
  { unfold updated_key, select_summary. cbn [r_updated]. rewrite Hu1. reflexivity. }
  assert (K2 : updated_key (select_summary (t_cols r2)) = "2024-06-01").
  { unfold updated_key, select_summary. cbn [r_updated]. rewrite Hu2. reflexivity. }
  split.
  - unfold search, search_all. cbn [rmapM]. rewrite !search_db_no_text, H1, H2.
    cbn [rbind map concat app sort_desc fold_right insert_desc].
    rewrite K1, K2. reflexivity.
  - unfold search, search_all. cbn [rmapM]. rewrite !search_db_no_text, H1, H2.
    cbn [rbind map concat app sort_desc fold_right insert_desc].
    rewrite K1, K2. reflexivity.
Qed.

End ViewerProperties.

(** ** Storage and FederatedQuery: the index after a second upsert *)

Section IndexProperties.
Variable json_dumps : json -> string.
Variable fts5_match :
  string -> option (option string * option string * option string -> bool).
Variable sql_like : string -> string -> bool.

(** What two upserts of one record into a new database leave in [tickets]
    and in the index: the row of the second upsert, and the entries of
    both. *)
Lemma tables_after_reupsert (ticket : pydict) (key : string)
    (cols : ticket_cols) (c1 c2 : connection) :
  ticket_params json_dumps ticket = OK cols ->
  t_key cols = Some key ->
  insert_ticket json_dumps ticket (open_database empty_tables) = (Ret tt, c1) ->
  insert_ticket json_dumps ticket c1 = (Ret tt, c2) ->
  tickets (current c2) = [mkTicketRow 2 cols] /\
  tickets_fts (current c2) =
    Some [fts_entry_of (mkTicketRow 1 cols); fts_entry_of (mkTicketRow 2 cols)] /\
  committed c2 = current c2.
Proof.
  intros Hcols Hk Hrun1 Hrun2.
  apply insert_ticket_shape in Hrun1
    as (cols1 & ? & ? & ? & ? & crows1 & hrows1 & lrows1 & srows1 &
        Hcols1 & _ & _ & _ & _ & _ & _ & _ & _ & _ & Hcur1 & _).
  apply insert_ticket_shape in Hrun2
    as (cols2 & ? & ? & ? & ? & crows2 & hrows2 & lrows2 & srows2 &
        Hcols2 & _ & _ & _ & _ & _ & _ & _ & _ & _ & Hcur2 & Hcm2).
  rewrite Hcols in Hcols1, Hcols2.
  inversion Hcols1; subst cols1. inversion Hcols2; subst cols2.
  rewrite Hcur2, Hcur1. unfold upserted.
  cbn [tickets tickets_fts open_database _create_tables current snd
       empty_tables List.filter app max_rowid fold_right t_rowid t_cols
       option_map default].
  split; [|split; [|rewrite Hcm2, Hcur2, Hcur1; reflexivity]].
  - cbn. rewrite Hk, sql_eq_refl. reflexivity.
  - cbn. reflexivity.
Qed.

(** C2 at its failing input. A record with a key is upserted twice into a
    new database. A full-text query that matches its key, summary and
    description then fails with a database error instead of returning the
    ticket, because the index still holds the entry of the row the second
    upsert replaced; after [rebuild_fts] the same query returns the ticket,
    so rebuilding changes the result. *)
Theorem reupsert_breaks_search (ticket : pydict) (key : string)
    (cols : ticket_cols) (c1 c2 : connection) (query : string)
    (hit : option string * option string * option string -> bool) :
  ticket_params json_dumps ticket = OK cols ->
  t_key cols = Some key ->
  insert_ticket json_dumps ticket (open_database empty_tables) = (Ret tt, c1) ->
  insert_ticket json_dumps ticket c1 = (Ret tt, c2) ->
  query <> "" ->
  fts5_match (fts_query query) = Some hit ->
  hit (t_key cols, t_summary cols, t_description cols) = true ->
  search_db fts5_match sql_like query "" "" "" (current c2) = Err DatabaseError /\
  fst (rebuild_fts c2) = Ret tt /\
  search_db fts5_match sql_like query "" "" "" (current (snd (rebuild_fts c2)))
    = OK [select_summary cols].
Proof.
  intros Hcols Hk Hrun1 Hrun2 Hq Hm Hhit.
  destruct (tables_after_reupsert _ _ _ _ _ Hcols Hk Hrun1 Hrun2)
    as (Ht & Hf & Hcm).
  apply String.eqb_neq in Hq.
  split; [|split].
  - unfold search_db. rewrite Hf, Hq. cbn [negb].
    unfold fts_select. rewrite Hm, Ht.
    cbn [List.filter fts_entry_of f_key f_summary f_description t_cols].
    rewrite Hhit. cbn [fts_join f_rowid t_rowid content_row List.find].
    reflexivity.
  - unfold rebuild_fts, bind, gets. rewrite Hf. reflexivity.
  - unfold rebuild_fts, bind, gets. rewrite Hf.
    cbn [with_current modify commit snd current tickets tickets_fts].
    unfold search_db. cbn [tickets_fts]. rewrite Hq. cbn [negb].
    unfold fts_select. cbn [tickets]. rewrite Hm, Ht.
    cbn [map List.filter fts_entry_of f_key f_summary f_description t_cols t_rowid].
    rewrite Hhit.
    cbn [fts_join f_rowid t_rowid content_row List.find List.filter t_cols].
    rewrite Z.eqb_refl. cbn [List.filter t_cols]. rewrite Hk, sql_eq_refl.
    reflexivity.
Qed.

End IndexProperties.

(** ** RecordNormalizer: nested objects that are null *)

Lemma py_get_default_error (x : json) (k : string) (dflt : json) (e : exn) :
  py_get_default x k dflt = Err e -> e = AttributeError.
Proof. destruct x; cbn; intros H; inversion H; reflexivity. Qed.

Lemma get2_error (x : json) (k1 k2 : string) (e : exn) :
  get2 x k1 k2 = Err e -> e = AttributeError.
Proof.
  unfold get2, py_get.
  destruct (py_get_default x k1 (JObj [])) eqn:E1; cbn [rbind]; intros H.
  - eapply py_get_default_error, H.
  - inversion H; subst. eapply py_get_default_error, E1.
Qed.

Lemma get3_error (x : json) (k1 k2 k3 : string) (e : exn) :
  get3 x k1 k2 k3 = Err e -> e = AttributeError.
Proof.
  unfold get3, py_get.
  destruct (py_get_default x k1 (JObj [])) eqn:E1; cbn [rbind]; intros H.
  - destruct (py_get_default a k2 (JObj [])) eqn:E2; cbn [rbind] in H.
    + eapply py_get_default_error, H.
    + inversion H; subst. eapply py_get_default_error, E2.
  - inversion H; subst. eapply py_get_default_error, E1.
Qed.

Lemma get2_guarded_error (x : json) (k1 k2 : string) (e : exn) :
  get2_guarded x k1 k2 = Err e -> e = AttributeError.
Proof.
  unfold get2_guarded, py_get.
  destruct (py_get_default x k1 JNull) eqn:E1; cbn [rbind]; intros H.
  - destruct (truthy a); [eapply get2_error, H | discriminate].
  - inversion H; subst. eapply py_get_default_error, E1.
Qed.

Lemma get2_null (d : pydict) (k1 k2 : string) :
  dict_lookup k1 d = Some JNull -> get2 (JObj d) k1 k2 = Err AttributeError.
Proof. intros H. unfold get2. cbn [py_get_default]. rewrite H. reflexivity. Qed.

(** A nested object whose key is absent gives null on all three access
    paths of [process_issue]. *)
Lemma absent_nested_object_yields_null (d : pydict) (k1 k2 k3 : string) :
  dict_lookup k1 d = None ->
  get2 (JObj d) k1 k2 = OK JNull /\
  get3 (JObj d) k1 k2 k3 = OK JNull /\
  get2_guarded (JObj d) k1 k2 = OK JNull.
Proof.
  intros H. unfold get2_guarded, get3, get2, py_get.
  cbn [py_get_default]. rewrite H. repeat split; reflexivity.
Qed.

(** A null value behind one of the two guards gives null as well. *)
Lemma guarded_null_object_yields_null (d : pydict) (k1 k2 : string) :
  dict_lookup k1 d = Some JNull -> get2_guarded (JObj d) k1 k2 = OK JNull.
Proof.
  intros H. unfold get2_guarded, py_get. cbn [py_get_default]. rewrite H.
  reflexivity.
Qed.

Section NormalizerProperties.
Variable repr_str : string -> string.
Variable description_depth comment_depth : nat.
Variable source : list request -> request -> response.
Variable base_url : string.

(** Building the record raises when one of the three objects is null. *)
Lemma build_processed_null_object (i d : pydict) (issue_key comments : json)
    (description_text now : string) :
  dict_lookup "status" d = Some JNull \/
  dict_lookup "issuetype" d = Some JNull \/
  dict_lookup "project" d = Some JNull ->
  build_processed repr_str comment_depth (JObj i) (JObj d) issue_key comments
    description_text now = Err AttributeError.
Proof.
  intros Hnull. unfold build_processed.
  cbn [py_get py_get_default rbind].
  destruct (get2 (JObj d) "status" "name") as [a1|e] eqn:E1; cbn [rbind];
    [|rewrite (get2_error _ _ _ _ E1); reflexivity].
  destruct (get3 (JObj d) "status" "statusCategory" "name") as [a2|e] eqn:E2;
    cbn [rbind]; [|rewrite (get3_error _ _ _ _ _ E2); reflexivity].
  destruct (get2_guarded (JObj d) "priority" "name") as [a3|e] eqn:E3;
    cbn [rbind]; [|rewrite (get2_guarded_error _ _ _ _ E3); reflexivity].
  destruct (get2 (JObj d) "issuetype" "name") as [a4|e] eqn:E4; cbn [rbind];
    [|rewrite (get2_error _ _ _ _ E4); reflexivity].
  destruct (get2 (JObj d) "issuetype" "subtask") as [a5|e] eqn:E5; cbn [rbind];
    [|rewrite (get2_error _ _ _ _ E5); reflexivity].
  destruct (get2 (JObj d) "project" "key") as [a6|e] eqn:E6; cbn [rbind];
    [|rewrite (get2_error _ _ _ _ E6); reflexivity].
  exfalso. destruct Hnull as [H|[H|H]].
  - rewrite (get2_null _ _ _ H) in E1. discriminate.
  - rewrite (get2_null _ _ _ H) in E4. discriminate.
  - rewrite (get2_null _ _ _ H) in E6. discriminate.
Qed.

Lemma description_text_returns (description : json) :
  wf_adf description = true ->
  if description_too_deep description_depth description
  then (if is_dict description
        then _adf_to_text repr_str description_depth description
        else OK (if truthy description then py_str repr_str description else ""))
       = Err RecursionError
  else exists out,
    (if is_dict description
     then _adf_to_text repr_str description_depth description
     else OK (if truthy description then py_str repr_str description else ""))
    = OK out.
Proof.
  intros Hwf. unfold description_too_deep.
  destruct (is_dict description) eqn:E; cbn [andb].
  - destruct (Nat.ltb_spec (S description_depth) (frames_needed description)).
    + apply adf_to_text_too_deep; assumption.
    + apply adf_to_text_returns; assumption.
  - eexists; reflexivity.
Qed.

(** C6 at its failing inputs. For a raw issue whose [fields] hold [status],
    [issuetype] or [project] with a null value, with the comments fetched
    without error and a well-formed description, [process_issue] returns no
    record with null scalars: it raises [AttributeError], or, when the
    description is nested deeper than the interpreter allows,
    [RecursionError] before it reaches the null object. *)
Theorem null_nested_object_raises (i d : pydict) (w w1 : world) (fetched : json) :
  dict_lookup "fields" i = Some (JObj d) ->
  dict_lookup "status" d = Some JNull \/
  dict_lookup "issuetype" d = Some JNull \/
  dict_lookup "project" d = Some JNull ->
  get_issue_comments repr_str source base_url (dget i "key") w = (Ret fetched, w1) ->
  wf_adf (dget_default d "description" (JObj [])) = true ->
  process_issue repr_str description_depth comment_depth source base_url (JObj i) w =
  (Raise (if description_too_deep description_depth (dget_default d "description" (JObj []))
          then RecursionError else AttributeError), w1).
Proof.
  intros Hfields Hnull Hfetch Hwf.
  pose proof (description_text_returns _ Hwf) as Htext.
  unfold process_issue.
  erewrite bind_Ret
    by (cbn [py_get_default]; rewrite Hfields; reflexivity).
  erewrite bind_Ret by reflexivity.
  erewrite bind_Ret by exact Hfetch.
  erewrite bind_Ret by reflexivity.
  destruct (description_too_deep description_depth
              (dget_default d "description" (JObj []))).
  - unfold dget_default in Htext. unfold bind at 1, lift at 1.
    cbn [py_get_default]. rewrite Htext. reflexivity.
  - destruct Htext as [text Htext].
    erewrite bind_Ret by (unfold dget_default in Htext; rewrite Htext; reflexivity).
    erewrite bind_Ret by reflexivity.
    rewrite (build_processed_null_object _ _ _ _ _ _ Hnull). reflexivity.
Qed.

End NormalizerProperties.

(** ** RecordNormalizer and Storage: the raw forms *)

Lemma rmapM_Forall2 {A B} (f : A -> result B) (R : A -> B -> Prop)
    (l : list A) (rows : list B) :
  (forall x y, f x = OK y -> R x y) ->
  rmapM f l = OK rows -> Forall2 R l rows.
Proof.
  intros Hf. revert rows. induction l as [|x r IH]; intros rows H; cbn [rmapM] in H.
  - inversion H. constructor.
  - destruct (f x) as [y|] eqn:E; [|discriminate]. cbn [rbind] in H.
    destruct (rmapM f r) as [rows'|]; [|discriminate]. cbn [rbind] in H.
    inversion H; subst. constructor; [apply Hf, E | apply IH; reflexivity].
Qed.

Section RawFormProperties.
Variable repr_str : string -> string.
Variable description_depth comment_depth : nat.
Variable source : list request -> request -> response.
Variable base_url : string.
Variable json_dumps : json -> string.

Lemma extract_comment_info_body_raw (comment info : json) :
  extract_comment_info repr_str comment_depth comment = OK info ->
  exists raw, py_get comment "body" = OK raw /\ py_get info "bodyRaw" = OK raw.
Proof.
  unfold extract_comment_info. intros H. step_params H.
  inversion H; subst. eexists. split; [first [eassumption | reflexivity] | reflexivity].
Qed.

Lemma comment_params_body_raw (k : option string) (info : json) (row : comment_row) :
  comment_params json_dumps k info = OK row ->
  exists raw, py_get info "bodyRaw" = OK raw /\
              c_body_raw row = Some (json_dumps raw).
Proof.
  unfold comment_params. intros H. step_params H.
  inversion H; subst. eexists. split; [first [eassumption | reflexivity] | reflexivity].
Qed.

Lemma build_processed_raw (issue fields issue_key comments : json)
    (description_text now : string) (processed : pydict) :
  build_processed repr_str comment_depth issue fields issue_key comments description_text now
    = OK processed ->
  py_get fields "description" = OK (dget processed "descriptionRaw") /\
  exists comment_list infos,
    py_iter comments = OK comment_list /\
    rmapM (extract_comment_info repr_str comment_depth) comment_list = OK infos /\
    dget processed "comments" = JList infos.
Proof.
  unfold build_processed. intros H. step_params H.
  inversion H; subst. split; [first [assumption | reflexivity]|].
  eexists _, _. repeat split; first [eassumption | reflexivity].
Qed.

(** C8, as amended. In the record [process_issue] returns, [descriptionRaw]
    is the [description] of the raw fields and each comment's [bodyRaw] is
    the [body] of the fetched comment, unmodified (null when absent). The
    store keeps the [json.dumps] text of these two, and what it keeps in
    [raw_json] is the [json.dumps] text of the normalized record; the raw
    payload of the source is not retained. *)
Theorem raw_forms_retained (issue : json) (w w' : world) (processed : pydict)
    (c c' : connection) :
  process_issue repr_str description_depth comment_depth source base_url issue w
    = (Ret processed, w') ->
  insert_ticket json_dumps processed c = (Ret tt, c') ->
  exists fields issue_key fetched w1 comment_list infos cols rowid crows,
    py_get_default issue "fields" (JObj []) = OK fields /\
    py_get issue "key" = OK issue_key /\
    get_issue_comments repr_str source base_url issue_key w = (Ret fetched, w1) /\
    py_get fields "description" = OK (dget processed "descriptionRaw") /\
    py_iter fetched = OK comment_list /\
    dget processed "comments" = JList infos /\
    Forall2 (fun comment info =>
               exists raw, py_get comment "body" = OK raw /\
                           py_get info "bodyRaw" = OK raw)
      comment_list infos /\
    In (mkTicketRow rowid cols) (tickets (current c')) /\
    t_description_raw cols = Some (json_dumps (dget processed "descriptionRaw")) /\
    t_raw_json cols = Some (json_dumps (JObj processed)) /\
    incl crows (comments (current c')) /\
    Forall2 (fun info row =>
               exists raw, py_get info "bodyRaw" = OK raw /\
                           c_body_raw row = Some (json_dumps raw))
      infos crows.
Proof.
  intros Hproc Hins.
  unfold process_issue in Hproc.
  apply bind_Ret_inv in Hproc as (fields & s1 & H1 & Hproc).
  apply lift_Ret_inv in H1 as [Hfields ->].
  apply bind_Ret_inv in Hproc as (issue_key & s2 & H2 & Hproc).
  apply lift_Ret_inv in H2 as [Hkey ->].
  apply bind_Ret_inv in Hproc as (fetched & w1 & Hfetch & Hproc).
  apply bind_Ret_inv in Hproc as (description & s3 & H3 & Hproc).
  apply lift_Ret_inv in H3 as [Hdesc ->].
  apply bind_Ret_inv in Hproc as (description_text & s4 & H4 & Hproc).
  apply lift_Ret_inv in H4 as [Htext ->].
  apply bind_Ret_inv in Hproc as (now & s5 & H5 & Hproc).
  apply lift_Ret_inv in Hproc as [Hbuild _].
  apply build_processed_raw in Hbuild
    as (Hraw & comment_list & infos & Hiter & Hinfos & Hcomments).
  apply insert_ticket_shape in Hins
    as (cols & cs & hs & ls & ss & crows & hrows & lrows & srows &
        Hcols & Hcs & Hcrows & _ & _ & _ & _ & _ & _ & _ & Hcur & _).
  destruct (ticket_params_columns _ _ _ Hcols) as (_ & _ & _ & _ & Hdraw & Hrawjson).
  assert (Hcs' : cs = infos).
  { unfold dget_default in Hcs. unfold dget in Hcomments.
    destruct (dict_lookup "comments" processed); [|discriminate].
    subst. cbn in Hcs. inversion Hcs. reflexivity. }
  subst cs.
  exists fields, issue_key, fetched, w1, comment_list, infos, cols,
    (max_rowid (tickets (current c)) + 1), crows.
  repeat (split; [assumption|]).
  split.
  { eapply rmapM_Forall2; [|exact Hinfos]. apply extract_comment_info_body_raw. }
  rewrite Hcur. unfold upserted. cbn [tickets comments].
  split; [apply in_or_app; right; left; reflexivity|].
  repeat (split; [assumption|]).
  split.
  { intros row Hrow. apply in_or_app. right. exact Hrow. }
  eapply rmapM_Forall2; [|exact Hcrows]. apply comment_params_body_raw.
Qed.

End RawFormProperties.

(** * Further properties *)

(** ** PaginatingClient: one call of [_api_get] *)

Ltac split4 := split; [|split; [|split]].

Ltac run_events :=
  unfold bind, print, sleep_ms, emit, modify, ret, raise; cbn [fst snd heap events utc_now];
  rewrite <- ?app_assoc; cbn [app].

Section ApiGetProperties.
Variable source : list request -> request -> response.
Variable base_url : string.

Lemma session_get_run (endpoint : string) (params : option nat) (w : world) :
  session_get source endpoint params w =
  (Ret (source (requests_of w) (request_for endpoint params w)),
   mkWorld (heap w) (events w ++ [EvRequest (request_for endpoint params w)])
     (utc_now w)).
Proof. destruct params; reflexivity. Qed.

Lemma requests_of_app (h : list pydict) (evs more : list event) (now : string) :
  requests_of (mkWorld h (evs ++ more) now) =
  requests_of (mkWorld h evs now) ++ omap is_request more.
Proof. unfold requests_of. cbn [events]. apply omap_app. Qed.

Lemma request_for_same_heap (endpoint : string) (params : option nat)
    (w w' : world) :
  heap w' = heap w -> request_for endpoint params w' = request_for endpoint params w.
Proof. intros H. unfold request_for. rewrite H. reflexivity. Qed.


(** Everything [api_get_attempts] does to the world and every way it can
    end. *)
Lemma api_get_attempts_spec (left : nat) :
  forall attempt max_retries endpoint params w out w',
  api_get_attempts source base_url left attempt max_retries endpoint params w = (out, w') ->
  exists n,
    (n <= left)%nat /\ (left <> 0%nat -> (1 <= n)%nat) /\
    requests_of w' = requests_of w ++ repeat (request_for endpoint params w) n /\
    out <> Diverge.
Proof.
  induction left as [|left' IH]; intros attempt max_retries endpoint params w out w' Hrun;
    cbn [api_get_attempts] in Hrun.
  - exists 0%nat. revert Hrun. run_events. intros [= <- <-].
    rewrite requests_of_app. cbn [omap is_request repeat].
    split4; [lia | congruence | destruct w; reflexivity | discriminate].
  - unfold bind at 1 in Hrun. rewrite session_get_run in Hrun.
    set (req := request_for endpoint params w) in *.
    set (r := source (requests_of w) req) in *.
    destruct (status_code r =? 429) eqn:E429.
    { destruct (retry_after_seconds r) as [secs|e] eqn:Eretry.
      - cbn [lift] in Hrun. revert Hrun. run_events. intros Hrun.
        apply IH in Hrun as (n & Hn & _ & Hreq & Hout).
        exists (S n). rewrite Hreq.
        rewrite (request_for_same_heap endpoint params w) by reflexivity.
        fold req. rewrite !requests_of_app. cbn [omap is_request].
        split4; [lia | lia | | exact Hout].
        cbn [repeat]. rewrite <- !app_assoc. cbn [app].
        destruct w; reflexivity.
      - exists 1%nat. cbn [lift] in Hrun. revert Hrun. run_events. intros [= <- <-].
        rewrite requests_of_app. cbn [omap is_request repeat].
        split4; [lia | lia | destruct w; reflexivity |].
        discriminate. }
    destruct (status_code r =? 401) eqn:E401.
    { exists 1%nat. revert Hrun. run_events. intros [= <- <-].
      rewrite !requests_of_app. cbn [omap is_request repeat].
      split4; [lia | lia | destruct w; reflexivity | discriminate]. }
    destruct (status_code r =? 403) eqn:E403.
    { exists 1%nat. revert Hrun. run_events. intros [= <- <-].
      rewrite !requests_of_app. cbn [omap is_request repeat].
      split4; [lia | lia | destruct w; reflexivity | discriminate]. }
    destruct ((400 <=? status_code r) && (status_code r <? 600)) eqn:Erange.
    { exists 1%nat. revert Hrun. run_events. intros [= <- <-].
      rewrite !requests_of_app. cbn [omap is_request repeat].
      split4; [lia | lia | destruct w; reflexivity |].
      discriminate. }
    exists 1%nat.
    destruct (body r) as [j|]; revert Hrun; run_events; intros [= <- <-];
      rewrite !requests_of_app; cbn [omap is_request repeat];
      (split4; [lia | lia | destruct w; reflexivity |]);
      discriminate.
Qed.

(** X1. One call of [_api_get] sends between one and five requests, all of
    them the same request, and always ends. *)
Theorem api_get_request_bound (endpoint : string) (params : option nat) (w : world) :
  exists n,
    (1 <= n <= 5)%nat /\
    requests_of (snd (_api_get source base_url endpoint params w)) =
      requests_of w ++ repeat (request_for endpoint params w) n /\
    fst (_api_get source base_url endpoint params w) <> Diverge.
Proof.
  destruct (_api_get source base_url endpoint params w) as [out w'] eqn:Hrun.
  apply api_get_attempts_spec in Hrun as (n & Hle & Hge & Hreq & Hout).
  exists n. cbn [fst snd]. split; [|split]; [|exact Hreq|exact Hout].
  split; [apply Hge; discriminate | exact Hle].
Qed.

Lemma sleeps_of_app (h : list pydict) (evs more : list event) (now : string) :
  sleeps_of (mkWorld h (evs ++ more) now) =
  sleeps_of (mkWorld h evs now) ++ omap is_sleep more.
Proof. unfold sleeps_of. cbn [events]. apply omap_app. Qed.

(** [k] rate-limited answers in a row use up [k] iterations of the retry
    loop, one request and one sleep each. *)
Lemma api_get_attempts_rate_limited (k : nat) :
  forall left attempt max_retries endpoint params w (secs : nat -> Z),
  (forall i, (i < k)%nat ->
     rate_limited
       (source (requests_of w ++ repeat (request_for endpoint params w) i)
          (request_for endpoint params w)) (secs i)) ->
  exists wk,
    heap wk = heap w /\
    requests_of wk = requests_of w ++ repeat (request_for endpoint params w) k /\
    sleeps_of wk =
      sleeps_of w ++
      map (fun i => 1000 * Z.max (secs i) (2 ^ (attempt + Z.of_nat i))) (seq 0 k) /\
    api_get_attempts source base_url (k + left) attempt max_retries endpoint params w =
    api_get_attempts source base_url left (attempt + Z.of_nat k) max_retries
      endpoint params wk.
Proof.
  induction k as [|k' IH]; intros left attempt max_retries endpoint params w secs Hlim.
  - exists w. cbn [repeat seq map Nat.add]. rewrite !app_nil_r, Z.add_0_r.
    repeat split; reflexivity.
  - destruct (Hlim 0%nat ltac:(lia)) as (H429 & Hretry & _).
    cbn [repeat] in H429, Hretry. rewrite app_nil_r in H429, Hretry.
    set (req := request_for endpoint params w) in *.
    set (w1 := mkWorld (heap w)
                 (events w ++
                  [EvRequest req;
                   EvPrint (nl +:+ "  Rate limited. Waiting " +:+
                            pretty (Z.max (secs 0%nat) (2 ^ attempt)) +:+
                            "s before retry (" +:+ pretty (attempt + 1) +:+ "/" +:+
                            pretty max_retries +:+ ")...");
                   EvSleep (1000 * Z.max (secs 0%nat) (2 ^ attempt))])
                 (utc_now w)).
    assert (Hreq1 : request_for endpoint params w1 = req) by reflexivity.
    assert (Hrs1 : requests_of w1 = requests_of w ++ [req]).
    { unfold w1. rewrite requests_of_app. destruct w; reflexivity. }
    destruct (IH left (attempt + 1) max_retries endpoint params w1
                (fun i => secs (S i))) as (wk & Hheap & Hreqs & Hsleeps & Hrun).
    { intros i Hi. rewrite Hreq1, Hrs1, <- app_assoc. apply (Hlim (S i)). lia. }
    exists wk. split; [exact Hheap|]. split; [|split].
    + rewrite Hreqs, Hreq1, Hrs1, <- app_assoc. reflexivity.
    + rewrite Hsleeps. unfold w1. rewrite sleeps_of_app.
      cbn [omap is_sleep seq map]. rewrite <- app_assoc. cbn [app].
      rewrite Z.add_0_r, <- seq_shift, map_map.
      replace (sleeps_of (mkWorld (heap w) (events w) (utc_now w)))
        with (sleeps_of w) by (destruct w; reflexivity).
      do 2 f_equal. apply map_ext. intros i.
      replace (attempt + 1 + Z.of_nat i) with (attempt + Z.of_nat (S i)) by lia.
      reflexivity.
    + replace (attempt + Z.of_nat (S k')) with (attempt + 1 + Z.of_nat k') by lia.
      rewrite <- Hrun. cbn [Nat.add api_get_attempts].
      unfold bind at 1. rewrite session_get_run. fold req.
      apply Z.eqb_eq in H429. rewrite H429, Hretry. cbn [lift].
      run_events. reflexivity.
Qed.

(** An answer that is no error ends the loop with its body. *)
Lemma api_get_attempts_answer (left : nat) (attempt max_retries : Z)
    (endpoint : string) (params : option nat) (w : world) (data : json) :
  answers_ok (source (requests_of w) (request_for endpoint params w)) data ->
  api_get_attempts source base_url (S left) attempt max_retries endpoint params w =
  (Ret data,
   mkWorld (heap w) (events w ++ [EvRequest (request_for endpoint params w)])
     (utc_now w)).
Proof.
  intros (H429 & H401 & H403 & Hok & Hbody).
  cbn [api_get_attempts]. unfold bind at 1. rewrite session_get_run.
  apply Z.eqb_neq in H429, H401, H403. rewrite H429, H401, H403.
  destruct ((400 <=? _) && (_ <? 600)) eqn:Erange.
  { apply andb_true_iff in Erange as [Hlo Hhi].
    apply Z.leb_le in Hlo. apply Z.ltb_lt in Hhi. exfalso. apply Hok. lia. }
  rewrite Hbody. reflexivity.
Qed.

(** An answer that is not rate limited ends the loop at once. *)
Lemma api_get_attempts_first (left : nat) (attempt max_retries : Z)
    (endpoint : string) (params : option nat) (w : world) :
  let r := source (requests_of w) (request_for endpoint params w) in
  status_code r <> 429 ->
  exists w',
    api_get_attempts source base_url (S left) attempt max_retries endpoint params w =
      (answer_outcome r, w') /\
    heap w' = heap w /\
    requests_of w' = requests_of w ++ [request_for endpoint params w].
Proof.
  intros r H429.
  destruct (api_get_attempts source base_url (S left) attempt max_retries
              endpoint params w) as [out w'] eqn:Hrun.
  exists w'. cbn [api_get_attempts] in Hrun.
  unfold bind at 1 in Hrun. rewrite session_get_run in Hrun. fold r in Hrun.
  apply Z.eqb_neq in H429. rewrite H429 in Hrun. unfold answer_outcome.
  destruct (status_code r =? 401) eqn:E401.
  { revert Hrun. run_events. intros [= <- <-].
    rewrite !requests_of_app. cbn [omap is_request orb].
    rewrite ?app_nil_r. destruct w; repeat split; reflexivity. }
  destruct (status_code r =? 403) eqn:E403.
  { revert Hrun. run_events. intros [= <- <-].
    rewrite !requests_of_app. cbn [omap is_request orb].
    rewrite ?app_nil_r. destruct w; repeat split; reflexivity. }
  cbn [orb].
  destruct ((400 <=? status_code r) && (status_code r <? 600)) eqn:Erange.
  { revert Hrun. run_events. intros [= <- <-].
    rewrite !requests_of_app. cbn [omap is_request orb].
    rewrite ?app_nil_r. destruct w; repeat split; reflexivity. }
  destruct (body r); revert Hrun; run_events; intros [= <- <-];
    rewrite !requests_of_app; cbn [omap is_request];
    destruct w; repeat split; reflexivity.
Qed.

(** X4. [list_projects] answers a failed request with the empty list, but an
    authentication or permission failure still ends the program: with a
    first answer that is not rate limited, 401 and 403 exit with status 1,
    any other error status and any body that is not JSON give [[]], and a
    good answer gives its body. *)
Theorem list_projects_first_answer (w : world) :
  let r := source (requests_of w) (mkRequest "project" None) in
  status_code r <> 429 ->
  fst (list_projects source base_url w) =
    if (status_code r =? 401) || (status_code r =? 403) then Raise (SystemExit 1)
    else if (400 <=? status_code r) && (status_code r <? 600) then Ret (JList [])
    else Ret (default (JList []) (body r)).
Proof.
  intros r H429. unfold list_projects, try_except, _api_get, _api_get_retries.
  destruct (api_get_attempts_first 4 0 (Z.of_nat 5) "project" None w H429)
    as (w' & Hrun & _ & _).
  change (request_for "project" None w) with (mkRequest "project" None) in Hrun.
  fold r in Hrun. rewrite Hrun. unfold answer_outcome.
  destruct ((status_code r =? 401) || (status_code r =? 403)); [reflexivity|].
  destruct ((400 <=? status_code r) && (status_code r <? 600)); [reflexivity|].
  destruct (body r); reflexivity.
Qed.

(** X2. When the first five answers are all rate limited, [_api_get] has
    sent five requests, has slept after each one for the larger of the
    [Retry-After] seconds and [2 ** attempt], and exits with status 1. *)
Theorem api_get_gives_up_after_five (endpoint : string) (params : option nat)
    (w : world) (secs : nat -> Z)
    (Hlimited : forall i, (i < 5)%nat ->
       rate_limited
         (source (requests_of w ++ repeat (request_for endpoint params w) i)
            (request_for endpoint params w)) (secs i)) :
  let run := _api_get source base_url endpoint params w in
  fst run = Raise (SystemExit 1) /\
  requests_of (snd run) = requests_of w ++ repeat (request_for endpoint params w) 5 /\
  sleeps_of (snd run) =
    sleeps_of w ++ map (fun i => 1000 * Z.max (secs i) (2 ^ Z.of_nat i)) (seq 0 5).
Proof.
  intros run.
  destruct (api_get_attempts_rate_limited 5 0 0 5 endpoint params w secs Hlimited)
    as (wk & _ & Hreqs & Hsleeps & Hrun).
  subst run.
  change (_api_get source base_url endpoint params w)
    with (api_get_attempts source base_url (5 + 0) 0 5 endpoint params w).
  rewrite Hrun.
  cbn [api_get_attempts]. run_events.
  rewrite requests_of_app, sleeps_of_app. cbn [omap is_request is_sleep].
  rewrite !app_nil_r.
  replace (requests_of (mkWorld (heap wk) (events wk) (utc_now wk)))
    with (requests_of wk) by (destruct wk; reflexivity).
  replace (sleeps_of (mkWorld (heap wk) (events wk) (utc_now wk)))
    with (sleeps_of wk) by (destruct wk; reflexivity).
  split; [reflexivity|]. split; [exact Hreqs|exact Hsleeps].
Qed.

(** X3. When [k] rate-limited answers, [k < 5], are followed by an answer
    with a JSON body and a status that is no error, [_api_get] returns that
    body after [k + 1] requests and [k] sleeps. *)
Theorem api_get_retries_until_answer (endpoint : string) (params : option nat)
    (w : world) (k : nat) (secs : nat -> Z) (data : json)
    (Hk : (k < 5)%nat)
    (Hlimited : forall i, (i < k)%nat ->
       rate_limited
         (source (requests_of w ++ repeat (request_for endpoint params w) i)
            (request_for endpoint params w)) (secs i))
    (Hanswer : answers_ok
       (source (requests_of w ++ repeat (request_for endpoint params w) k)
          (request_for endpoint params w)) data) :
  let run := _api_get source base_url endpoint params w in
  fst run = Ret data /\
  requests_of (snd run) =
    requests_of w ++ repeat (request_for endpoint params w) (S k) /\
  sleeps_of (snd run) =
    sleeps_of w ++ map (fun i => 1000 * Z.max (secs i) (2 ^ Z.of_nat i)) (seq 0 k).
Proof.
  intros run.
  destruct (api_get_attempts_rate_limited k (5 - k) 0 5 endpoint params w secs Hlimited)
    as (wk & Hheap & Hreqs & Hsleeps & Hrun).
  subst run.
  replace (_api_get source base_url endpoint params w)
    with (api_get_attempts source base_url (k + (5 - k)) 0 5 endpoint params w)
    by (unfold _api_get, _api_get_retries; replace (k + (5 - k))%nat with 5%nat by lia;
        reflexivity).
  rewrite Hrun.
  destruct (5 - k)%nat as [|left'] eqn:Hleft; [lia|].
  rewrite api_get_attempts_answer with (data := data)
    by (rewrite (request_for_same_heap endpoint params w wk Hheap), Hreqs; exact Hanswer).
  cbn [fst snd].
  rewrite requests_of_app, sleeps_of_app. cbn [omap is_request is_sleep].
  rewrite app_nil_r, (request_for_same_heap endpoint params w wk Hheap).
  replace (requests_of (mkWorld (heap wk) (events wk) (utc_now wk)))
    with (requests_of wk) by (destruct wk; reflexivity).
  replace (sleeps_of (mkWorld (heap wk) (events wk) (utc_now wk)))
    with (sleeps_of wk) by (destruct wk; reflexivity).
  split; [reflexivity|]. split; [|exact Hsleeps].
  rewrite Hreqs. replace (S k) with (k + 1)%nat by lia.
  rewrite repeat_app, <- app_assoc. reflexivity.
Qed.

(** [_api_get] on an answer that is no error, as one step. *)
Lemma api_get_answer (endpoint : string) (params : option nat) (w : world)
    (data : json) :
  answers_ok (source (requests_of w) (request_for endpoint params w)) data ->
  _api_get source base_url endpoint params w =
  (Ret data,
   mkWorld (heap w) (events w ++ [EvRequest (request_for endpoint params w)])
     (utc_now w)).
Proof. apply api_get_attempts_answer. Qed.

End ApiGetProperties.

(** ** SourceClient: the comments fetch and its failures *)

Section CommentsFetchProperties.
Variable repr_str : string -> string.
Variable source : list request -> request -> response.
Variable base_url : string.

(** [_api_get] when [k] rate-limited answers are followed by one that is
    not, or by one whose [Retry-After] header is no number. *)
Lemma api_get_after_rate_limits (endpoint : string) (params : option nat)
    (w : world) (k : nat) (secs : nat -> Z) :
  let answer i :=
    source (requests_of w ++ repeat (request_for endpoint params w) i)
      (request_for endpoint params w) in
  (k <= 5)%nat ->
  (forall i, (i < k)%nat -> rate_limited (answer i) (secs i)) ->
  ((k < 5)%nat -> status_code (answer k) = 429 -> retry_after (answer k) = HOther) ->
  exists w',
    _api_get source base_url endpoint params w =
    (if (k =? 5)%nat then Raise (SystemExit 1)
     else if status_code (answer k) =? 429 then Raise ValueError
     else answer_outcome (answer k), w').
Proof.
  intros answer Hk Hlim Hlast.
  destruct (api_get_attempts_rate_limited source base_url k (5 - k) 0 5 endpoint params
              w secs Hlim) as (wk & Hheap & Hreqs & _ & Hrun).
  replace (_api_get source base_url endpoint params w)
    with (api_get_attempts source base_url (k + (5 - k)) 0 5 endpoint params w)
    by (unfold _api_get, _api_get_retries; replace (k + (5 - k))%nat with 5%nat by lia;
        reflexivity).
  rewrite Hrun. clear Hrun.
  destruct (Nat.eqb_spec k 5) as [E5|E5].
  - subst k. cbn [Nat.sub api_get_attempts]. run_events. eexists. reflexivity.
  - destruct (5 - k)%nat as [|left'] eqn:Hleft; [lia|].
    assert (Hr : source (requests_of wk) (request_for endpoint params wk) = answer k).
    { rewrite (request_for_same_heap endpoint params w wk Hheap), Hreqs. reflexivity. }
    destruct (status_code (answer k) =? 429) eqn:E429.
    + apply Z.eqb_eq in E429. specialize (Hlast ltac:(lia) E429).
      cbn [api_get_attempts]. unfold bind at 1. rewrite session_get_run, Hr.
      apply Z.eqb_eq in E429. rewrite E429.
      unfold retry_after_seconds. rewrite Hlast. cbn [lift].
      unfold bind, raise. eexists. reflexivity.
    + apply Z.eqb_neq in E429. rewrite <- Hr in E429.
      destruct (api_get_attempts_first source base_url left' (0 + Z.of_nat k) 5
                  endpoint params wk E429) as (w' & Hrun & _ & _).
      rewrite Hrun, Hr. eexists. reflexivity.
Qed.

(** What [get_issue_comments] makes of the outcome of its request. *)
Lemma get_issue_comments_outcome (issue_key : json) (w : world) (k : nat)
    (secs : nat -> Z) :
  let answer := comments_answer repr_str source issue_key w in
  (k <= 5)%nat ->
  (forall i, (i < k)%nat -> rate_limited (answer i) (secs i)) ->
  ((k < 5)%nat -> status_code (answer k) = 429 -> retry_after (answer k) = HOther) ->
  fst (get_issue_comments repr_str source base_url issue_key w) =
  if (k =? 5)%nat then Raise (SystemExit 1)
  else if status_code (answer k) =? 429 then Raise ValueError
  else match answer_outcome (answer k) with
       | Ret (JObj d) => Ret (dget_default d "comments" (JList []))
       | Ret _ => Raise AttributeError
       | Raise e => if is_http_error e then Ret (JList []) else Raise e
       | Diverge => Diverge
       end.
Proof.
  intros answer Hk Hlim Hlast.
  set (endpoint := "issue/" +:+ py_str repr_str issue_key +:+ "/comment").
  set (w1 := snd (sleep_ms 100 w)).
  assert (Hanswer : forall i,
            source (requests_of w1 ++ repeat (request_for endpoint None w1) i)
              (request_for endpoint None w1) = answer i).
  { intros i. unfold w1. rewrite requests_of_sleep. reflexivity. }
  destruct (api_get_after_rate_limits endpoint None w1 k secs Hk) as (w' & Hrun).
  { intros i Hi. rewrite Hanswer. apply Hlim, Hi. }
  { rewrite Hanswer. exact Hlast. }
  rewrite Hanswer in Hrun.
  unfold get_issue_comments, try_except. fold endpoint.
  unfold bind at 1. change (sleep_ms 100 w) with (Ret tt, w1). cbv iota beta.
  unfold bind at 1. rewrite Hrun.
  destruct (k =? 5)%nat; [reflexivity|].
  destruct (status_code (answer k) =? 429); [reflexivity|].
  destruct (answer_outcome (answer k)) as [[| | | | |d]|e|]; try reflexivity.
  destruct (is_http_error e); reflexivity.
Qed.

(** C4, as amended. The comments fetch of a ticket is non-fatal for an HTTP
    error status only. Let the comments request be rate limited [k] times,
    at most five, and then be answered with a status other than 429 (or
    with a 429 whose [Retry-After] header is no number). When that answer
    is a 4xx or 5xx status other than 401 and 403, [get_issue_comments]
    returns the empty list; when it is 401 or 403, and when all five
    attempts were rate limited, it leaves through [SystemExit], which
    nothing catches; a [Retry-After] that is no number raises [ValueError];
    a status that is no error gives the [comments] of the body, or raises
    when the body is not JSON or no object. So the empty list is returned
    only for such an error status or for a body without comments. *)
Theorem comments_fetch_soft_failure (issue_key : json) (w : world) (k : nat)
    (secs : nat -> Z) :
  let answer := comments_answer repr_str source issue_key w in
  let status := status_code (answer k) in
  let out := fst (get_issue_comments repr_str source base_url issue_key w) in
  (k <= 5)%nat ->
  (forall i, (i < k)%nat -> rate_limited (answer i) (secs i)) ->
  ((k < 5)%nat -> status = 429 -> retry_after (answer k) = HOther) ->
  ((k < 5)%nat -> 400 <= status < 600 ->
   status <> 401 -> status <> 403 -> status <> 429 -> out = Ret (JList [])) /\
  ((k < 5)%nat -> status = 401 \/ status = 403 -> out = Raise (SystemExit 1)) /\
  (k = 5%nat -> out = Raise (SystemExit 1)) /\
  ((k < 5)%nat -> status = 429 -> out = Raise ValueError) /\
  ((k < 5)%nat -> ~ 400 <= status < 600 ->
   out = match body (answer k) with
         | None => Raise JSONDecodeError
         | Some (JObj d) => Ret (dget_default d "comments" (JList []))
         | Some _ => Raise AttributeError
         end) /\
  (out = Ret (JList []) ->
   (k < 5)%nat /\
   ((400 <= status < 600 /\ status <> 401 /\ status <> 403 /\ status <> 429) \/
    (~ 400 <= status < 600 /\
     exists d, body (answer k) = Some (JObj d) /\
               dget_default d "comments" (JList []) = JList []))).
Proof.
  intros answer status out Hk Hlim Hlast.
  pose proof (get_issue_comments_outcome issue_key w k secs Hk Hlim Hlast) as Hout.
  cbv zeta in Hout. fold answer out in Hout. fold status in Hout.
  unfold answer_outcome in Hout. fold status in Hout.
  revert Hout. destruct (Nat.eqb_spec k 5) as [E5|E5]; intros Hout.
  { do 5 (split; [intros; first [lia | exact Hout]|]).
    intros H'. rewrite Hout in H'. discriminate. }
  revert Hout. destruct (Z.eqb_spec status 429) as [E429|E429]; intros Hout.
  { do 5 (split; [intros; first [lia | exact Hout]|]).
    intros H'. rewrite Hout in H'. discriminate. }
  revert Hout. destruct (Z.eqb_spec status 401) as [E401|E401]; intros Hout.
  { cbn [orb] in Hout. do 5 (split; [intros; first [lia | exact Hout]|]).
    intros H'. rewrite Hout in H'. discriminate. }
  revert Hout. destruct (Z.eqb_spec status 403) as [E403|E403]; intros Hout.
  { cbn [orb] in Hout. do 5 (split; [intros; first [lia | exact Hout]|]).
    intros H'. rewrite Hout in H'. discriminate. }
  cbn [orb] in Hout. revert Hout.
  destruct (Z.leb_spec 400 status) as [Hlo|Hlo];
    [destruct (Z.ltb_spec status 600) as [Hhi|Hhi]|]; cbn [andb is_http_error];
    intros Hout.
  - split; [intros; exact Hout|]. split; [intros; lia|]. split; [intros; lia|].
    split; [intros; lia|]. split; [intros; lia|].
    intros _. split; [lia|]. left. repeat split; lia || assumption.
  - split; [intros; lia|]. split; [intros; lia|]. split; [intros; lia|].
    split; [intros; lia|]. split.
    + intros _ _. rewrite Hout.
      destruct (body (answer k)) as [[| | | | |d]|]; reflexivity.
    + intros H'. split; [lia|]. right. split; [lia|]. rewrite Hout in H'.
      destruct (body (answer k)) as [[| | | | |d]|]; try discriminate.
      exists d. split; [reflexivity|]. congruence.
  - split; [intros; lia|]. split; [intros; lia|]. split; [intros; lia|].
    split; [intros; lia|]. split.
    + intros _ _. rewrite Hout.
      destruct (body (answer k)) as [[| | | | |d]|]; reflexivity.
    + intros H'. split; [lia|]. right. split; [lia|]. rewrite Hout in H'.
      destruct (body (answer k)) as [[| | | | |d]|]; try discriminate.
      exists d. split; [reflexivity|]. congruence.
Qed.

End CommentsFetchProperties.

Section TransitionsProperties.
Variable repr_str : string -> string.
Variable source : list request -> request -> response.
Variable base_url : string.

(** X19. [get_issue_transitions] turns an HTTP error status into the empty
    list and nothing else: with a first answer that is not rate limited, 401
    and 403 exit with status 1, a body that is not JSON raises
    [JSONDecodeError], a JSON body that is no object raises
    [AttributeError], and an object gives its [transitions], or the empty
    list when it has none. *)
Theorem get_issue_transitions_first_answer (issue_key : json) (w : world) :
  let r := source (requests_of w)
             (mkRequest ("issue/" +:+ py_str repr_str issue_key +:+ "/transitions") None) in
  status_code r <> 429 ->
  fst (get_issue_transitions repr_str source base_url issue_key w) =
    if (status_code r =? 401) || (status_code r =? 403) then Raise (SystemExit 1)
    else if (400 <=? status_code r) && (status_code r <? 600) then Ret (JList [])
    else match body r with
         | None => Raise JSONDecodeError
         | Some (JObj d) => Ret (dget_default d "transitions" (JList []))
         | Some _ => Raise AttributeError
         end.
Proof.
  intros r H429. unfold get_issue_transitions, try_except, bind, _api_get, _api_get_retries.
  destruct (api_get_attempts_first source base_url 4 0 (Z.of_nat 5)
              ("issue/" +:+ py_str repr_str issue_key +:+ "/transitions") None w H429)
    as (w' & Hrun & _ & _).
  change (request_for ("issue/" +:+ py_str repr_str issue_key +:+ "/transitions") None w)
    with (mkRequest ("issue/" +:+ py_str repr_str issue_key +:+ "/transitions") None)
    in Hrun.
  fold r in Hrun. rewrite Hrun. unfold answer_outcome.
  destruct ((status_code r =? 401) || (status_code r =? 403)); [reflexivity|].
  destruct ((400 <=? status_code r) && (status_code r <? 600)); [reflexivity|].
  destruct (body r) as [[| | | | |d]|]; reflexivity.
Qed.

End TransitionsProperties.

Lemma get_issue_transitions_first_answer_witness :
  fst (get_issue_transitions quote_repr (always_status 404)
         "https://example.atlassian.net" (JStr "PROJ-1") new_world) = Ret (JList []).
Proof.
  apply (get_issue_transitions_first_answer quote_repr (always_status 404)
           "https://example.atlassian.net" (JStr "PROJ-1") new_world).
  discriminate.
Defined.

(** ** RecordNormalizer: what [process_issue] asks of the source *)

Lemma silent_bind {A B} (m : M world A) (k : A -> M world B) :
  silent m -> (forall a, silent (k a)) -> silent (bind m k).
Proof.
  intros Hm Hk w. unfold bind. specialize (Hm w).
  destruct (m w) as [[a|e|] w1]; cbn [snd] in *; subst w1; [apply Hk| |]; reflexivity.
Qed.

Lemma silent_lift {A} (r : result A) : silent (@lift world A r).
Proof. intros w. destruct r; reflexivity. Qed.

Lemma silent_gets {A} (f : world -> A) : silent (gets f).
Proof. intros w. reflexivity. Qed.

Section ProcessIssueProperties.
Variable repr_str : string -> string.
Variable description_depth comment_depth : nat.
Variable source : list request -> request -> response.
Variable base_url : string.

Lemma keeps_heap_try_except {A} (m : M world A) (handles : exn -> bool)
    (h : M world A) :
  keeps_heap m -> keeps_heap h -> keeps_heap (try_except m handles h).
Proof.
  intros Hm Hh w. unfold try_except. specialize (Hm w).
  destruct (m w) as [[a|e|] w1]; cbn [snd] in *; [exact Hm| |exact Hm].
  destruct (handles e); [|exact Hm]. rewrite (Hh w1). exact Hm.
Qed.

Lemma keeps_heap_get_issue_comments (issue_key : json) :
  keeps_heap (get_issue_comments repr_str source base_url issue_key).
Proof.
  unfold get_issue_comments. apply keeps_heap_try_except.
  - apply keeps_heap_bind; [apply keeps_heap_emit | intros _].
    apply keeps_heap_bind; [apply keeps_heap_api_get | intros data].
    apply keeps_heap_lift.
  - apply keeps_heap_ret.
Qed.

Lemma get_issue_comments_requests (issue_key : json) (w : world) :
  exists n,
    (1 <= n <= 5)%nat /\
    requests_of (snd (get_issue_comments repr_str source base_url issue_key w)) =
      requests_of w ++
      repeat (mkRequest ("issue/" +:+ py_str repr_str issue_key +:+ "/comment") None) n.
Proof.
  unfold get_issue_comments, try_except.
  set (endpoint := "issue/" +:+ py_str repr_str issue_key +:+ "/comment").
  unfold bind at 1. unfold sleep_ms at 1, emit at 1, modify at 1.
  set (w0 := mkWorld (heap w) (events w ++ [EvSleep 100]) (utc_now w)).
  assert (Hw0 : requests_of w0 = requests_of w).
  { unfold w0. rewrite requests_of_app. cbn [omap is_request].
    rewrite app_nil_r. destruct w; reflexivity. }
  unfold bind at 1.
  destruct (_api_get source base_url endpoint None w0) as [out w1] eqn:Hrun.
  apply api_get_attempts_spec in Hrun as (n & Hle & Hge & Hreqs & _).
  change (request_for endpoint None w0) with (mkRequest endpoint None) in Hreqs.
  rewrite Hw0 in Hreqs.
  exists n. split; [split; [apply Hge; discriminate | exact Hle]|].
  rewrite <- Hreqs. f_equal.
  destruct out as [a|e|]; [|destruct (is_http_error e); reflexivity|reflexivity].
  destruct (py_get_default a "comments" (JList [])) as [v|e]; cbn [lift];
    [reflexivity|]. unfold raise. destruct (is_http_error e); reflexivity.
Qed.

(** X24. Whatever the source answers, the only requests [process_issue]
    makes are those for the comments of the issue. For an issue that is no
    dict it makes none: it raises [AttributeError] and leaves the world as
    it found it. For a dict it makes at least one and at most five, all
    with the endpoint [issue/<key>/comment] and without parameters, [<key>]
    being the string form of the issue's [key]. It writes to no dict
    object. *)
Theorem process_issue_requests (issue : json) (w : world) :
  let run :=
    process_issue repr_str description_depth comment_depth source base_url issue w in
  heap (snd run) = heap w /\
  match issue with
  | JObj d =>
      exists n,
        (1 <= n <= 5)%nat /\
        requests_of (snd run) =
          requests_of w ++
          repeat
            (mkRequest ("issue/" +:+ py_str repr_str (dget d "key") +:+ "/comment") None)
            n
  | _ => fst run = Raise AttributeError /\ snd run = w
  end.
Proof.
  intros run. subst run.
  destruct issue as [| | | | |d]; try (split; [reflexivity|]; split; reflexivity).
  set (issue_key := dget d "key").
  assert (Hsnd : snd (process_issue repr_str description_depth comment_depth source
                        base_url (JObj d) w) =
                 snd (get_issue_comments repr_str source base_url issue_key w)).
  { unfold process_issue. cbn [py_get_default py_get lift].
    rewrite (bind_Ret (ret _) _ w w _) by reflexivity.
    rewrite (bind_Ret (ret _) _ w w _) by reflexivity.
    fold (dget d "key"). fold issue_key.
    unfold bind at 1.
    destruct (get_issue_comments repr_str source base_url issue_key w)
      as [[comments|e|] w1]; cbn [snd]; [|reflexivity|reflexivity].
    apply silent_bind; [apply silent_lift | intros description].
    apply silent_bind; [apply silent_lift | intros description_text].
    apply silent_bind; [apply silent_gets | intros now].
    apply silent_lift. }
  rewrite Hsnd.
  destruct (get_issue_comments_requests issue_key w) as (n & Hn & Hreqs).
  split; [apply keeps_heap_get_issue_comments|].
  exists n. split; [exact Hn | exact Hreqs].
Qed.

(** X25. The text [extract_comment_info] gives a comment depends on how its
    body is missing: no [body] key gives the empty text, but a [body] that
    is null gives the text [None]; a body that is a string is taken as it
    is. [bodyRaw] is the body unchanged, null when there is none. *)
Theorem comment_body_text (d : pydict) (info : json)
    (Hrun : extract_comment_info repr_str comment_depth (JObj d) = OK info) :
  py_get info "bodyRaw" = OK (dget d "body") /\
  match dict_lookup "body" d with
  | None => py_get info "body" = OK (JStr "")
  | Some JNull => py_get info "body" = OK (JStr "None")
  | Some (JStr text) => py_get info "body" = OK (JStr text)
  | Some _ => exists text, py_get info "body" = OK (JStr text)
  end.
Proof.
  unfold extract_comment_info in Hrun.
  cbn [py_get_default py_get rbind] in Hrun. unfold dget.
  destruct (dict_lookup "body" d) as [body|] eqn:Ebody.
  - destruct body; cbn [is_dict _adf_to_text py_str py_repr rbind] in Hrun;
      step_params Hrun; inversion Hrun; subst info;
      (split; [reflexivity|]); try reflexivity; eexists; reflexivity.
  - cbn [is_dict _adf_to_text extract_text visit_content dict_lookup type_is dget
           join_parts rbind] in Hrun.
    step_params Hrun. cbn [app join_parts] in E. inversion E; subst a.
    inversion Hrun; subst info. split; reflexivity.
Qed.

End ProcessIssueProperties.

Lemma comment_body_text_witness :
  extract_comment_info quote_repr plenty (JObj [("id", JStr "c1"); ("body", JNull)]) =
    OK (JObj [("id", JStr "c1"); ("author", JNull); ("body", JStr "None");
              ("bodyRaw", JNull); ("created", JNull); ("updated", JNull)]) /\
  py_get (JObj [("id", JStr "c1"); ("author", JNull); ("body", JStr "None");
                ("bodyRaw", JNull); ("created", JNull); ("updated", JNull)]) "body" =
    OK (JStr "None").
Proof.
  assert (Hrun : extract_comment_info quote_repr plenty
                   (JObj [("id", JStr "c1"); ("body", JNull)]) =
                 OK (JObj [("id", JStr "c1"); ("author", JNull); ("body", JStr "None");
                           ("bodyRaw", JNull); ("created", JNull); ("updated", JNull)]))
    by reflexivity.
  split; [exact Hrun|].
  apply (comment_body_text quote_repr plenty [("id", JStr "c1"); ("body", JNull)] _ Hrun).
Defined.

(** ** RecordNormalizer: [extract_changelog] *)

Lemma change_entry_entry_of (history item entry : json) :
  change_entry history item = OK entry -> entry_of history item entry.
Proof.
  unfold change_entry. intros H. step_params H. inversion H; subst entry.
  eexists _, _. split; [reflexivity|]. split; [reflexivity|].
  repeat split; first [eassumption | reflexivity].
Qed.

(** X21. [extract_changelog] flattens the histories: when it returns, its
    result is, history after history and item after item, one entry for
    every item, with the six keys [field], [fieldtype], [from], [to],
    [author], [created]; [from] and [to] are the item's [fromString] and
    [toString], author and time are those of the history the item is in. *)
Theorem extract_changelog_flattens (issue : json) (entries : list json)
    (Hrun : extract_changelog issue = OK entries) :
  exists changelog raw histories groups,
    py_get_default issue "changelog" (JObj []) = OK changelog /\
    py_get_default changelog "histories" (JList []) = OK raw /\
    py_iter raw = OK histories /\
    entries = concat groups /\
    Forall2
      (fun history group =>
         exists raw_items items,
           py_get_default history "items" (JList []) = OK raw_items /\
           py_iter raw_items = OK items /\
           Forall2 (entry_of history) items group)
      histories groups.
Proof.
  unfold extract_changelog in Hrun. step_params Hrun. inversion Hrun; subst entries.
  eexists _, _, _, _. repeat (split; [first [eassumption | reflexivity]|]).
  eapply rmapM_Forall2; [|eassumption].
  intros history group Hgroup. unfold history_entries in Hgroup.
  step_params Hgroup.
  eexists _, _. repeat (split; [first [eassumption | reflexivity]|]).
  eapply rmapM_Forall2; [|exact Hgroup]. apply change_entry_entry_of.
Qed.

Lemma extract_changelog_flattens_witness :
  exists entries,
    extract_changelog history_issue = OK entries /\
    length entries = 3%nat /\
    exists changelog raw histories groups,
      py_get_default history_issue "changelog" (JObj []) = OK changelog /\
      py_get_default changelog "histories" (JList []) = OK raw /\
      py_iter raw = OK histories /\
      entries = concat groups /\
      Forall2
        (fun history group =>
           exists raw_items items,
             py_get_default history "items" (JList []) = OK raw_items /\
             py_iter raw_items = OK items /\
             Forall2 (entry_of history) items group)
        histories groups.
Proof.
  eexists. split; [vm_compute; reflexivity|]. split; [reflexivity|].
  apply (extract_changelog_flattens history_issue). vm_compute. reflexivity.
Defined.

(** ** Configuration: [JiraConfig.from_env] *)

(** [s.rstrip("/")] takes trailing slashes off and nothing else. *)
Lemma rstrip_slash_spec (s : string) :
  (exists n, s = rstrip_slash s +:+ slashes n) /\
  last_char (rstrip_slash s) <> Some "/"%char.
Proof.
  induction s as [|c r [[n IHn] IHlast]]; cbn [rstrip_slash].
  - split; [exists 0%nat; reflexivity | discriminate].
  - destruct (Ascii.eqb c "/" && String.eqb (rstrip_slash r) EmptyString) eqn:E.
    + apply andb_true_iff in E as [Ec Er].
      apply Ascii.eqb_eq in Ec. apply String.eqb_eq in Er. subst c.
      split; [|discriminate].
      rewrite Er in IHn. exists (S n).
      change (String "/" r = String "/" (slashes n)). f_equal. exact IHn.
    + split.
      * exists n. change (String c r = String c (rstrip_slash r +:+ slashes n)).
        f_equal. exact IHn.
      * cbn [last_char]. destruct (rstrip_slash r) as [|c' r'] eqn:Er.
        -- rewrite String.eqb_refl, andb_true_r in E.
           apply Ascii.eqb_neq in E. congruence.
        -- exact IHlast.
Qed.

Lemma printed_app (h : list pydict) (evs more : list event) (now : string) :
  printed (mkWorld h (evs ++ more) now) =
  printed (mkWorld h evs now) ++ omap is_print more.
Proof. unfold printed. cbn [events]. apply omap_app. Qed.

Ltac env_line E :=
  split; intros H;
  [ first
      [ apply String.eqb_eq; exact E
      | exfalso; vm_compute in H;
        repeat match type of H with
               | _ \/ _ => destruct H as [H | H]; [discriminate H|]
               end;
        first [discriminate H | exact H] ]
  | first
      [ apply String.eqb_neq in E; contradiction
      | vm_compute; auto 10 ] ].

(** X20. [from_env] returns exactly when the three settings are all
    non-empty. Then it sends and prints nothing, and the configuration it
    returns has the URL without its trailing slashes, so that it does not
    end in a slash (and is empty when the setting is made of slashes only),
    and e-mail and token as they are. When one of the settings is empty it
    exits with status 1, having sent nothing and having named, among the
    lines it prints, exactly the settings that are empty. *)
Theorem from_env_checks (JIRA_URL JIRA_EMAIL JIRA_API_TOKEN : string) (w : world) :
  let run := from_env JIRA_URL JIRA_EMAIL JIRA_API_TOKEN w in
  (JIRA_URL <> EmptyString /\ JIRA_EMAIL <> EmptyString /\
   JIRA_API_TOKEN <> EmptyString ->
   run = (Ret (mkJiraConfig (rstrip_slash JIRA_URL) JIRA_EMAIL JIRA_API_TOKEN), w) /\
   (exists n, JIRA_URL = rstrip_slash JIRA_URL +:+ slashes n) /\
   last_char (rstrip_slash JIRA_URL) <> Some "/"%char) /\
  (JIRA_URL = EmptyString \/ JIRA_EMAIL = EmptyString \/
   JIRA_API_TOKEN = EmptyString ->
   fst run = Raise (SystemExit 1) /\
   requests_of (snd run) = requests_of w /\
   exists lines,
     printed (snd run) = printed w ++ lines /\
     (In "  - JIRA_URL" lines <-> JIRA_URL = EmptyString) /\
     (In "  - JIRA_EMAIL" lines <-> JIRA_EMAIL = EmptyString) /\
     (In "  - JIRA_API_TOKEN" lines <-> JIRA_API_TOKEN = EmptyString)) /\
  (fst run = Ret (mkJiraConfig (rstrip_slash JIRA_URL) JIRA_EMAIL JIRA_API_TOKEN) \/
   fst run = Raise (SystemExit 1)).
Proof.
  intros run. subst run. unfold from_env, is_empty.
  split; [|split].
  - intros (Hu & He & Ht). apply String.eqb_neq in Hu, He, Ht.
    rewrite Hu, He, Ht. cbn [app].
    split; [reflexivity|]. apply rstrip_slash_spec.
  - intros Hempty.
    destruct (String.eqb JIRA_URL EmptyString) eqn:Eu;
      destruct (String.eqb JIRA_EMAIL EmptyString) eqn:Ee;
      destruct (String.eqb JIRA_API_TOKEN EmptyString) eqn:Et;
      cbn [app for_each];
      try (run_events;
           split; [reflexivity|];
           split; [rewrite requests_of_app; cbn [omap is_request];
                   rewrite app_nil_r; destruct w; reflexivity|];
           eexists; split;
             [rewrite printed_app;
              replace (printed (mkWorld (heap w) (events w) (utc_now w)))
                with (printed w) by (destruct w; reflexivity);
              reflexivity|];
           split; [env_line Eu | split; [env_line Ee | env_line Et]]).
    apply String.eqb_neq in Eu, Ee, Et.
    destruct Hempty as [H|[H|H]]; contradiction.
  - destruct (String.eqb JIRA_URL EmptyString);
      destruct (String.eqb JIRA_EMAIL EmptyString);
      destruct (String.eqb JIRA_API_TOKEN EmptyString);
      cbn [app for_each]; first [left; reflexivity | right; reflexivity].
Qed.

Lemma from_env_checks_witness :
  from_env "https://example.atlassian.net//" "me@example.com" "secret" new_world =
    (Ret (mkJiraConfig "https://example.atlassian.net" "me@example.com" "secret"),
     new_world) /\
  fst (from_env "https://example.atlassian.net//" "" "secret" new_world) =
    Raise (SystemExit 1) /\
  printed (snd (from_env "https://example.atlassian.net//" "" "secret" new_world)) =
    ["ERROR: Missing required environment variables:";
     "  - JIRA_EMAIL";
     nl +:+ "Set them in a .env file or as environment variables.";
     "See .env.example for reference."].
Proof.
  split; [|split].
  - apply (from_env_checks "https://example.atlassian.net//" "me@example.com" "secret"
             new_world).
    repeat split; discriminate.
  - apply (from_env_checks "https://example.atlassian.net//" "" "secret" new_world).
    right. left. reflexivity.
  - reflexivity.
Defined.

(** ** PaginatingClient: [search_issues] on a cursor-paginated source *)

Section SearchIssuesProperties.
Variable repr_str : string -> string.
Variable base_url : string.

Lemma cursor_source_answer (pages : list (list json)) (seen : list request)
    (jql : string) (i : nat) :
  cursor_source pages seen (search_request jql i) =
  mkResponse 200 HAbsent EmptyString
    (Some (JObj (("issues", JList (nth i pages [])) ::
                 if (S i <? length pages)%nat
                 then [("nextPageToken", JInt (Z.of_nat (S i)))]
                 else []))).
Proof.
  unfold cursor_source.
  assert (Hi : Z.to_nat (int_param (search_request jql i) "nextPageToken" 0) = i).
  { destruct i as [|i']; [reflexivity|].
    change (int_param (search_request jql (S i')) "nextPageToken" 0)
      with (Z.of_nat (S i')).
    apply Nat2Z.id. }
  rewrite Hi. reflexivity.
Qed.

(** One round of the loop of [search_issues] against such a source. *)
Lemma search_issues_round (pages : list (list json)) (fuel' : nat) (jql : string)
    (progress : bool) (acc : list json) (i : nat) (page : Z) (w : world) :
  exists w1,
    requests_of w1 = requests_of w ++ [search_request jql i] /\
    search_issues_loop repr_str (cursor_source pages) base_url (S fuel') jql progress acc
      (token_before i) page w =
    if (S i <? length pages)%nat && truthy (JList (nth i pages []))
    then search_issues_loop repr_str (cursor_source pages) base_url fuel' jql progress
           (acc ++ nth i pages []) (token_before (S i)) (page + 1) w1
    else (Ret (acc ++ nth i pages []), w1).
Proof.
  cbn [search_issues_loop].
  set (base := [("jql", JStr jql); ("expand", JStr "changelog,renderedFields");
                ("fields", JStr "*all"); ("maxResults", JInt 100)]).
  set (ps := match req_params (search_request jql i) with Some d => d | None => [] end).
  set (wb := mkWorld (heap w ++ [ps]) (events w) (utc_now w)).
  rewrite (bind_Ret (alloc base) _ w
             (mkWorld (heap w ++ [base]) (events w) (utc_now w)) (length (heap w)))
    by reflexivity.
  rewrite (bind_Ret _ _ _ wb tt).
  2:{ destruct i as [|i']; [reflexivity|].
      change (truthy (token_before (S i'))) with (negb (Z.of_nat (S i') =? 0)).
      replace (Z.of_nat (S i') =? 0) with false by (symmetry; apply Z.eqb_neq; lia).
      cbn [negb]. unfold setitem, wb. cbn [heap events utc_now].
      rewrite (alter_app_r_alt _ (heap w) [base] (length (heap w))) by lia.
      rewrite Nat.sub_diag. reflexivity. }
  assert (Hreq : request_for "search/jql" (Some (length (heap w))) wb =
                 search_request jql i).
  { unfold request_for, wb. cbn [heap].
    rewrite list_lookup_middle by reflexivity. destruct i; reflexivity. }
  erewrite (bind_Ret (_api_get _ _ _ _)).
  2:{ apply api_get_answer. rewrite Hreq, cursor_source_answer.
      unfold answers_ok. cbn [status_code body].
      repeat split; try discriminate. lia. }
  rewrite Hreq.
  set (wc := mkWorld (heap wb) (events wb ++ [EvRequest (search_request jql i)])
               (utc_now wb)).
  set (items := nth i pages []).
  cbn [py_get_default py_get dict_lookup lift].
  change (String.eqb "issues" "issues") with true. cbn iota.
  rewrite (bind_Ret _ _ wc wc (JList items)) by reflexivity.
  cbn [py_iter lift].
  rewrite (bind_Ret _ _ wc wc items) by reflexivity.
  change (String.eqb "total" "issues") with false.
  change (String.eqb "nextPageToken" "issues") with false. cbn iota.
  assert (Hreqs : forall more, omap is_request more = [] ->
            requests_of (mkWorld (heap wc) (events wc ++ more) (utc_now wc)) =
            requests_of w ++ [search_request jql i]).
  { intros more Hmore. rewrite requests_of_app, Hmore, app_nil_r.
    unfold wc, wb. cbn [heap events utc_now]. rewrite requests_of_app.
    destruct w; reflexivity. }
  destruct (S i <? length pages)%nat eqn:Emore.
  - cbn [dict_lookup].
    change (String.eqb "total" "nextPageToken") with false.
    change (String.eqb "nextPageToken" "nextPageToken") with true. cbn iota.
    rewrite (bind_Ret _ _ wc wc (JStr "?")) by reflexivity.
    change (truthy (JInt (Z.of_nat (S i)))) with (negb (Z.of_nat (S i) =? 0)).
    replace (Z.of_nat (S i) =? 0) with false by (symmetry; apply Z.eqb_neq; lia).
    cbn [negb orb andb].
    destruct progress; cbn [when].
    + unfold bind at 1, print at 1, emit at 1, modify at 1.
      rewrite (bind_Ret _ _ _ _ (JInt (Z.of_nat (S i)))) by reflexivity.
      destruct (truthy (JList items)); cbn [negb].
      * eexists. split; [|reflexivity]. apply (Hreqs [_]). reflexivity.
      * eexists. split; [|reflexivity].
        unfold bind, print, emit, modify, ret. cbn [fst snd heap events utc_now].
        rewrite <- app_assoc. apply (Hreqs [_; _]). reflexivity.
    + unfold bind at 1, ret at 1.
      rewrite (bind_Ret _ _ _ _ (JInt (Z.of_nat (S i)))) by reflexivity.
      destruct (truthy (JList items)); cbn [negb].
      * eexists. split; [|reflexivity].
        rewrite <- (Hreqs [] eq_refl), app_nil_r. destruct wc; reflexivity.
      * eexists. split; [|reflexivity].
        unfold bind, ret. cbn [fst snd].
        rewrite <- (Hreqs [] eq_refl), app_nil_r. destruct wc; reflexivity.
  - cbn [dict_lookup andb].
    rewrite (bind_Ret _ _ wc wc (JStr "?")) by reflexivity.
    destruct progress; cbn [when].
    + unfold bind at 1, print at 1, emit at 1, modify at 1.
      rewrite (bind_Ret _ _ _ _ JNull) by reflexivity.
      cbn [truthy negb orb].
      eexists. split; [|reflexivity].
      unfold bind, print, emit, modify, ret. cbn [fst snd heap events utc_now].
      rewrite <- app_assoc. apply (Hreqs [_; _]). reflexivity.
    + unfold bind at 1, ret at 1.
      rewrite (bind_Ret _ _ _ _ JNull) by reflexivity.
      cbn [truthy negb orb].
      eexists. split; [|reflexivity].
      unfold bind, ret. cbn [fst snd].
      rewrite <- (Hreqs [] eq_refl), app_nil_r. destruct wc; reflexivity.
Qed.

Lemma search_issues_loop_pages (pre : list (list json)) :
  forall (done : list (list json)) (p : list json) (rest : list (list json))
         (fuel : nat) (acc : list json) (page : Z) (w : world)
         (jql : string) (progress : bool),
  Forall (fun q => q <> []) pre ->
  p = [] \/ rest = [] ->
  (length pre < fuel)%nat ->
  exists w',
    search_issues_loop repr_str (cursor_source (done ++ pre ++ p :: rest)) base_url
      fuel jql progress acc (token_before (length done)) page w =
      (Ret (acc ++ concat pre ++ p), w') /\
    requests_of w' =
      requests_of w ++ map (search_request jql) (seq (length done) (S (length pre))).
Proof.
  induction pre as [|q pre' IH];
    intros done p rest fuel acc page w jql progress Hpre Hlast Hfuel;
    (destruct fuel as [|fuel']; [cbn [length] in Hfuel; lia|]).
  - destruct (search_issues_round (done ++ [] ++ p :: rest) fuel' jql progress acc
                (length done) page w) as (w1 & Hreqs & Hrun).
    cbn [app] in Hrun |- *. rewrite nth_middle in Hrun.
    replace ((S (length done) <? length (done ++ p :: rest))%nat && truthy (JList p))
      with false in Hrun.
    2:{ symmetry. destruct Hlast as [-> | ->]; [apply andb_false_r|].
        rewrite length_app. cbn [length].
        replace (length done + 1)%nat with (S (length done)) by lia.
        rewrite Nat.ltb_irrefl. reflexivity. }
    exists w1. cbn [concat app length seq map]. split; assumption.
  - destruct (search_issues_round (done ++ (q :: pre') ++ p :: rest) fuel' jql
                progress acc (length done) page w) as (w1 & Hreqs & Hrun).
    cbn [app] in Hrun |- *. rewrite nth_middle in Hrun.
    apply Forall_cons in Hpre as [Hq Hpre'].
    replace ((S (length done) <? length (done ++ q :: pre' ++ p :: rest))%nat &&
             truthy (JList q)) with true in Hrun.
    2:{ symmetry. apply andb_true_iff. split.
        - apply Nat.ltb_lt. rewrite !length_app. cbn [length].
          rewrite length_app. cbn [length]. lia.
        - destruct q; [congruence | reflexivity]. }
    destruct (IH (done ++ [q]) p rest fuel' (acc ++ q) (page + 1) w1 jql progress
                Hpre' Hlast) as (w' & Hrun' & Hreqs').
    { cbn [length] in Hfuel. lia. }
    rewrite length_app in Hrun', Hreqs'. cbn [length] in Hrun', Hreqs'.
    replace (length done + 1)%nat with (S (length done)) in Hrun', Hreqs' by lia.
    rewrite <- app_assoc in Hrun'. cbn [app] in Hrun'.
    exists w'. split.
    + rewrite Hrun, Hrun'. cbn [concat]. rewrite <- !app_assoc. reflexivity.
    + rewrite Hreqs', Hreqs, <- app_assoc. reflexivity.
Qed.

(** X5. Against a source that hands out its pages with a cursor,
    [search_issues] asks for the pages in order, each request after the first
    carrying the token of the answer before, and returns their records in
    order. It stops at the first page that comes without a token, and also at
    the first empty page, whatever pages would follow. *)
Theorem search_issues_follows_cursor (pre : list (list json)) (p : list json)
    (rest : list (list json)) (fuel : nat) (jql : string) (progress : bool)
    (w : world)
    (Hpre : Forall (fun q => q <> []) pre)
    (Hlast : p = [] \/ rest = [])
    (Hfuel : (length pre < fuel)%nat) :
  let run := search_issues repr_str (cursor_source (pre ++ p :: rest)) base_url
               fuel jql progress w in
  fst run = Ret (concat pre ++ p) /\
  requests_of (snd run) =
    requests_of w ++ map (search_request jql) (seq 0 (S (length pre))).
Proof.
  destruct (search_issues_loop_pages pre [] p rest fuel [] 0 w jql progress
              Hpre Hlast Hfuel) as (w' & Hrun & Hreqs).
  cbn [app length token_before] in Hrun, Hreqs.
  unfold search_issues. rewrite Hrun. split; [reflexivity | exact Hreqs].
Qed.

End SearchIssuesProperties.

Lemma search_issues_follows_cursor_witness :
  let run := search_issues quote_repr
               (cursor_source [[JStr "a"; JStr "b"]; []; [JStr "c"]])
               "https://example.atlassian.net" 10 "project = PROJ" true new_world in
  fst run = Ret [JStr "a"; JStr "b"] /\
  requests_of (snd run) =
    [search_request "project = PROJ" 0; search_request "project = PROJ" 1].
Proof.
  apply (search_issues_follows_cursor quote_repr "https://example.atlassian.net"
           [[JStr "a"; JStr "b"]] [] [[JStr "c"]] 10 "project = PROJ" true new_world).
  - repeat constructor; discriminate.
  - left; reflexivity.
  - cbn; lia.
Defined.

Lemma list_projects_first_answer_witness :
  fst (list_projects (always_status 500) "https://example.atlassian.net" new_world) =
    Ret (JList []) /\
  fst (list_projects (always_status 401) "https://example.atlassian.net" new_world) =
    Raise (SystemExit 1).
Proof.
  split.
  - apply (list_projects_first_answer (always_status 500)
             "https://example.atlassian.net" new_world). discriminate.
  - apply (list_projects_first_answer (always_status 401)
             "https://example.atlassian.net" new_world). discriminate.
Defined.

Lemma api_get_gives_up_after_five_witness :
  let run := _api_get (always_status 429) "https://example.atlassian.net"
               "myself" None new_world in
  fst run = Raise (SystemExit 1) /\
  requests_of (snd run) = repeat (mkRequest "myself" None) 5 /\
  sleeps_of (snd run) = [10000; 10000; 10000; 10000; 16000].
Proof.
  apply (api_get_gives_up_after_five (always_status 429)
           "https://example.atlassian.net" "myself" None new_world (fun _ => 10)).
  intros i _. split; [reflexivity|]. split; [reflexivity|lia].
Defined.

Lemma api_get_retries_until_answer_witness :
  let run := _api_get (limited_then_ok 2 (JObj [("accountId", JStr "a1")]))
               "https://example.atlassian.net" "myself" None new_world in
  fst run = Ret (JObj [("accountId", JStr "a1")]) /\
  requests_of (snd run) = repeat (mkRequest "myself" None) 3 /\
  sleeps_of (snd run) = [3000; 3000].
Proof.
  apply (api_get_retries_until_answer
           (limited_then_ok 2 (JObj [("accountId", JStr "a1")]))
           "https://example.atlassian.net" "myself" None new_world 2 (fun _ => 3)).
  - lia.
  - intros i Hi. destruct i as [|[|i]]; [| |lia];
      (split; [reflexivity|]; split; [reflexivity|lia]).
  - unfold answers_ok. cbn. repeat split; try discriminate. lia.
Defined.

(** ** Storage: what an upsert touches *)

Lemma keeps_committed_bind {A B} (m : M connection A) (k : A -> M connection B) :
  keeps_committed m -> (forall a, keeps_committed (k a)) -> keeps_committed (bind m k).
Proof.
  intros Hm Hk c. unfold bind. specialize (Hm c).
  destruct (m c) as [[a|e|] c1]; cbn [snd] in *; [|exact Hm|exact Hm].
  rewrite (Hk a c1). exact Hm.
Qed.

Lemma keeps_committed_lift {A} (r : result A) : keeps_committed (@lift connection A r).
Proof. intros c. destruct r; reflexivity. Qed.

Lemma keeps_committed_with_current (f : tables -> tables) :
  keeps_committed (with_current f).
Proof. intros c. reflexivity. Qed.

Lemma keeps_committed_for_each {A} (l : list A) (f : A -> M connection unit) :
  (forall x, keeps_committed (f x)) -> keeps_committed (for_each l f).
Proof.
  intros Hf. induction l as [|x r IH]; cbn [for_each].
  - intros c. reflexivity.
  - apply keeps_committed_bind; [apply Hf | intros _; exact IH].
Qed.

Lemma keeps_committed_insert_comment (row : comment_row) :
  keeps_committed (sql_insert_comment row).
Proof.
  intros c. unfold sql_insert_comment, bind, gets.
  destruct (existsb _ _); reflexivity.
Qed.

Lemma commits_on_return_bind {A B} (m : M connection A) (k : A -> M connection B) :
  keeps_committed m -> (forall a, commits_on_return (k a)) ->
  commits_on_return (bind m k).
Proof.
  intros Hm Hk c. unfold bind. specialize (Hm c).
  destruct (m c) as [[a|e|] c1]; cbn [fst snd] in *; [|exact Hm|exact Hm].
  specialize (Hk a c1). destruct (fst (k a c1)); [exact I| |]; congruence.
Qed.

Section UpsertProperties.
Variable json_dumps : json -> string.

Lemma commits_on_return_insert_ticket (ticket : pydict) :
  commits_on_return (insert_ticket json_dumps ticket).
Proof.
  unfold insert_ticket.
  repeat first
    [ apply commits_on_return_bind; [|intros ?]
    | apply keeps_committed_lift
    | apply keeps_committed_with_current
    | apply keeps_committed_for_each; intros ?
    | apply keeps_committed_insert_comment
    | apply keeps_committed_bind; [|intros ?] ].
  intros c. exact I.
Qed.

(** X6. An upsert that does not return has committed nothing: what the
    database file holds is what it held before the call. *)
Theorem failed_upsert_commits_nothing (ticket : pydict) (c : connection)
    (Hfails : fst (insert_ticket json_dumps ticket c) <> Ret tt) :
  committed (snd (insert_ticket json_dumps ticket c)) = committed c.
Proof.
  pose proof (commits_on_return_insert_ticket ticket c) as H.
  destruct (fst (insert_ticket json_dumps ticket c)) as [[]| |];
    [congruence | exact H | exact H].
Qed.

Lemma filter_filter_implied {A} (p q : A -> bool) (l : list A) :
  (forall x, p x = true -> q x = true) ->
  List.filter p (List.filter q l) = List.filter p l.
Proof.
  intros Hpq. induction l as [|x r IH]; [reflexivity|].
  cbn [List.filter]. destruct (q x) eqn:Eq; cbn [List.filter].
  - rewrite IH. reflexivity.
  - destruct (p x) eqn:Ep; [|exact IH]. rewrite (Hpq x Ep) in Eq. discriminate.
Qed.

Lemma sql_eq_other (a k : option string) (other : string) :
  Some other <> k -> sql_eq a (Some other) = true -> negb (sql_eq a k) = true.
Proof.
  intros Hne H. destruct a as [x|], k as [y|]; cbn in *; try reflexivity;
    try discriminate.
  apply String.eqb_eq in H. subst x.
  destruct (String.eqb other y) eqn:E; [|reflexivity].
  apply String.eqb_eq in E. congruence.
Qed.

Lemma sql_eq_other_false (k : option string) (other : string) :
  Some other <> k -> sql_eq k (Some other) = false.
Proof.
  intros Hne. destruct k as [y|]; [|reflexivity]. cbn.
  destruct (String.eqb y other) eqn:E; [|reflexivity].
  apply String.eqb_eq in E. congruence.
Qed.

(** X7. An accepted upsert touches the rows of its own key only: the
    ticket, comment, changelog, link and subtask rows of every other key are
    the same rows, in the same order, as before. *)
Theorem upsert_leaves_other_keys (ticket : pydict) (k : option string)
    (other : string) (c c' : connection)
    (Hkey : bind_text (dget ticket "key") = OK k)
    (Hrun : insert_ticket json_dumps ticket c = (Ret tt, c'))
    (Hother : Some other <> k) :
  rows_for other (current c') = rows_for other (current c).
Proof.
  apply insert_ticket_shape in Hrun
    as (cols & cs & hs & ls & ss & crows & hrows & lrows & srows &
        Hcols & Hcs & Hcrows & Hacc & Hhs & Hhrows & Hls & Hlrows &
        Hss & Hsrows & Hcur & Hcm).
  destruct (ticket_params_columns _ _ _ Hcols) as [Hk _].
  rewrite Hkey in Hk. inversion Hk as [Hk']. symmetry in Hk'.
  rewrite Hcur. unfold rows_for, upserted.
  cbn [tickets comments changelog issue_links subtasks]. rewrite Hk'.
  rewrite !List.filter_app.
  rewrite (filter_filter_implied (fun r => sql_eq (t_key (t_cols r)) (Some other)))
    by (intros x; apply sql_eq_other; exact Hother).
  rewrite (filter_filter_implied (fun r => sql_eq (c_ticket_key r) (Some other)))
    by (intros x; apply sql_eq_other; exact Hother).
  rewrite (filter_filter_implied (fun r => sql_eq (h_ticket_key (snd r)) (Some other)))
    by (intros x; apply sql_eq_other; exact Hother).
  rewrite (filter_filter_implied (fun r => sql_eq (l_ticket_key (snd r)) (Some other)))
    by (intros x; apply sql_eq_other; exact Hother).
  rewrite (filter_filter_implied (fun r => sql_eq (s_ticket_key (snd r)) (Some other)))
    by (intros x; apply sql_eq_other; exact Hother).
  cbn [List.filter t_cols t_key]. rewrite Hk', (sql_eq_other_false k other Hother).
  rewrite (filter_none _ crows).
  2:{ eapply rmapM_Forall; [|exact Hcrows]. intros x row Hrow. cbn beta.
      rewrite (comment_params_key _ _ _ _ Hrow), Hk'.
      apply sql_eq_other_false, Hother. }
  rewrite (filter_none _ (numbered _ hrows)).
  2:{ apply (numbered_Forall (fun r => sql_eq (h_ticket_key r) (Some other) = false)).
      eapply rmapM_Forall; [|exact Hhrows]. intros x row Hrow. cbn beta.
      rewrite (changelog_params_key _ _ _ Hrow), Hk'.
      apply sql_eq_other_false, Hother. }
  rewrite (filter_none _ (numbered _ lrows)).
  2:{ apply (numbered_Forall (fun r => sql_eq (l_ticket_key r) (Some other) = false)).
      eapply rmapM_Forall; [|exact Hlrows]. intros x row Hrow. cbn beta.
      rewrite (link_params_key _ _ _ Hrow), Hk'.
      apply sql_eq_other_false, Hother. }
  rewrite (filter_none _ (numbered _ srows)).
  2:{ apply (numbered_Forall (fun r => sql_eq (s_ticket_key r) (Some other) = false)).
      eapply rmapM_Forall; [|exact Hsrows]. intros x row Hrow. cbn beta.
      rewrite (subtask_params_key _ _ _ Hrow), Hk'.
      apply sql_eq_other_false, Hother. }
  rewrite !app_nil_r. reflexivity.
Qed.

Lemma filter_split_length {A} (p : A -> bool) (l : list A) :
  (length (List.filter (fun x => negb (p x)) l) + length (List.filter p l) =
   length l)%nat.
Proof.
  induction l as [|x r IH]; [reflexivity|].
  cbn [List.filter]. destruct (p x); cbn [negb length]; lia.
Qed.

(** X8. What [get_stats] counts after an accepted upsert: the totals of
    before, less the rows the key had, plus one ticket and the comments and
    changelog entries the record lists. *)
Theorem upsert_moves_stats (ticket : pydict) (key : string) (c c' : connection)
    (Hkey : bind_text (dget ticket "key") = OK (Some key))
    (Hrun : insert_ticket json_dumps ticket c = (Ret tt, c')) :
  (stat_tickets (get_stats c') + count_tickets key (current c) =
     stat_tickets (get_stats c) + 1)%nat /\
  (stat_comments (get_stats c') + count_comments key (current c) =
     stat_comments (get_stats c) + loop_length ticket "comments")%nat /\
  (stat_changelog_entries (get_stats c') + count_changelog key (current c) =
     stat_changelog_entries (get_stats c) + loop_length ticket "changelog")%nat.
Proof.
  apply insert_ticket_shape in Hrun
    as (cols & cs & hs & ls & ss & crows & hrows & lrows & srows &
        Hcols & Hcs & Hcrows & Hacc & Hhs & Hhrows & Hls & Hlrows &
        Hss & Hsrows & Hcur & Hcm).
  destruct (ticket_params_columns _ _ _ Hcols) as [Hk _].
  rewrite Hkey in Hk. inversion Hk as [Hk']. symmetry in Hk'.
  unfold get_stats, count_tickets, count_comments, count_changelog, loop_length.
  cbn [stat_tickets stat_comments stat_changelog_entries].
  rewrite Hcur, Hcs, Hhs. unfold upserted.
  cbn [tickets comments changelog]. rewrite Hk'.
  rewrite !length_app, numbered_length.
  rewrite (rmapM_length _ _ _ Hcrows), (rmapM_length _ _ _ Hhrows).
  cbn [length].
  pose proof (filter_split_length
                (fun r => sql_eq (t_key (t_cols r)) (Some key)) (tickets (current c))).
  pose proof (filter_split_length
                (fun r => sql_eq (c_ticket_key r) (Some key)) (comments (current c))).
  pose proof (filter_split_length
                (fun r => sql_eq (h_ticket_key (snd r)) (Some key))
                (changelog (current c))).
  lia.
Qed.

Lemma max_rowid_bounds (rows : list ticket_row) (r : ticket_row) :
  In r rows -> t_rowid r <= max_rowid rows.
Proof.
  induction rows as [|x rest IH]; intros Hin; [destruct Hin|].
  cbn [max_rowid fold_right]. fold (max_rowid rest).
  destruct Hin as [-> | Hin]; [lia|]. specialize (IH Hin). lia.
Qed.

Lemma filter_length_le {A} (p : A -> bool) (l : list A) :
  (length (List.filter p l) <= length l)%nat.
Proof.
  induction l as [|x r IH]; [reflexivity|].
  cbn [List.filter]. destruct (p x); cbn [length]; lia.
Qed.

Lemma filter_filter_comm {A} (p q : A -> bool) (l : list A) :
  List.filter p (List.filter q l) = List.filter q (List.filter p l).
Proof.
  induction l as [|x r IH]; [reflexivity|].
  cbn [List.filter]. destruct (q x) eqn:Eq, (p x) eqn:Ep; cbn [List.filter];
    rewrite ?Eq, ?Ep, IH; reflexivity.
Qed.

Lemma existsb_false_filter {A} (p : A -> bool) (l : list A) :
  existsb p l = false -> List.filter p l = [].
Proof.
  induction l as [|x r IH]; [reflexivity|].
  cbn [existsb List.filter]. intros H. apply orb_false_iff in H as [-> H].
  apply IH, H.
Qed.

Lemma comments_accept_unique (rows : list comment_row) :
  forall existing,
  comments_accept existing rows = true ->
  (forall id,
     (length (List.filter (fun r => sql_eq (c_id r) (Some id)) existing) <= 1)%nat) ->
  forall id,
    (length (List.filter (fun r => sql_eq (c_id r) (Some id)) (existing ++ rows)) <= 1)%nat.
Proof.
  induction rows as [|r rest IH]; intros existing Hacc Hex id.
  - rewrite app_nil_r. apply Hex.
  - cbn [comments_accept] in Hacc. apply andb_true_iff in Hacc as [Hnew Hrest].
    apply negb_true_iff in Hnew.
    replace (existing ++ r :: rest) with ((existing ++ [r]) ++ rest)
      by (rewrite <- app_assoc; reflexivity).
    apply IH; [exact Hrest|]. intros id'.
    rewrite List.filter_app, length_app. cbn [List.filter].
    destruct (sql_eq (c_id r) (Some id')) eqn:E; cbn [length]; [|specialize (Hex id'); lia].
    destruct (c_id r) as [x|]; [|discriminate]. cbn in E.
    apply String.eqb_eq in E. subst x.
    apply existsb_false_filter in Hnew.
    rewrite Hnew. cbn [length]. lia.
Qed.

(** X9. The primary keys hold across upserts: when no key has two ticket
    rows, no [rowid] two rows and no comment [id] two rows, the same is true
    after an accepted upsert, whatever the record. *)
Theorem upsert_keeps_primary_keys (ticket : pydict) (c c' : connection)
    (Hok : store_ok (current c))
    (Hrun : insert_ticket json_dumps ticket c = (Ret tt, c')) :
  store_ok (current c').
Proof.
  apply insert_ticket_shape in Hrun
    as (cols & cs & hs & ls & ss & crows & hrows & lrows & srows &
        Hcols & Hcs & Hcrows & Hacc & Hhs & Hhrows & Hls & Hlrows &
        Hss & Hsrows & Hcur & Hcm).
  destruct Hok as (Hkeys & Hrowids & Hids).
  rewrite Hcur. unfold store_ok, count_tickets, upserted.
  cbn [tickets comments]. split; [|split].
  - intros k. rewrite List.filter_app, length_app. cbn [List.filter t_cols t_key].
    destruct (sql_eq (t_key cols) (Some k)) eqn:E; cbn [length].
    + destruct (t_key cols) as [x|]; [|discriminate]. cbn in E.
      apply String.eqb_eq in E. subst x.
      rewrite filter_negb_filter. cbn [length]. lia.
    + rewrite filter_filter_comm.
      pose proof (filter_length_le
                    (fun r => negb (sql_eq (t_key (t_cols r)) (t_key cols)))
                    (List.filter (fun r => sql_eq (t_key (t_cols r)) (Some k))
                       (tickets (current c)))).
      specialize (Hkeys k). unfold count_tickets in Hkeys. lia.
  - intros z. rewrite List.filter_app, length_app. cbn [List.filter t_rowid].
    destruct (max_rowid (tickets (current c)) + 1 =? z) eqn:E; cbn [length].
    + apply Z.eqb_eq in E. rewrite (filter_none (fun r => t_rowid r =? z)).
      * cbn [length]. lia.
      * apply List.Forall_forall. intros r Hin. apply List.filter_In in Hin as [Hin _].
        apply max_rowid_bounds in Hin. apply Z.eqb_neq. lia.
    + rewrite filter_filter_comm.
      pose proof (filter_length_le
                    (fun r => negb (sql_eq (t_key (t_cols r)) (t_key cols)))
                    (List.filter (fun r => t_rowid r =? z) (tickets (current c)))).
      specialize (Hrowids z). lia.
  - apply comments_accept_unique; [exact Hacc|]. intros id.
    rewrite filter_filter_comm.
    pose proof (filter_length_le
                  (fun r => negb (sql_eq (c_ticket_key r) (t_key cols)))
                  (List.filter (fun r => sql_eq (c_id r) (Some id))
                     (comments (current c)))).
    specialize (Hids id). lia.
Qed.

(** X10. The first upsert of a key keeps the index in step with the table:
    when the index holds what the table holds and the table has no row for
    the record's key, the same is true after the upsert. *)
Theorem first_upsert_keeps_index (ticket : pydict) (k : option string)
    (c c' : connection)
    (Hkey : bind_text (dget ticket "key") = OK k)
    (Hstep : index_in_step (current c))
    (Hnew : Forall (fun r => sql_eq (t_key (t_cols r)) k = false) (tickets (current c)))
    (Hrun : insert_ticket json_dumps ticket c = (Ret tt, c')) :
  index_in_step (current c').
Proof.
  apply insert_ticket_shape in Hrun
    as (cols & cs & hs & ls & ss & crows & hrows & lrows & srows &
        Hcols & Hcs & Hcrows & Hacc & Hhs & Hhrows & Hls & Hlrows &
        Hss & Hsrows & Hcur & Hcm).
  destruct (ticket_params_columns _ _ _ Hcols) as [Hk _].
  rewrite Hkey in Hk. inversion Hk as [Hk']. symmetry in Hk'.
  rewrite Hcur. unfold index_in_step, upserted in *.
  cbn [tickets tickets_fts]. rewrite Hstep, Hk'.
  rewrite (filter_all _ (tickets (current c))).
  2:{ eapply Forall_impl; [exact Hnew|]. intros r ->. reflexivity. }
  cbn [option_map]. rewrite map_app. reflexivity.
Qed.

End UpsertProperties.

(** ** Storage and FederatedQuery: an index that is in step *)

Lemma find_filter {A} (p : A -> bool) (l : list A) :
  List.find p l = hd_error (List.filter p l).
Proof.
  induction l as [|x r IH]; [reflexivity|].
  cbn [List.find List.filter]. destruct (p x); [reflexivity | exact IH].
Qed.

Lemma filter_unique {A} (p : A -> bool) (l : list A) (x : A) :
  In x l -> p x = true -> (length (List.filter p l) <= 1)%nat ->
  List.filter p l = [x].
Proof.
  intros Hin Hp Hlen.
  assert (Hx : In x (List.filter p l)) by (apply List.filter_In; auto).
  destruct (List.filter p l) as [|y [|z rest]]; cbn [length] in Hlen.
  - destruct Hx.
  - destruct Hx as [-> | []]. reflexivity.
  - lia.
Qed.

Lemma filter_map_commute {A B} (f : A -> B) (p : B -> bool) (l : list A) :
  List.filter p (map f l) = map f (List.filter (fun x => p (f x)) l).
Proof.
  induction l as [|x r IH]; [reflexivity|].
  cbn [map List.filter]. destruct (p (f x)); cbn [map]; rewrite IH; reflexivity.
Qed.

Lemma filter_filter_andb {A} (p q : A -> bool) (l : list A) :
  List.filter p (List.filter q l) = List.filter (fun x => q x && p x) l.
Proof.
  induction l as [|x r IH]; [reflexivity|].
  cbn [List.filter]. destruct (q x); cbn [List.filter andb]; [|exact IH].
  destruct (p x); rewrite IH; reflexivity.
Qed.

(** The join of [search], entry by entry, when every entry is that of a row
    of the table. *)
Lemma fts_join_in_step (rows : list ticket_row) (keep : ticket_cols -> bool)
    (Hkeys : forall k,
       (length (List.filter (fun r => sql_eq (t_key (t_cols r)) (Some k)) rows) <= 1)%nat)
    (Hrowids : forall z,
       (length (List.filter (fun r => Z.eqb (t_rowid r) z) rows) <= 1)%nat) :
  forall sub,
  (forall r, In r sub -> In r rows) ->
  fts_join (map fts_entry_of sub) rows keep =
  OK (map (fun r => select_summary (t_cols r))
        (List.filter (fun r => has_key (t_cols r) && keep (t_cols r)) sub)).
Proof.
  induction sub as [|r sub' IH]; intros Hsub; [reflexivity|].
  cbn [map fts_join fts_entry_of f_rowid].
  assert (Hr : In r rows) by (apply Hsub; left; reflexivity).
  unfold content_row. rewrite find_filter.
  rewrite (filter_unique (fun x => Z.eqb (t_rowid x) (t_rowid r)) rows r Hr
             (Z.eqb_refl _) (Hrowids _)).
  cbn [hd_error]. rewrite IH by (intros x Hx; apply Hsub; right; exact Hx).
  cbn [rbind List.filter]. f_equal.
  unfold has_key. destruct (t_key (t_cols r)) as [k|] eqn:Ek.
  - rewrite <- (filter_filter_andb (fun x => keep (t_cols x))
                  (fun x => sql_eq (t_key (t_cols x)) (Some k)) rows).
    rewrite (filter_unique (fun x => sql_eq (t_key (t_cols x)) (Some k)) rows r Hr).
    + cbn [List.filter andb]. destruct (keep (t_cols r)); reflexivity.
    + rewrite Ek. apply String.eqb_refl.
    + apply Hkeys.
  - cbn [andb]. rewrite (filter_none _ rows); [reflexivity|].
    apply List.Forall_forall. intros x _.
    destruct (t_key (t_cols x)); reflexivity.
Qed.

Section IndexedSearchProperties.
Variable fts5_match :
  string -> option (option string * option string * option string -> bool).
Variable sql_like : string -> string -> bool.

(** X12. On a database whose primary keys hold and whose index is in step,
    a text search that the index accepts raises nothing and returns, in
    table order, exactly the rows that match the query, pass the filters and
    have a key; a row whose key is [NULL] is never found this way. *)
Theorem search_with_index_in_step (db : tables)
    (query status project issue_type : string)
    (hit : option string * option string * option string -> bool)
    (Hok : store_ok db)
    (Hstep : index_in_step db)
    (Hquery : query <> EmptyString)
    (Hhit : fts5_match (fts_query query) = Some hit) :
  search_db fts5_match sql_like query status project issue_type db =
  OK (map (fun r => select_summary (t_cols r))
        (List.filter
           (fun r => hit (indexed_texts (t_cols r)) && has_key (t_cols r) &&
                     structured_filters status project issue_type (t_cols r))
           (tickets db))).
Proof.
  destruct Hok as (Hkeys & Hrowids & _).
  unfold search_db, fts_select. rewrite Hstep.
  apply String.eqb_neq in Hquery. rewrite Hquery. cbn [negb]. rewrite Hhit.
  rewrite (filter_map_commute fts_entry_of).
  rewrite (fts_join_in_step (tickets db) _ Hkeys Hrowids).
  - rewrite filter_filter_andb. do 2 f_equal. apply List.filter_ext. intros r.
    cbn [fts_entry_of f_key f_summary f_description]. unfold indexed_texts.
    rewrite andb_assoc. reflexivity.
  - intros r Hr. apply List.filter_In in Hr. apply Hr.
Qed.

End IndexedSearchProperties.

(** ** Storage and FederatedQuery: the search after [rebuild_fts] *)

Section RebuildProperties.
Variable fts5_match :
  string -> option (option string * option string * option string -> bool).
Variable sql_like : string -> string -> bool.

(** What [rebuild_fts] leaves behind when the index table exists. *)
Lemma rebuild_fts_run (c : connection) (index : list fts_entry) :
  tickets_fts (current c) = Some index ->
  exists c',
    rebuild_fts c = (Ret tt, c') /\
    committed c' = current c' /\
    tickets (current c') = tickets (current c) /\
    comments (current c') = comments (current c) /\
    changelog (current c') = changelog (current c) /\
    issue_links (current c') = issue_links (current c) /\
    subtasks (current c') = subtasks (current c) /\
    tickets_fts (current c') = Some (map fts_entry_of (tickets (current c))).
Proof.
  intros Hindex. unfold rebuild_fts, bind, gets. rewrite Hindex.
  unfold with_current, commit, modify. cbn.
  eexists. split; [reflexivity|]. cbn. repeat split; reflexivity.
Qed.

(** X11. [rebuild_fts] repairs the text search of the viewer. On a store
    whose primary keys hold and which has the index table, whatever that
    index holds, [rebuild_fts] returns, changes no table and commits; in the
    store it leaves, a text search that the index accepts raises nothing
    and returns, in table order, exactly the rows that match the query,
    pass the filters and have a key. *)
Theorem rebuild_fts_repairs_search (c : connection) (index : list fts_entry)
    (query status project issue_type : string)
    (hit : option string * option string * option string -> bool)
    (Hok : store_ok (current c))
    (Hindex : tickets_fts (current c) = Some index)
    (Hquery : query <> EmptyString)
    (Hhit : fts5_match (fts_query query) = Some hit) :
  exists c',
    rebuild_fts c = (Ret tt, c') /\
    committed c' = current c' /\
    tickets (current c') = tickets (current c) /\
    comments (current c') = comments (current c) /\
    changelog (current c') = changelog (current c) /\
    issue_links (current c') = issue_links (current c) /\
    subtasks (current c') = subtasks (current c) /\
    search_db fts5_match sql_like query status project issue_type (committed c') =
    OK (map (fun r => select_summary (t_cols r))
          (List.filter
             (fun r => hit (indexed_texts (t_cols r)) && has_key (t_cols r) &&
                       structured_filters status project issue_type (t_cols r))
             (tickets (current c)))).
Proof.
  destruct (rebuild_fts_run c index Hindex)
    as (c' & Hrun & Hcommit & Htickets & Hcomments & Hchangelog & Hlinks & Hsubtasks &
        Hfts).
  exists c'. split; [exact Hrun|]. split; [exact Hcommit|].
  split; [exact Htickets|]. split; [exact Hcomments|]. split; [exact Hchangelog|].
  split; [exact Hlinks|]. split; [exact Hsubtasks|].
  destruct Hok as (Hkeys & Hrowids & _).
  rewrite Hcommit. unfold search_db, fts_select. rewrite Hfts, Htickets.
  apply String.eqb_neq in Hquery. rewrite Hquery. cbn [negb]. rewrite Hhit.
  rewrite (filter_map_commute fts_entry_of).
  rewrite (fts_join_in_step (tickets (current c)) _ Hkeys Hrowids).
  - rewrite filter_filter_andb. do 2 f_equal. apply List.filter_ext. intros r.
    cbn [fts_entry_of f_key f_summary f_description]. unfold indexed_texts.
    rewrite andb_assoc. reflexivity.
  - intros r Hr. apply List.filter_In in Hr. apply Hr.
Qed.

End RebuildProperties.

(** ** FederatedQuery: filters and pages *)

Lemma rmapM_In {A B} (f : A -> result B) (l : list A) (rows : list B) (y : B) :
  rmapM f l = OK rows -> In y rows -> exists x, In x l /\ f x = OK y.
Proof.
  revert rows. induction l as [|x r IH]; intros rows H Hy; cbn [rmapM] in H.
  - inversion H; subst. destruct Hy.
  - destruct (f x) as [y0|] eqn:E; [|discriminate]. cbn [rbind] in H.
    destruct (rmapM f r) as [rows'|]; [|discriminate]. cbn [rbind] in H.
    inversion H; subst. destruct Hy as [<- | Hy].
    + exists x. split; [left; reflexivity | exact E].
    + destruct (IH rows' eq_refl Hy) as (x' & Hin & Hx').
      exists x'. split; [right; exact Hin | exact Hx'].
Qed.

Lemma firstn_In {A} (n : nat) (l : list A) (x : A) : In x (firstn n l) -> In x l.
Proof.
  intros H. rewrite <- (firstn_skipn n l). apply in_or_app. left. exact H.
Qed.

Lemma skipn_In {A} (n : nat) (l : list A) (x : A) : In x (skipn n l) -> In x l.
Proof.
  intros H. rewrite <- (firstn_skipn n l). apply in_or_app. right. exact H.
Qed.

Lemma py_slice_In {A} (l : list A) (start stop : Z) (x : A) :
  In x (py_slice l start stop) -> In x l.
Proof. unfold py_slice. intros H. eapply skipn_In, firstn_In, H. Qed.

Lemma fts_join_keep (matches : list fts_entry) (rows : list ticket_row)
    (keep : ticket_cols -> bool) (found : list summary_row) (x : summary_row) :
  fts_join matches rows keep = OK found -> In x found ->
  exists r, In r rows /\ keep (t_cols r) = true /\ x = select_summary (t_cols r).
Proof.
  revert found. induction matches as [|e rest IH]; intros found H Hx;
    cbn [fts_join] in H.
  - inversion H; subst. destruct Hx.
  - destruct (content_row (f_rowid e) rows) as [c|]; [|discriminate].
    destruct (fts_join rest rows keep) as [more|]; [|discriminate].
    cbn [rbind] in H. inversion H; subst. apply in_app_or in Hx as [Hx | Hx].
    + apply in_map_iff in Hx as (r & <- & Hr).
      apply List.filter_In in Hr as [Hr Hk]. apply andb_true_iff in Hk as [_ Hk].
      exists r. auto.
    + apply (IH more eq_refl Hx).
Qed.

Lemma firstn_add {A} (a b : nat) (l : list A) :
  firstn (a + b) l = firstn a l ++ firstn b (skipn a l).
Proof.
  revert l. induction a as [|a IH]; intros l; [reflexivity|].
  destruct l as [|x r]; cbn [Nat.add firstn skipn app].
  - rewrite firstn_nil. reflexivity.
  - rewrite IH. reflexivity.
Qed.

(** The chunks of [size] elements of a list, put together again. *)
Lemma chunks_concat {A} (size : nat) (l : list A) (k : nat) :
  concat (map (fun i => firstn size (skipn (size * i) l)) (seq 0 k)) =
  firstn (size * k) l.
Proof.
  induction k as [|k IH].
  - rewrite Nat.mul_0_r. reflexivity.
  - rewrite seq_S, map_app, concat_app, IH. cbn [Nat.add map concat].
    rewrite app_nil_r. replace (size * S k)%nat with (size * k + size)%nat by lia.
    rewrite firstn_add. reflexivity.
Qed.

(** [l[offset : offset + 50]] for an offset that is not negative. *)
Lemma py_slice_page {A} (l : list A) (i : nat) :
  py_slice l (Z.of_nat i * per_page) (Z.of_nat i * per_page + per_page) =
  firstn 50 (skipn (50 * i) l).
Proof.
  unfold py_slice, clamp_index, per_page.
  set (n := Z.of_nat (length l)).
  replace (Z.of_nat i * 50 <? 0) with false by (symmetry; apply Z.ltb_ge; lia).
  replace (Z.of_nat i * 50 + 50 <? 0) with false by (symmetry; apply Z.ltb_ge; lia).
  destruct (Z.le_gt_cases (Z.of_nat i * 50) n) as [Hle | Hgt].
  - rewrite (Z.min_l (Z.of_nat i * 50) n Hle).
    replace (Z.to_nat (Z.of_nat i * 50)) with (50 * i)%nat by lia.
    destruct (Z.le_gt_cases (Z.of_nat i * 50 + 50) n) as [Hle' | Hgt'].
    + rewrite (Z.min_l _ n Hle'). f_equal. lia.
    + rewrite (Z.min_r _ n) by lia.
      rewrite !firstn_all2; [reflexivity | |]; rewrite length_skipn; subst n; lia.
  - rewrite !Z.min_r by lia.
    replace (Z.to_nat (n - n)) with 0%nat by lia. cbn [firstn].
    rewrite (skipn_all2 (n := (50 * i)%nat)) by (subst n; lia).
    reflexivity.
Qed.

Section SearchPageProperties.
Variable fts5_match :
  string -> option (option string * option string * option string -> bool).
Variable sql_like : string -> string -> bool.

Lemma search_db_passes (query status project issue_type : string) (db : tables)
    (found : list summary_row) (x : summary_row) :
  search_db fts5_match sql_like query status project issue_type db = OK found ->
  In x found ->
  exists r, In r (tickets db) /\ x = select_summary (t_cols r) /\
            passes status project issue_type x = true.
Proof.
  assert (Hlike : In x (like_select sql_like db query status project issue_type) ->
            exists r, In r (tickets db) /\ x = select_summary (t_cols r) /\
                      passes status project issue_type x = true).
  { unfold like_select. intros Hx. apply in_map_iff in Hx as (r & <- & Hr).
    apply List.filter_In in Hr as [Hr Hk]. apply andb_true_iff in Hk as [_ Hk].
    exists r. auto. }
  unfold search_db. intros H Hx.
  destruct (tickets_fts db) as [index|].
  - destruct (negb (String.eqb query EmptyString)).
    + unfold fts_select in H. destruct (fts5_match (fts_query query)); [|discriminate].
      destruct (fts_join_keep _ _ _ _ _ H Hx) as (r & Hr & Hk & ->).
      exists r. auto.
    + inversion H; subst. apply Hlike, Hx.
  - inversion H; subst. apply Hlike, Hx.
Qed.

(** X13. Every ticket [search] shows, on any page and whichever of the two
    queries a database was asked, is a row of one of the databases and has
    the status, project and issue type that were asked for. *)
Theorem search_respects_filters (dbs : list tables)
    (query status project issue_type : string) (page : Z)
    (tickets_shown : list summary_row) (total_pages : Z) (x : summary_row)
    (Hsearch : search fts5_match sql_like dbs query status project issue_type page =
               OK (tickets_shown, total_pages))
    (Hx : In x tickets_shown) :
  passes status project issue_type x = true /\
  exists db r, In db dbs /\ In r (tickets db) /\ x = select_summary (t_cols r).
Proof.
  unfold search, search_all in Hsearch.
  destruct (rmapM _ dbs) as [per_db|] eqn:Eper; [|discriminate].
  cbn [rbind] in Hsearch. inversion Hsearch; subst. clear Hsearch.
  apply py_slice_In in Hx.
  apply (Permutation_in _ (sort_desc_perm updated_key (concat per_db))) in Hx.
  apply in_concat in Hx as (found & Hfound & Hx).
  destruct (rmapM_In _ _ _ _ Eper Hfound) as (db & Hdb & Hrun).
  destruct (search_db_passes _ _ _ _ _ _ _ Hrun Hx) as (r & Hr & Heq & Hpass).
  split; [exact Hpass|]. exists db, r. auto.
Qed.

(** X14. The pages of [search] cut the sorted result into runs of fifty:
    pages 1 to [total_pages] put one after the other are the whole result,
    no page has more than fifty tickets, and page 0 and every page after
    [total_pages] are empty. *)
Theorem search_pages_partition (dbs : list tables)
    (query status project issue_type : string) (all_tickets : list summary_row)
    (Hall : search_all fts5_match sql_like dbs query status project issue_type =
            OK all_tickets) :
  let page i :=
    shown (search fts5_match sql_like dbs query status project issue_type (Z.of_nat i)) in
  let total_pages := ((length all_tickets + 49) / 50)%nat in
  (forall i, exists shown_i,
     search fts5_match sql_like dbs query status project issue_type (Z.of_nat i) =
     OK (shown_i, Z.of_nat total_pages)) /\
  concat (map page (seq 1 total_pages)) = all_tickets /\
  (forall i, (length (page i) <= 50)%nat) /\
  page 0%nat = [] /\
  (forall i, (total_pages < i)%nat -> page i = []).
Proof.
  intros page total_pages.
  assert (Htotal : (Z.of_nat (length all_tickets) + per_page - 1) / per_page =
                   Z.of_nat total_pages).
  { subst total_pages. unfold per_page. rewrite Nat2Z.inj_div.
    replace (Z.of_nat (length all_tickets + 49))
      with (Z.of_nat (length all_tickets) + 50 - 1) by lia.
    reflexivity. }
  assert (Hrun : forall i,
            search fts5_match sql_like dbs query status project issue_type (Z.of_nat i) =
            OK (py_slice all_tickets ((Z.of_nat i - 1) * per_page)
                  ((Z.of_nat i - 1) * per_page + per_page),
                Z.of_nat total_pages)).
  { intros i. unfold search. rewrite Hall. cbn [rbind]. rewrite Htotal. reflexivity. }
  assert (Hpage : forall i, page (S i) = firstn 50 (skipn (50 * i) all_tickets)).
  { intros i. subst page. cbn beta. rewrite Hrun. cbn [shown].
    replace (Z.of_nat (S i) - 1) with (Z.of_nat i) by lia. apply py_slice_page. }
  assert (Hzero : page 0%nat = []).
  { subst page. cbn beta. rewrite Hrun. cbn [shown].
    unfold py_slice, clamp_index, per_page.
    change ((Z.of_nat 0 - 1) * 50) with (-50). change (-50 + 50) with 0.
    change (0 <? 0) with false. change (-50 <? 0) with true. cbn iota.
    replace (Z.to_nat _) with 0%nat by lia. reflexivity. }
  assert (Hdiv : (length all_tickets <= 50 * total_pages)%nat).
  { subst total_pages.
    pose proof (Nat.div_mod_eq (length all_tickets + 49) 50) as Hd.
    pose proof (Nat.mod_upper_bound (length all_tickets + 49) 50 ltac:(lia)). lia. }
  split; [intros i; eexists; apply Hrun|]. split; [|split; [|split]].
  - rewrite <- seq_shift, map_map.
    rewrite (map_ext _ (fun i => firstn 50 (skipn (50 * i) all_tickets)) Hpage).
    rewrite chunks_concat. apply firstn_all2. exact Hdiv.
  - intros [|i]; [rewrite Hzero; cbn; lia|].
    rewrite Hpage. rewrite length_firstn. lia.
  - exact Hzero.
  - intros [|i] Hi; [exact Hzero|].
    rewrite Hpage, skipn_all2 by lia. apply firstn_nil.
Qed.

End SearchPageProperties.

(** ** The other routes of the viewer *)

Section SortByProperties.
Context {A : Type} (before : A -> A -> bool).
Hypothesis before_total : forall a b, before a b = false -> before b a = true.
Hypothesis before_trans :
  forall a b c, before a b = true -> before b c = true -> before a c = true.

Lemma insert_by_perm (x : A) (l : list A) : Permutation (insert_by before x l) (x :: l).
Proof.
  induction l as [|y r IH]; cbn [insert_by]; [reflexivity|].
  destruct (before x y); [reflexivity|]. rewrite IH. apply perm_swap.
Qed.

Lemma sort_by_perm (l : list A) : Permutation (sort_by before l) l.
Proof.
  induction l as [|x r IH]; cbn [sort_by fold_right]; [reflexivity|].
  fold (sort_by before r). rewrite insert_by_perm, IH. reflexivity.
Qed.

Lemma insert_by_sorted (x : A) (l : list A) :
  StronglySorted (fun a b => before a b = true) l ->
  StronglySorted (fun a b => before a b = true) (insert_by before x l).
Proof.
  induction 1 as [|y r Hr IH Hy]; cbn [insert_by].
  - repeat constructor.
  - destruct (before x y) eqn:E.
    + constructor; [constructor; assumption|].
      constructor; [exact E|].
      eapply Forall_impl; [exact Hy|]. intros z Hz. cbn beta in *.
      eapply before_trans; eassumption.
    + constructor; [exact IH|].
      rewrite insert_by_perm. constructor; [apply before_total, E | exact Hy].
Qed.

Lemma sort_by_sorted (l : list A) :
  StronglySorted (fun a b => before a b = true) (sort_by before l).
Proof.
  induction l as [|x r IH]; cbn [sort_by fold_right]; [constructor|].
  apply insert_by_sorted, IH.
Qed.

End SortByProperties.

Lemma string_leb_total (a b : string) : String.leb a b = false -> String.leb b a = true.
Proof.
  unfold String.leb. rewrite (String.compare_antisym a b).
  destruct (String.compare b a); cbn; auto; discriminate.
Qed.

Lemma sql_le_total (a b : option string) : sql_le a b = false -> sql_le b a = true.
Proof.
  destruct a as [x|], b as [y|]; cbn; auto; try discriminate.
  apply string_leb_total.
Qed.

Lemma sql_le_trans (a b c : option string) :
  sql_le a b = true -> sql_le b c = true -> sql_le a c = true.
Proof.
  destruct a as [x|], b as [y|], c as [z|]; cbn; auto; try discriminate.
  apply string_leb_trans.
Qed.

Lemma find_first {A} (p : A -> bool) (l : list A) (x : A) :
  List.find p l = Some x ->
  exists pre post,
    l = pre ++ x :: post /\ p x = true /\ Forall (fun y => p y = false) pre.
Proof.
  induction l as [|y r IH]; cbn [List.find]; [discriminate|].
  destruct (p y) eqn:E.
  - intros [= <-]. exists [], r. repeat split; [exact E | constructor].
  - intros H. destruct (IH H) as (pre & post & -> & Hx & Hpre).
    exists (y :: pre), post. repeat split; [exact Hx | constructor; assumption].
Qed.

Lemma find_none_all {A} (p : A -> bool) (l : list A) :
  List.find p l = None <-> Forall (fun y => p y = false) l.
Proof.
  induction l as [|y r IH]; cbn [List.find].
  - split; [constructor | reflexivity].
  - destruct (p y) eqn:E.
    + split; [discriminate|]. intros H. apply Forall_cons in H as [H _]. congruence.
    + rewrite IH. split; [constructor; assumption|].
      intros H. apply Forall_cons in H as [_ H]. exact H.
Qed.

Section TicketPageProperties.
Variable json_loads : string -> option json.

(** X15. [ticket_detail] answers 404 exactly when no database has a row
    with the key. Otherwise the page comes from the first database that has
    one, with every database before it having none: its ticket is a row of
    that database with this key, its comments are that database's comments
    of the key in ascending order of [created], and its changelog that
    database's entries of the key in descending order of [created]. *)
Theorem ticket_detail_page (dbs : list tables) (key : string) :
  (ticket_detail json_loads dbs key = None <->
   Forall (fun db => has_ticket key db = false) dbs) /\
  forall page, ticket_detail json_loads dbs key = Some page ->
    exists before db after,
      dbs = before ++ db :: after /\
      Forall (fun db' => has_ticket key db' = false) before /\
      In (tp_ticket page) (tickets db) /\
      t_key (t_cols (tp_ticket page)) = Some key /\
      Permutation (tp_comments page)
        (List.filter (fun r => sql_eq (c_ticket_key r) (Some key)) (comments db)) /\
      StronglySorted created_asc (tp_comments page) /\
      Permutation (tp_changelog page)
        (List.filter (fun r => sql_eq (h_ticket_key (snd r)) (Some key)) (changelog db)) /\
      StronglySorted created_desc (tp_changelog page).
Proof.
  assert (Hrow : forall db, has_ticket key db = true ->
            exists ticket,
              List.find (fun r => sql_eq (t_key (t_cols r)) (Some key)) (tickets db) =
              Some ticket).
  { intros db Hdb. unfold has_ticket in Hdb.
    destruct (List.find _ (tickets db)) as [ticket|] eqn:E; [eauto|].
    apply existsb_exists in Hdb as (r & Hr & Hk).
    rewrite (find_none _ _ E r Hr) in Hk. discriminate. }
  unfold ticket_detail, get_db_for_ticket. split.
  - rewrite <- find_none_all.
    destruct (List.find (has_ticket key) dbs) as [db|] eqn:E; [|tauto].
    apply find_some in E as [_ Hdb]. destruct (Hrow db Hdb) as [ticket ->].
    split; discriminate.
  - intros page H.
    destruct (List.find (has_ticket key) dbs) as [db|] eqn:E; [|discriminate].
    apply find_first in E as (before & after & -> & Hdb & Hbefore).
    destruct (Hrow db Hdb) as [ticket Hticket]. rewrite Hticket in H.
    inversion H; subst page. clear H. cbn [tp_ticket tp_comments tp_changelog].
    apply find_some in Hticket as [Hin Hk].
    exists before, db, after.
    split; [reflexivity|]. split; [exact Hbefore|]. split; [exact Hin|].
    split.
    { destruct (t_key (t_cols ticket)) as [x|]; [|discriminate]. cbn in Hk.
      apply String.eqb_eq in Hk. congruence. }
    split; [apply sort_by_perm|].
    split.
    { apply (sort_by_sorted (fun a b : comment_row => sql_le (c_created a) (c_created b))).
      - intros a b. apply sql_le_total.
      - intros a b c0. apply sql_le_trans. }
    split; [apply sort_by_perm|].
    apply (sort_by_sorted
             (fun a b : Z * changelog_cols =>
                sql_le (h_created (snd b)) (h_created (snd a)))).
    + intros a b. apply sql_le_total.
    + intros a b c0 Hab Hbc. eapply sql_le_trans; eassumption.
Qed.

End TicketPageProperties.

Lemma find_app_skip {A} (p : A -> bool) (l1 l2 : list A) :
  Forall (fun y => p y = false) l1 -> List.find p (l1 ++ l2) = List.find p l2.
Proof.
  induction 1 as [|y r Hy _ IH]; [reflexivity|].
  cbn [app List.find]. rewrite Hy. exact IH.
Qed.

Lemma filter_negb_none {A} (p : A -> bool) (l : list A) :
  Forall (fun y => p y = false) (List.filter (fun x => negb (p x)) l).
Proof.
  apply List.Forall_forall. intros y Hy. apply List.filter_In in Hy as [_ Hy].
  apply negb_true_iff, Hy.
Qed.

Section StoredPageProperties.
Variable json_dumps : json -> string.
Variable json_loads : string -> option json.

(** X16. What the scraper stores, the viewer shows: after an accepted upsert
    of a record with a key, the ticket page of that key over this database
    exists, its ticket has the columns the record was stored with, it lists
    as many comments and changelog entries as the record, and, when
    [json.loads] reads back what [json.dumps] wrote, its labels are those of
    the record. *)
Theorem upserted_ticket_is_shown (ticket : pydict) (key : string)
    (c c' : connection) (cols : ticket_cols)
    (Hkey : bind_text (dget ticket "key") = OK (Some key))
    (Hcols : ticket_params json_dumps ticket = OK cols)
    (Hrun : insert_ticket json_dumps ticket c = (Ret tt, c'))
    (Hloads : json_loads (json_dumps (dget_default ticket "labels" (JList []))) =
              Some (dget_default ticket "labels" (JList [])))
    (Htext : json_dumps (dget_default ticket "labels" (JList [])) <> EmptyString) :
  exists page,
    ticket_detail json_loads [current c'] key = Some page /\
    t_cols (tp_ticket page) = cols /\
    tp_labels page = dget_default ticket "labels" (JList []) /\
    length (tp_comments page) = loop_length ticket "comments" /\
    length (tp_changelog page) = loop_length ticket "changelog".
Proof.
  destruct (insert_ticket_counts _ _ _ _ _ Hkey Hrun) as (_ & Hc & Hh & _ & _).
  apply insert_ticket_shape in Hrun
    as (cols' & cs & hs & ls & ss & crows & hrows & lrows & srows &
        Hcols' & Hcs & Hcrows & Hacc & Hhs & Hhrows & Hls & Hlrows &
        Hss & Hsrows & Hcur & Hcm).
  rewrite Hcols in Hcols'. inversion Hcols'; subst cols'. clear Hcols'.
  destruct (ticket_params_columns _ _ _ Hcols) as [Hk _].
  rewrite Hkey in Hk. inversion Hk as [Hk']. symmetry in Hk'.
  assert (Hlabels : t_labels cols =
            Some (json_dumps (dget_default ticket "labels" (JList [])))).
  { pose proof Hcols as H. unfold ticket_params in H. step_params H.
    inversion H; subst cols. reflexivity. }
  set (row := mkTicketRow (max_rowid (tickets (current c)) + 1) cols).
  assert (Hfind : List.find (fun r => sql_eq (t_key (t_cols r)) (Some key))
                    (tickets (current c')) = Some row).
  { rewrite Hcur. unfold upserted. cbn [tickets]. rewrite Hk'.
    rewrite find_app_skip
      by apply (filter_negb_none (fun r => sql_eq (t_key (t_cols r)) (Some key))).
    cbn [List.find t_cols t_key]. rewrite Hk', sql_eq_refl. reflexivity. }
  assert (Hhas : has_ticket key (current c') = true).
  { unfold has_ticket. apply existsb_exists. apply find_some in Hfind as [Hin Hp].
    exists row. auto. }
  unfold ticket_detail, get_db_for_ticket. cbn [List.find]. rewrite Hhas, Hfind.
  eexists. split; [reflexivity|].
  cbn [tp_ticket tp_labels tp_comments tp_changelog t_cols].
  split; [reflexivity|]. split; [|split].
  - unfold row. cbn [t_cols]. rewrite Hlabels.
    apply String.eqb_neq in Htext. rewrite Htext, Hloads. reflexivity.
  - rewrite (Permutation_length (sort_by_perm _ _)). exact Hc.
  - rewrite (Permutation_length (sort_by_perm _ _)). exact Hh.
Qed.

End StoredPageProperties.

Lemma string_leb_ne_ltb (a b : string) :
  String.leb a b = true -> a <> b -> String.ltb a b = true.
Proof.
  unfold String.leb, String.ltb. intros Hle Hne.
  destruct (String.compare a b) eqn:E; [|reflexivity|discriminate].
  apply String.compare_eq_iff in E. contradiction.
Qed.

Lemma sorted_distinct_strict (l : list string) :
  StronglySorted (fun a b => String.leb a b = true) l -> List.NoDup l ->
  StronglySorted str_lt l.
Proof.
  induction 1 as [|a r Hr IH Ha]; intros Hnd; [constructor|].
  apply List.NoDup_cons_iff in Hnd as [Hnotin Hnd].
  constructor; [apply IH, Hnd|].
  apply List.Forall_forall. intros b Hb.
  apply string_leb_ne_ltb.
  - rewrite List.Forall_forall in Ha. apply Ha, Hb.
  - intros ->. contradiction.
Qed.

(** [sorted(set(l))]: strictly ascending, with the elements of [l]. *)
Lemma sorted_set_spec (l : list string) :
  StronglySorted str_lt (sorted_set l) /\
  forall x, In x (sorted_set l) <-> In x l.
Proof.
  unfold sorted_set.
  pose proof (sort_by_perm String.leb (List.nodup String.string_dec l)) as Hperm.
  split.
  - apply sorted_distinct_strict.
    + apply sort_by_sorted; [apply string_leb_total | apply string_leb_trans].
    + apply (Permutation_NoDup (Permutation_sym Hperm)), List.NoDup_nodup.
  - intros x. rewrite <- (List.nodup_In String.string_dec l x). split.
    + apply Permutation_in, Hperm.
    + apply Permutation_in, Permutation_sym, Hperm.
Qed.

Lemma In_column (col : ticket_cols -> option string) (dbs : list tables) (x : string) :
  In x (concat (map (fun db => omap (fun r => col (t_cols r)) (tickets db)) dbs)) <->
  exists db r, In db dbs /\ In r (tickets db) /\ col (t_cols r) = Some x.
Proof.
  rewrite in_concat. split.
  - intros (values & Hvalues & Hx). apply in_map_iff in Hvalues as (db & <- & Hdb).
    apply list_elem_of_In, list_elem_of_omap in Hx as (r & Hr & Hcol).
    apply list_elem_of_In in Hr. exists db, r. auto.
  - intros (db & r & Hdb & Hr & Hcol).
    exists (omap (fun r => col (t_cols r)) (tickets db)). split.
    + apply in_map_iff. exists db. auto.
    + apply list_elem_of_In, list_elem_of_omap. exists r.
      split; [apply list_elem_of_In, Hr | exact Hcol].
Qed.

(** X17. The three filter lists of the search page are strictly ascending,
    so without repetition, and hold exactly the statuses, project keys and
    issue types that some ticket row of some database has; [NULL] is in
    none of them. *)
Theorem filter_options_are_sorted_sets (dbs : list tables) :
  let '(statuses, projects, types) := get_filter_options dbs in
  (StronglySorted str_lt statuses /\
   forall x, In x statuses <->
     exists db r, In db dbs /\ In r (tickets db) /\ t_status (t_cols r) = Some x) /\
  (StronglySorted str_lt projects /\
   forall x, In x projects <->
     exists db r, In db dbs /\ In r (tickets db) /\ t_project_key (t_cols r) = Some x) /\
  (StronglySorted str_lt types /\
   forall x, In x types <->
     exists db r, In db dbs /\ In r (tickets db) /\ t_issue_type (t_cols r) = Some x).
Proof.
  unfold get_filter_options.
  assert (Hcol : forall col,
            let values :=
              sorted_set
                (concat (map (fun db => omap (fun r => col (t_cols r)) (tickets db)) dbs)) in
            StronglySorted str_lt values /\
            forall x, In x values <->
              exists db r, In db dbs /\ In r (tickets db) /\ col (t_cols r) = Some x).
  { intros col values. subst values.
    destruct (sorted_set_spec
                (concat (map (fun db => omap (fun r => col (t_cols r)) (tickets db)) dbs)))
      as [Hsorted Hin].
    split; [exact Hsorted|]. intros x. rewrite Hin. apply In_column. }
  split; [apply (Hcol t_status)|]. split; [apply (Hcol t_project_key)|].
  apply (Hcol t_issue_type).
Qed.

Lemma fold_left_tickets (dbs : list tables) (n : nat) :
  fold_left (fun n db => (n + length (tickets db))%nat) dbs n =
  (n + length (concat (map tickets dbs)))%nat.
Proof.
  revert n. induction dbs as [|db rest IH]; intros n; cbn [fold_left map concat].
  - cbn [length]. lia.
  - rewrite IH, length_app. lia.
Qed.

Section HomePageProperties.
Variable fts5_match :
  string -> option (option string * option string * option string -> bool).
Variable sql_like : string -> string -> bool.

(** X18. A search without text and filters never fails, and lists as many
    tickets as [get_stats] counts: every ticket row of every database, once
    for each row. *)
Theorem unfiltered_search_lists_all (dbs : list tables) :
  exists all_tickets,
    search_all fts5_match sql_like dbs "" "" "" "" = OK all_tickets /\
    Permutation all_tickets
      (map (fun r => select_summary (t_cols r)) (concat (map tickets dbs))) /\
    length all_tickets = vs_tickets (viewer_get_stats dbs).
Proof.
  assert (Hper : rmapM (search_db fts5_match sql_like "" "" "" "") dbs =
                 OK (map (fun db => map (fun r => select_summary (t_cols r)) (tickets db))
                       dbs)).
  { induction dbs as [|db rest IH]; cbn [rmapM map]; [reflexivity|].
    rewrite search_db_no_text, IH. reflexivity. }
  assert (Hconcat : concat (map (fun db => map (fun r => select_summary (t_cols r))
                                    (tickets db)) dbs) =
                    map (fun r => select_summary (t_cols r)) (concat (map tickets dbs))).
  { rewrite concat_map, map_map. reflexivity. }
  unfold search_all. rewrite Hper. cbn [rbind]. eexists. split; [reflexivity|].
  rewrite Hconcat. split; [apply sort_desc_perm|].
  rewrite (Permutation_length (sort_desc_perm _ _)), length_map.
  unfold viewer_get_stats. cbn [vs_tickets]. rewrite fold_left_tickets. reflexivity.
Qed.

End HomePageProperties.

(** ** PaginatingClient: [_paginate] on an offset-paginated source *)

Lemma add_events_nil (w : world) : add_events w [] = w.
Proof. unfold add_events. rewrite app_nil_r. destruct w; reflexivity. Qed.

Lemma add_events_app (w : world) (a b : list event) :
  add_events (add_events w a) b = add_events w (a ++ b).
Proof. unfold add_events. cbn [heap events utc_now]. rewrite app_assoc. reflexivity. Qed.

Lemma requests_of_add_events (w : world) (more : list event) :
  requests_of (add_events w more) = requests_of w ++ omap is_request more.
Proof. unfold add_events, requests_of. cbn [events]. apply omap_app. Qed.

Lemma when_print_run (b : bool) (line : string) (w : world) :
  when b (print line) w = (Ret tt, add_events w (if b then [EvPrint line] else [])).
Proof. destruct b; [reflexivity|]. rewrite add_events_nil. reflexivity. Qed.

Lemma offset_source_answer (recs : list json) (declared : Z) (seen : list request)
    (endpoint : string) (m : nat) :
  offset_source recs declared seen (offset_request endpoint m) =
  mkResponse 200 HAbsent EmptyString
    (Some (JObj [("startAt", JInt (Z.of_nat m)); ("maxResults", JInt 100);
                 ("total", JInt declared);
                 ("values", JList (firstn 100 (skipn m recs)))])).
Proof.
  unfold offset_source.
  change (int_param (offset_request endpoint m) "startAt" 0) with (Z.of_nat m).
  change (int_param (offset_request endpoint m) "maxResults" 50) with 100.
  rewrite Nat2Z.id. reflexivity.
Qed.

Section PaginateProperties.
Variable repr_str : string -> string.
Variable base_url : string.

(** One round of the loop of [_paginate] against such a source. *)
Lemma paginate_round (recs : list json) (declared : Z) (fuel' : nat)
    (endpoint : string) (progress : bool) (acc : list json) (total : option json)
    (page : Z) (w : world) (own m : nat) :
  heap w !! own = Some [("startAt", JInt (Z.of_nat m)); ("maxResults", JInt 100)] ->
  total = None \/ total = Some (JInt declared) ->
  let items := firstn 100 (skipn m recs) in
  let all_results := acc ++ items in
  exists w1,
    requests_of w1 = requests_of w ++ [offset_request endpoint m] /\
    ((declared <=? Z.of_nat (length all_results)) || negb (truthy (JList items)) = false ->
     heap w1 !! own =
       Some [("startAt", JInt (Z.of_nat (length all_results)));
             ("maxResults", JInt 100)]) /\
    paginate_loop repr_str (offset_source recs declared) base_url (S fuel') endpoint
      own "values" progress acc total page w =
    if (declared <=? Z.of_nat (length all_results)) || negb (truthy (JList items))
    then (Ret all_results, w1)
    else paginate_loop repr_str (offset_source recs declared) base_url fuel' endpoint
           own "values" progress all_results (Some (JInt declared)) (page + 1) w1.
Proof.
  intros Hown Htotal items all_results.
  assert (Hreq : request_for endpoint (Some own) w = offset_request endpoint m).
  { unfold request_for. rewrite Hown. reflexivity. }
  cbn [paginate_loop].
  set (data := JObj [("startAt", JInt (Z.of_nat m)); ("maxResults", JInt 100);
                     ("total", JInt declared); ("values", JList items)]).
  erewrite (bind_Ret (_api_get _ _ _ _) _ w _ data).
  2:{ apply api_get_answer. rewrite Hreq, offset_source_answer.
      unfold answers_ok. cbn [status_code body].
      repeat split; try discriminate. lia. }
  rewrite Hreq. fold (add_events w [EvRequest (offset_request endpoint m)]).
  set (w0 := add_events w [EvRequest (offset_request endpoint m)]).
  change (String.eqb "values" "issues") with false. cbn iota.
  assert (Hvalues : py_get_default data "values" (JList []) = OK (JList items))
    by reflexivity.
  assert (Hdeclared : forall dflt, py_get_default data "total" dflt = OK (JInt declared))
    by reflexivity.
  rewrite Hvalues. cbn [lift].
  rewrite (bind_Ret _ _ w0 w0 (JList items)) by reflexivity.
  cbn [py_iter lift].
  rewrite (bind_Ret _ _ w0 w0 items) by reflexivity.
  fold all_results.
  set (first_line :=
         if progress
         then match total with
              | None => [EvPrint ("  Total issues to fetch: " +:+
                                  py_str repr_str (JInt declared))]
              | Some _ => []
              end
         else []).
  erewrite (bind_Ret _ _ w0 (add_events w0 first_line) (JInt declared)).
  2:{ destruct Htotal as [-> | ->].
      - rewrite Hdeclared. cbn [lift].
        rewrite (bind_Ret _ _ w0 w0 (JInt declared)) by reflexivity.
        erewrite bind_Ret by apply when_print_run.
        subst first_line. reflexivity.
      - subst first_line. unfold ret. destruct progress; rewrite add_events_nil;
          reflexivity. }
  erewrite bind_Ret by apply when_print_run.
  rewrite add_events_app.
  cbn [py_int_ge lift].
  erewrite (bind_Ret (ret _)) by reflexivity.
  assert (Hreqs : forall more, omap is_request more = [] ->
            requests_of (add_events w0 more) =
            requests_of w ++ [offset_request endpoint m]).
  { intros more Hmore. unfold w0.
    rewrite add_events_app, requests_of_add_events, omap_app, Hmore. reflexivity. }
  assert (Hnone : omap is_request
                    (first_line ++
                     (if progress
                      then [EvPrint ("  Page " +:+ pretty (page + 1) +:+ ": fetched " +:+
                                     pretty (Z.of_nat (length items)) +:+
                                     " issues (total so far: " +:+
                                     pretty (Z.of_nat (length all_results)) +:+ "/" +:+
                                     py_str repr_str (JInt declared) +:+ ")")]
                      else [])) = []).
  { subst first_line. destruct progress, total; reflexivity. }
  destruct (declared <=? Z.of_nat (length all_results)) eqn:Eenough; cbn [orb].
  { erewrite bind_Ret by apply when_print_run. rewrite add_events_app.
    eexists. split; [|split; [|reflexivity]].
    - apply Hreqs. rewrite omap_app, Hnone. destruct progress; reflexivity.
    - discriminate. }
  destruct (truthy (JList items)) eqn:Eitems; cbn [negb].
  2:{ erewrite bind_Ret by apply when_print_run. rewrite add_events_app.
      eexists. split; [|split; [|reflexivity]].
      - apply Hreqs. rewrite omap_app, Hnone. destruct progress; reflexivity.
      - discriminate. }
  unfold bind at 1, setitem at 1.
  eexists. split; [|split; [|reflexivity]].
  - unfold requests_of at 1. cbn [events].
    change (omap is_request (events (add_events w0
              (first_line ++
               (if progress
                then [EvPrint ("  Page " +:+ pretty (page + 1) +:+ ": fetched " +:+
                               pretty (Z.of_nat (length items)) +:+
                               " issues (total so far: " +:+
                               pretty (Z.of_nat (length all_results)) +:+ "/" +:+
                               py_str repr_str (JInt declared) +:+ ")")]
                else [])))))
      with (requests_of (add_events w0
              (first_line ++
               (if progress
                then [EvPrint ("  Page " +:+ pretty (page + 1) +:+ ": fetched " +:+
                               pretty (Z.of_nat (length items)) +:+
                               " issues (total so far: " +:+
                               pretty (Z.of_nat (length all_results)) +:+ "/" +:+
                               py_str repr_str (JInt declared) +:+ ")")]
                else [])))).
    apply Hreqs, Hnone.
  - intros _. cbn [heap]. unfold add_events, w0, add_events. cbn [heap].
    rewrite list_lookup_alter_eq.
    exact (f_equal (fmap (dict_set "startAt" (JInt (Z.of_nat (length all_results)))))
             Hown).
Qed.

Lemma page_step {A} (recs : list A) (j : nat) :
  firstn (100 * j) recs ++
  firstn 100 (skipn (length (firstn (100 * j) recs)) recs) =
  firstn (100 * S j) recs.
Proof.
  replace (100 * S j)%nat with (100 * j + 100)%nat by lia.
  rewrite firstn_add. f_equal.
  destruct (Nat.le_gt_cases (100 * j) (length recs)) as [Hle | Hgt].
  - rewrite firstn_length_le by exact Hle. reflexivity.
  - rewrite length_firstn.
    replace (Nat.min (100 * j) (length recs)) with (length recs) by lia.
    rewrite !skipn_all2 by lia. reflexivity.
Qed.

Lemma truthy_list_length (l : list json) :
  truthy (JList l) = negb (length l =? 0)%nat.
Proof. destruct l; reflexivity. Qed.

Lemma paginate_loop_offset (recs : list json) (declared : Z) (endpoint : string)
    (progress : bool) (own : nat) (r : nat) :
  forall j fuel total page w,
  (j + r = length recs / 100 + 1)%nat ->
  (r < fuel)%nat ->
  heap w !! own =
    Some [("startAt", JInt (Z.of_nat (length (firstn (100 * j) recs))));
          ("maxResults", JInt 100)] ->
  (j = 0%nat /\ total = None) \/
  (total = Some (JInt declared) /\
   Z.of_nat (length (firstn (100 * j) recs)) < declared) ->
  exists w' n,
    paginate_loop repr_str (offset_source recs declared) base_url fuel endpoint own
      "values" progress (firstn (100 * j) recs) total page w =
      (Ret (firstn (100 * pages_for declared) recs), w') /\
    (1 <= n)%nat /\
    (j + n <= length recs / 100 + 2)%nat /\
    requests_of w' =
      requests_of w ++
      map (fun i => offset_request endpoint (Nat.min (100 * i) (length recs)))
        (seq j n).
Proof.
  induction r as [|r' IH]; intros j fuel total page w Hj Hfuel Hown Htotal;
    (destruct fuel as [|fuel']; [lia|]).
  - destruct (paginate_round recs declared fuel' endpoint progress
                (firstn (100 * j) recs) total page w own
                (length (firstn (100 * j) recs)) Hown) as (w1 & Hreqs & _ & Hrun).
    { destruct Htotal as [[_ ->] | [-> _]]; auto. }
    cbv zeta in Hrun. rewrite page_step in Hrun.
    assert (Hlen : (length recs < 100 * j)%nat).
    { pose proof (Nat.div_mod_eq (length recs) 100).
      pose proof (Nat.mod_upper_bound (length recs) 100 ltac:(lia)). lia. }
    assert (Hempty : firstn 100 (skipn (length (firstn (100 * j) recs)) recs) = []).
    { rewrite length_firstn.
      replace (Nat.min (100 * j) (length recs)) with (length recs) by lia.
      rewrite skipn_all2 by lia. reflexivity. }
    rewrite Hempty in Hrun. cbn [truthy negb] in Hrun. rewrite orb_true_r in Hrun.
    exists w1, 1%nat. rewrite Hrun, Hreqs. cbn [seq map].
    rewrite length_firstn. split; [|split; [lia|split; [lia|reflexivity]]].
    f_equal. rewrite !firstn_all2; [reflexivity | |lia].
    destruct Htotal as [[-> _] | [_ Hlt]]; [lia|].
    rewrite length_firstn in Hlt. unfold pages_for.
    pose proof (Z_div_mod_eq_full (declared + 99) 100).
    pose proof (Z.mod_pos_bound (declared + 99) 100 ltac:(lia)). lia.
  - destruct (paginate_round recs declared fuel' endpoint progress
                (firstn (100 * j) recs) total page w own
                (length (firstn (100 * j) recs)) Hown) as (w1 & Hreqs & Hheap & Hrun).
    { destruct Htotal as [[_ ->] | [-> _]]; auto. }
    cbv zeta in Hrun, Hheap. rewrite page_step in Hrun, Hheap.
    rewrite length_firstn in Hreqs.
    destruct ((declared <=? Z.of_nat (length (firstn (100 * S j) recs))) ||
              negb (truthy (JList (firstn 100
                      (skipn (length (firstn (100 * j) recs)) recs))))) eqn:Estop.
    + exists w1, 1%nat. rewrite Hrun, Hreqs. cbn [seq map].
      split; [|split; [lia|split; [lia|reflexivity]]]. f_equal.
      apply orb_true_iff in Estop as [Henough | Hnone].
      * apply Z.leb_le in Henough. rewrite length_firstn in Henough.
        assert (Hpages : pages_for declared = S j).
        { unfold pages_for.
          pose proof (Z_div_mod_eq_full (declared + 99) 100).
          pose proof (Z.mod_pos_bound (declared + 99) 100 ltac:(lia)).
          destruct Htotal as [[-> _] | [_ Hlt]]; [lia|].
          rewrite length_firstn in Hlt. lia. }
        rewrite Hpages. reflexivity.
      * rewrite truthy_list_length in Hnone. apply negb_true_iff in Hnone.
        rewrite negb_false_iff in Hnone. apply Nat.eqb_eq in Hnone.
        rewrite length_firstn, length_skipn, length_firstn in Hnone.
        assert (Hall : (length recs <= 100 * j)%nat) by lia.
        rewrite !firstn_all2; [reflexivity | |lia].
        destruct Htotal as [[-> _] | [_ Hlt]].
        -- unfold pages_for. lia.
        -- rewrite length_firstn in Hlt. unfold pages_for.
           pose proof (Z_div_mod_eq_full (declared + 99) 100).
           pose proof (Z.mod_pos_bound (declared + 99) 100 ltac:(lia)). lia.
    + apply orb_false_iff in Estop as [Hmore Hsome].
      apply Z.leb_gt in Hmore.
      destruct (IH (S j) fuel' (Some (JInt declared)) (page + 1) w1)
        as (w' & n & Hrun' & Hn & Hbound & Hreqs').
      * lia.
      * lia.
      * apply Hheap. reflexivity.
      * right. split; [reflexivity | exact Hmore].
      * exists w', (S n). rewrite Hrun, Hrun', Hreqs', Hreqs.
        split; [reflexivity|]. split; [lia|]. split; [lia|].
        rewrite <- app_assoc. reflexivity.
Qed.

(** X23. Against a source that serves its records by offset and declares a
    total, [_paginate], called without parameters, returns a prefix of the
    records in their order, nothing skipped and nothing twice: the first
    hundred times [pages_for declared] of them, that is, whole pages until
    the declared total is reached (one page at least, also for a total of
    zero or less) and all records when the total is not below their number.
    Every request asks for a hundred records from the number collected so
    far, and [length recs / 100 + 2] rounds are always enough. *)
Theorem paginate_returns_whole_pages (recs : list json) (declared : Z)
    (fuel : nat) (endpoint : string) (progress : bool) (w : world)
    (Hfuel : (length recs / 100 + 2 <= fuel)%nat) :
  let run := _paginate repr_str (offset_source recs declared) base_url fuel endpoint
               None "values" progress w in
  fst run = Ret (firstn (100 * pages_for declared) recs) /\
  exists n,
    (1 <= n <= length recs / 100 + 2)%nat /\
    requests_of (snd run) =
      requests_of w ++
      map (fun i => offset_request endpoint (Nat.min (100 * i) (length recs)))
        (seq 0 n).
Proof.
  intros run.
  set (start := [("startAt", JInt 0); ("maxResults", JInt 100)]).
  set (w2 := mkWorld (heap w ++ [start]) (events w) (utc_now w)).
  assert (Hstart : run =
            paginate_loop repr_str (offset_source recs declared) base_url fuel endpoint
              (length (heap w)) "values" progress [] None 0 w2).
  { subst run. unfold _paginate, bind, ret, alloc, setitem.
    cbn [heap events utc_now truthy].
    rewrite (alter_app_r_alt _ (heap w) [[]] (length (heap w))) by lia.
    rewrite Nat.sub_diag. cbn [alter list_alter dict_set].
    rewrite (alter_app_r_alt _ (heap w) [[("startAt", JInt 0)]] (length (heap w)))
      by lia.
    rewrite Nat.sub_diag. reflexivity. }
  rewrite Hstart. clear Hstart run.
  destruct (paginate_loop_offset recs declared endpoint progress (length (heap w))
              (length recs / 100 + 1) 0 fuel None 0 w2) as (w' & n & Hrun & Hn & Hbound & Hreqs).
  - lia.
  - lia.
  - unfold w2. cbn [heap]. rewrite list_lookup_middle by reflexivity. reflexivity.
  - left. auto.
  - change (firstn (100 * 0) recs) with (@nil json) in Hrun.
    rewrite Hrun. cbn [fst snd].
    split; [reflexivity|]. exists n. split; [lia|]. rewrite Hreqs.
    reflexivity.
Qed.

End PaginateProperties.

Lemma paginate_returns_whole_pages_witness :
  let recs := records (fun i => JInt (Z.of_nat i)) 250 in
  let run := _paginate quote_repr (offset_source recs 120)
               "https://example.atlassian.net" 5 "search" None "values" true
               new_world in
  fst run = Ret (firstn (100 * pages_for 120) recs) /\
  exists n,
    (1 <= n <= length recs / 100 + 2)%nat /\
    requests_of (snd run) =
      requests_of new_world ++
      map (fun i => offset_request "search" (Nat.min (100 * i) (length recs)))
        (seq 0 n).
Proof.
  apply (paginate_returns_whole_pages quote_repr "https://example.atlassian.net"
           (records (fun i => JInt (Z.of_nat i)) 250) 120 5 "search" true new_world).
  vm_compute. lia.
Defined.

(** ** Export: [export_to_db] *)

Lemma in_world_Ret_inv {A} (m : M world A) (s s' : world * connection) (a : A) :
  in_world m s = (Ret a, s') -> m (fst s) = (Ret a, fst s') /\ snd s' = snd s.
Proof.
  unfold in_world. destruct (m (fst s)) as [r w1]. intros H. inversion H; subst.
  split; reflexivity.
Qed.

Lemma in_db_Ret_inv {A} (m : M connection A) (s s' : world * connection) (a : A) :
  in_db m s = (Ret a, s') -> m (snd s) = (Ret a, snd s') /\ fst s' = fst s.
Proof.
  unfold in_db. destruct (m (snd s)) as [r c1]. intros H. inversion H; subst.
  split; reflexivity.
Qed.

Section ExportProperties.
Variable repr_str : string -> string.
Variable description_depth comment_depth : nat.
Variable source : list request -> request -> response.
Variable base_url : string.
Variable json_dumps : json -> string.

Lemma process_issue_key (issue : json) (w w' : world) (processed : pydict) :
  process_issue repr_str description_depth comment_depth source base_url issue w
    = (Ret processed, w') ->
  py_get issue "key" = OK (dget processed "key").
Proof.
  intros Hproc. unfold process_issue in Hproc.
  apply bind_Ret_inv in Hproc as (fields & s1 & H1 & Hproc).
  apply lift_Ret_inv in H1 as [Hfields ->].
  apply bind_Ret_inv in Hproc as (issue_key & s2 & H2 & Hproc).
  apply lift_Ret_inv in H2 as [Hkey ->].
  apply bind_Ret_inv in Hproc as (fetched & w1 & Hfetch & Hproc).
  apply bind_Ret_inv in Hproc as (description & s3 & H3 & Hproc).
  apply bind_Ret_inv in Hproc as (description_text & s4 & H4 & Hproc).
  apply bind_Ret_inv in Hproc as (now & s5 & H5 & Hproc).
  apply lift_Ret_inv in Hproc as [Hbuild _].
  unfold build_processed in Hbuild. step_params Hbuild.
  inversion Hbuild; subst processed. exact Hkey.
Qed.

(** A key that has one ticket row has one after any accepted upsert. *)
Lemma upsert_keeps_one_row (ticket : pydict) (k : string) (c c' : connection) :
  insert_ticket json_dumps ticket c = (Ret tt, c') ->
  count_tickets k (current c) = 1%nat ->
  count_tickets k (current c') = 1%nat.
Proof.
  intros Hrun Hone.
  destruct (bind_text (dget ticket "key")) as [own|e] eqn:Hkey.
  2:{ apply insert_ticket_shape in Hrun as (cols & ? & ? & ? & ? & ? & ? & ? & ? & Hcols & _).
      destruct (ticket_params_columns _ _ _ Hcols) as [Hk _]. congruence. }
  destruct own as [own|].
  - destruct (String.eqb_spec k own) as [-> | Hne].
    + apply (insert_ticket_counts _ _ _ _ _ Hkey Hrun).
    + assert (Hother : Some k <> Some own) by congruence.
      pose proof (upsert_leaves_other_keys json_dumps ticket (Some own) k c c'
                    Hkey Hrun Hother) as Hrows.
      unfold rows_for in Hrows. inversion Hrows as [[Ht Hc Hh Hl Hs]].
      unfold count_tickets in *. rewrite Ht. exact Hone.
  - assert (Hother : Some k <> None) by discriminate.
    pose proof (upsert_leaves_other_keys json_dumps ticket None k c c'
                  Hkey Hrun Hother) as Hrows.
    unfold rows_for in Hrows. inversion Hrows as [[Ht Hc Hh Hl Hs]].
    unfold count_tickets in *. rewrite Ht. exact Hone.
Qed.

Lemma export_loop_rows (issues : list json) :
  forall progress total i s s',
  export_loop repr_str description_depth comment_depth source base_url json_dumps
    progress total i issues s =
    (Ret tt, s') ->
  (forall k, count_tickets k (current (snd s)) = 1%nat ->
             count_tickets k (current (snd s')) = 1%nat) /\
  (forall issue k, In issue issues -> issue_key_text issue = Some k ->
                   count_tickets k (current (snd s')) = 1%nat) /\
  (committed (snd s) = current (snd s) -> committed (snd s') = current (snd s')).
Proof.
  induction issues as [|issue rest IH]; intros progress total i s s' Hrun;
    cbn [export_loop] in Hrun.
  - inversion Hrun; subst. split; [auto|]. split; [intros ? ? []|auto].
  - apply bind_Ret_inv in Hrun as (issue_key & s1 & H1 & Hrun).
    apply lift_Ret_inv in H1 as [Hkey ->].
    apply bind_Ret_inv in Hrun as ([] & s2 & H2 & Hrun).
    apply in_world_Ret_inv in H2 as [_ Hs2].
    apply bind_Ret_inv in Hrun as (processed & s3 & H3 & Hrun).
    apply in_world_Ret_inv in H3 as [Hproc Hs3].
    apply bind_Ret_inv in Hrun as ([] & s4 & H4 & Hrun).
    apply in_db_Ret_inv in H4 as [Hins _].
    rewrite Hs3, Hs2 in Hins.
    destruct (IH _ _ _ _ _ Hrun) as (Hkeep & Hrest & Hcommit).
    split; [|split].
    + intros k Hk. apply Hkeep. eapply upsert_keeps_one_row; eassumption.
    + intros x k [<- | Hx] Hxk; [|eapply Hrest; eassumption].
      apply Hkeep. unfold issue_key_text in Hxk.
      rewrite (process_issue_key _ _ _ _ Hproc) in Hxk.
      destruct (bind_text (dget processed "key")) as [own|] eqn:Hown; [|discriminate].
      subst own. apply (insert_ticket_counts _ _ _ _ _ Hown Hins).
    + intros _. apply Hcommit.
      apply insert_ticket_shape in Hins
        as (? & ? & ? & ? & ? & ? & ? & ? & ? & Hshape).
      apply Hshape.
Qed.

(** X22. An export that returns has searched once, returns the number of
    issues found, and, unless there were none, leaves a database with
    nothing pending in which every issue found that has a key has exactly
    one ticket row, also when the search returned an issue twice. When no
    issue is found the database is not touched, not even to create the
    tables. *)
Theorem export_to_db_stores_every_issue (fuel : nat) (jql db_path : string)
    (progress : bool) (w w' : world) (c c' : connection) (n : Z)
    (Hrun : export_to_db repr_str description_depth comment_depth source base_url json_dumps
            fuel jql db_path progress
              (w, c) = (Ret n, (w', c'))) :
  exists issues w1,
    search_issues repr_str source base_url fuel jql true
      (snd (when progress (print ("Searching for issues with JQL: " +:+ jql)) w)) =
      (Ret issues, w1) /\
    n = Z.of_nat (length issues) /\
    (issues = [] -> c' = c) /\
    (issues <> [] ->
       current c' = committed c' /\
       forall issue k, In issue issues -> issue_key_text issue = Some k ->
                       count_tickets k (committed c') = 1%nat).
Proof.
  unfold export_to_db in Hrun.
  apply bind_Ret_inv in Hrun as ([] & s1 & H1 & Hrun).
  apply in_world_Ret_inv in H1 as [Hprint Hs1].
  apply bind_Ret_inv in Hrun as (issues & s2 & H2 & Hrun).
  apply in_world_Ret_inv in H2 as [Hsearch Hs2].
  apply bind_Ret_inv in Hrun as ([] & s3 & H3 & Hrun).
  apply in_world_Ret_inv in H3 as [_ Hs3].
  cbn [fst snd] in Hprint, Hs1.
  exists issues, (fst s2). split.
  { rewrite <- Hsearch. f_equal. destruct (when _ _ w) as [r w0].
    cbn [snd]. inversion Hprint. reflexivity. }
  destruct issues as [|issue rest].
  - inversion Hrun as [[Hn Hs]]. subst s3. cbn [snd] in Hs3.
    split; [reflexivity|]. split; [|congruence].
    intros _. rewrite Hs3, Hs2, Hs1. reflexivity.
  - apply bind_Ret_inv in Hrun as ([] & s4 & H4 & Hrun).
    apply in_db_Ret_inv in H4 as [Hcreate _].
    apply bind_Ret_inv in Hrun as ([] & s5 & H5 & Hrun).
    apply export_loop_rows in H5 as (_ & Hrows & Hcommit).
    apply bind_Ret_inv in Hrun as (stats & s6 & H6 & Hrun).
    apply in_db_Ret_inv in H6 as [Hstats _].
    apply bind_Ret_inv in Hrun as ([] & s7 & H7 & Hrun).
    apply in_db_Ret_inv in H7 as [Hclose _].
    apply bind_Ret_inv in Hrun as ([] & s8 & H8 & Hrun).
    apply in_world_Ret_inv in H8 as [_ Hs8].
    inversion Hrun as [[Hn Hs8eq]]. clear Hrun.
    assert (Hc8 : snd s8 = c') by (rewrite Hs8eq; reflexivity).
    split; [reflexivity|]. split; [discriminate|]. intros _.
    unfold gets in Hstats. inversion Hstats as [[Hst Hs6]].
    unfold modify in Hclose. inversion Hclose as [Hs7].
    rewrite <- Hc8, Hs8, <- Hs7, <- Hs6. unfold close. cbn [current committed].
    assert (Hcm : committed (snd s5) = current (snd s5)).
    { apply Hcommit. unfold _create_tables, bind, with_current, commit, modify in Hcreate.
      inversion Hcreate as [Hs4]. reflexivity. }
    split; [reflexivity|]. intros x k Hx Hk. rewrite Hcm. eapply Hrows; eassumption.
Qed.

End ExportProperties.

(** ** Instances of the properties above *)

Lemma store_ok_few (tb : tables) :
  (length (tickets tb) <= 1)%nat -> (length (comments tb) <= 1)%nat -> store_ok tb.
Proof.
  intros Ht Hc. unfold store_ok, count_tickets. repeat split; intros x.
  - pose proof (filter_length_le (fun r => sql_eq (t_key (t_cols r)) (Some x))
                  (tickets tb)). lia.
  - pose proof (filter_length_le (fun r => Z.eqb (t_rowid r) x) (tickets tb)). lia.
  - pose proof (filter_length_le (fun r => sql_eq (c_id r) (Some x)) (comments tb)). lia.
Qed.

Lemma failed_upsert_commits_nothing_witness :
  fst (insert_ticket dumps_plain broken_ticket once_upserted) = Raise TypeError /\
  committed (snd (insert_ticket dumps_plain broken_ticket once_upserted)) =
    committed once_upserted /\
  comments (current (snd (insert_ticket dumps_plain broken_ticket once_upserted))) = [].
Proof.
  split; [vm_compute; reflexivity|]. split; [|vm_compute; reflexivity].
  apply (failed_upsert_commits_nothing dumps_plain broken_ticket once_upserted).
  vm_compute. discriminate.
Defined.

Lemma upsert_leaves_other_keys_witness :
  rows_for "PROJ-2" (current (snd (insert_ticket dumps_plain sample_ticket two_tickets))) =
  rows_for "PROJ-2" (current two_tickets).
Proof.
  apply (upsert_leaves_other_keys dumps_plain sample_ticket (Some "PROJ-1") "PROJ-2"
           two_tickets (snd (insert_ticket dumps_plain sample_ticket two_tickets))).
  - reflexivity.
  - vm_compute. reflexivity.
  - discriminate.
Defined.

Lemma upsert_moves_stats_witness :
  (stat_tickets (get_stats once_upserted) +
   count_tickets "PROJ-1" (current new_database) =
   stat_tickets (get_stats new_database) + 1)%nat /\
  (stat_comments (get_stats once_upserted) +
   count_comments "PROJ-1" (current new_database) =
   stat_comments (get_stats new_database) + loop_length sample_ticket "comments")%nat /\
  (stat_changelog_entries (get_stats once_upserted) +
   count_changelog "PROJ-1" (current new_database) =
   stat_changelog_entries (get_stats new_database) +
   loop_length sample_ticket "changelog")%nat.
Proof.
  apply (upsert_moves_stats dumps_plain sample_ticket "PROJ-1" new_database
           once_upserted).
  - reflexivity.
  - vm_compute. reflexivity.
Defined.

Lemma upsert_keeps_primary_keys_witness :
  store_ok (current new_database) /\ store_ok (current once_upserted).
Proof.
  assert (Hempty : store_ok (current new_database))
    by (apply store_ok_few; cbn; lia).
  split; [exact Hempty|].
  apply (upsert_keeps_primary_keys dumps_plain sample_ticket new_database
           once_upserted Hempty).
  vm_compute. reflexivity.
Defined.

Lemma first_upsert_keeps_index_witness : index_in_step (current once_upserted).
Proof.
  apply (first_upsert_keeps_index dumps_plain sample_ticket (Some "PROJ-1")
           new_database once_upserted).
  - reflexivity.
  - reflexivity.
  - constructor.
  - vm_compute. reflexivity.
Defined.

Lemma rebuild_fts_repairs_search_witness :
  search_db word_prefix_match contains_like "beta" "" "" ""
    (current other_twice_upserted) = Err DatabaseError /\
  exists c',
    rebuild_fts other_twice_upserted = (Ret tt, c') /\
    search_db word_prefix_match contains_like "beta" "" "" "" (committed c') =
    OK (map (fun r => select_summary (t_cols r))
          (tickets (current other_twice_upserted))).
Proof.
  split; [vm_compute; reflexivity|].
  assert (Hok : store_ok (current other_twice_upserted))
    by (apply store_ok_few; vm_compute; lia).
  destruct (rebuild_fts_repairs_search word_prefix_match contains_like
              other_twice_upserted
              (default [] (tickets_fts (current other_twice_upserted)))
              "beta" "" "" ""
              (fun doc =>
                 let '(k, s, d) := doc in
                 existsb (String.prefix "beta")
                   (words (default EmptyString k) ++ words (default EmptyString s) ++
                    words (default EmptyString d)))
              Hok)
    as (c' & Hrun & _ & _ & _ & _ & _ & _ & Hsearch);
    [vm_compute; reflexivity | discriminate | reflexivity |].
  exists c'. split; [exact Hrun|]. rewrite Hsearch. vm_compute. reflexivity.
Defined.

Lemma search_with_index_in_step_witness :
  search_db word_prefix_match contains_like "beta" "" "" "" (current other_upserted) =
  OK (map (fun r => select_summary (t_cols r)) (tickets (current other_upserted))).
Proof.
  assert (Hok : store_ok (current other_upserted))
    by (apply store_ok_few; vm_compute; lia).
  assert (Hstep : index_in_step (current other_upserted)) by reflexivity.
  rewrite (search_with_index_in_step word_prefix_match contains_like
             (current other_upserted) "beta" "" "" ""
             (fun doc =>
                let '(k, s, d) := doc in
                existsb (String.prefix "beta")
                  (words (default EmptyString k) ++ words (default EmptyString s) ++
                   words (default EmptyString d)))
             Hok Hstep);
    [vm_compute; reflexivity | discriminate | reflexivity].
Defined.

Lemma search_respects_filters_witness :
  passes "" "" "" (select_summary (cols_updated (Some "B-1") (Some "2024-06-01"))) = true /\
  exists db r,
    In db [store_january; store_june] /\ In r (tickets db) /\
    select_summary (cols_updated (Some "B-1") (Some "2024-06-01")) =
    select_summary (t_cols r).
Proof.
  apply (search_respects_filters word_prefix_match contains_like
           [store_january; store_june] "" "" "" "" 1
           [select_summary (cols_updated (Some "B-1") (Some "2024-06-01"));
            select_summary (cols_updated (Some "A-1") (Some "2024-01-01"))] 1).
  - vm_compute. reflexivity.
  - left. reflexivity.
Defined.

Lemma search_pages_partition_witness :
  let page i :=
    shown (search word_prefix_match contains_like [store_january; store_june]
             "" "" "" "" (Z.of_nat i)) in
  concat (map page (seq 1 1)) =
    [select_summary (cols_updated (Some "B-1") (Some "2024-06-01"));
     select_summary (cols_updated (Some "A-1") (Some "2024-01-01"))] /\
  page 0%nat = [] /\ page 2%nat = [].
Proof.
  destruct (search_pages_partition word_prefix_match contains_like
              [store_january; store_june] "" "" "" ""
              [select_summary (cols_updated (Some "B-1") (Some "2024-06-01"));
               select_summary (cols_updated (Some "A-1") (Some "2024-01-01"))])
    as (_ & Hall & _ & Hzero & Hbeyond).
  - vm_compute. reflexivity.
  - split; [exact Hall|]. split; [exact Hzero|]. apply Hbeyond. cbn. lia.
Defined.

Lemma upserted_ticket_is_shown_witness :
  exists page,
    ticket_detail loads_empty_list [current once_upserted] "PROJ-1" = Some page /\
    t_cols (tp_ticket page) = sample_cols /\
    tp_labels page = JList [] /\
    length (tp_comments page) = 2%nat /\
    length (tp_changelog page) = 1%nat.
Proof.
  apply (upserted_ticket_is_shown dumps_plain loads_empty_list sample_ticket "PROJ-1"
           new_database once_upserted sample_cols).
  - reflexivity.
  - vm_compute. reflexivity.
  - vm_compute. reflexivity.
  - reflexivity.
  - discriminate.
Defined.

Lemma export_to_db_stores_every_issue_witness :
  let run :=
    export_to_db quote_repr plenty plenty (export_source [[raw_issue; raw_issue_two]; [raw_issue]])
      "https://example.atlassian.net" dumps_plain 5 "project = PROJ" "jira.db" false
      (new_world, new_database) in
  fst run = Ret 3 /\
  count_tickets "PROJ-1" (committed (snd (snd run))) = 1%nat /\
  count_tickets "PROJ-2" (committed (snd (snd run))) = 1%nat.
Proof.
  intros run.
  assert (Hrun : run = (Ret 3, (fst (snd run), snd (snd run))))
    by (vm_compute; reflexivity).
  destruct (export_to_db_stores_every_issue quote_repr plenty plenty
              (export_source [[raw_issue; raw_issue_two]; [raw_issue]])
              "https://example.atlassian.net" dumps_plain 5 "project = PROJ" "jira.db"
              false new_world (fst (snd run)) new_database (snd (snd run)) 3 Hrun)
    as (issues & w1 & Hsearch & _ & _ & Hrows).
  assert (Hissues : issues = [raw_issue; raw_issue_two; raw_issue]).
  { assert (H : Ret issues = @Ret (list json) [raw_issue; raw_issue_two; raw_issue]).
    { change (Ret issues) with (fst (@Ret (list json) issues, w1)).
      rewrite <- Hsearch. vm_compute. reflexivity. }
    inversion H. reflexivity. }
  subst issues. destruct Hrows as [_ Hrows]; [discriminate|].
  split; [rewrite Hrun; reflexivity|]. split.
  - apply (Hrows raw_issue); [left; reflexivity | reflexivity].
  - apply (Hrows raw_issue_two); [right; left; reflexivity | reflexivity].
Defined.

(** * The scenarios, evaluated *)

(** C3, as amended. Against a source that holds 250 records and declares
    250, the paginator asks for the pages at 0, 100 and 200, three requests,
    and returns the 250 records in that order. Against a source that
    declares 250 but holds 150, it asks at 0, 100 and 150, stops at the
    empty third page and returns the 150 records without raising; the
    warning is printed when progress output is on, and nothing is printed
    when it is off. Three iterations of the loop suffice in both cases. *)
Theorem offset_pagination_scenarios (repr_str : string -> string)
    (f : nat -> json) (base_url now : string) (extra : nat) (progress : bool) :
  let run recs :=
    _paginate repr_str (offset_source recs 250) base_url (3 + extra) "search"
      None "values" progress (mkWorld [] [] now) in
  fst (run (records f 250)) = Ret (records f 250) /\
  map (fun r => int_param r "startAt" (-1)) (requests_of (snd (run (records f 250))))
    = [0; 100; 200] /\
  fst (run (records f 150)) = Ret (records f 150) /\
  map (fun r => int_param r "startAt" (-1)) (requests_of (snd (run (records f 150))))
    = [0; 100; 150] /\
  printed (snd (run (records f 150))) =
    if progress
    then ["  Total issues to fetch: 250";
          "  Page 1: fetched 100 issues (total so far: 100/250)";
          "  Page 2: fetched 50 issues (total so far: 150/250)";
          "  Page 3: fetched 0 issues (total so far: 150/250)";
          "  Warning: got empty page but only have 150/250"]
    else [].
Proof.
  destruct progress; vm_compute; repeat split.
Qed.

(** C3 as stated fails when progress output is off: the 150 records are
    returned and no warning, nor anything else, is printed. *)
Lemma quiet_pagination_gives_no_warning :
  let w' :=
    snd (_paginate quote_repr (offset_source (records (fun i => JInt (Z.of_nat i)) 150) 250)
           "https://example.atlassian.net" 3 "search" None "values" false new_world) in
  length (requests_of w') = 3%nat /\ printed w' = [].
Proof. vm_compute. split; reflexivity. Qed.

(** C4 as stated fails for two of the three failure classes: a comments
    request answered 401, and one rate-limited on all five attempts, end in
    [SystemExit] instead of an empty comment list. *)
Lemma comments_fetch_fatal_failures :
  fst (get_issue_comments quote_repr (always_status 401)
         "https://example.atlassian.net" (JStr "PROJ-1") new_world)
    = Raise (SystemExit 1) /\
  fst (get_issue_comments quote_repr (always_status 429)
         "https://example.atlassian.net" (JStr "PROJ-1") new_world)
    = Raise (SystemExit 1) /\
  length (requests_of
            (snd (get_issue_comments quote_repr (always_status 429)
                    "https://example.atlassian.net" (JStr "PROJ-1") new_world)))
    = 5%nat.
Proof. vm_compute. repeat split. Qed.

Lemma comments_fetch_soft_failure_witness :
  let answer :=
    comments_answer quote_repr (limited_then_status 2 500) (JStr "PROJ-1") new_world in
  let out :=
    fst (get_issue_comments quote_repr (limited_then_status 2 500)
           "https://example.atlassian.net" (JStr "PROJ-1") new_world) in
  (2 <= 5)%nat /\
  (forall i, (i < 2)%nat -> rate_limited (answer i) 3) /\
  status_code (answer 2%nat) = 500 /\
  out = Ret (JList []).
Proof.
  intros answer out.
  assert (Hlim : forall i, (i < 2)%nat -> rate_limited (answer i) 3).
  { intros i Hi. destruct i as [|[|i]]; [| |lia];
      (split; [reflexivity|]; split; [reflexivity|lia]). }
  split; [lia|]. split; [exact Hlim|]. split; [reflexivity|].
  refine (proj1 (comments_fetch_soft_failure quote_repr (limited_then_status 2 500)
                   "https://example.atlassian.net" (JStr "PROJ-1") new_world 2
                   (fun _ => 3) _ Hlim _) _ _ _ _ _).
  - lia.
  - intros _ H. change (500 = 429) in H. lia.
  - lia.
  - change (400 <= 500 < 600). lia.
  - change (500 <> 401). lia.
  - change (500 <> 403). lia.
  - change (500 <> 429). lia.
Defined.



(** A [content] chain of 600 levels takes 1201 nested calls: with 901 of
    them left the flattener raises [RecursionError], and it returns the
    text when the chain is 450 levels deep. *)
Lemma deep_chain_raises_RecursionError :
  _adf_to_text quote_repr plenty (nest 600 (text_node "deep")) = Err RecursionError /\
  _adf_to_text quote_repr plenty (nest 450 (text_node "deep")) = OK "deep".
Proof. split; vm_compute; reflexivity. Qed.

(** The flattening of the three-node example of the specification. *)
Lemma flatten_hi_break_bye :
  _adf_to_text quote_repr plenty
    (JObj [("type", JStr "paragraph");
           ("content",
            JList [text_node "hi"; JObj [("type", JStr "hardBreak")];
                   text_node "bye"])])
  = OK ("hi" +:+ nl +:+ "bye").
Proof. reflexivity. Qed.

(** The whole of [process_issue] on a raw issue whose [status] is null,
    with the comments fetched without error. *)
Lemma process_issue_null_status :
  fst (process_issue quote_repr plenty plenty no_comments_source
         "https://example.atlassian.net" raw_issue_null_status new_world)
  = Raise AttributeError.
Proof. vm_compute. reflexivity. Qed.

Lemma null_nested_object_raises_witness :
  let i := [("key", JStr "PROJ-1"); ("id", JStr "1");
            ("fields", JObj [("summary", JStr "alpha"); ("status", JNull)])] in
  let d := [("summary", JStr "alpha"); ("status", JNull)] in
  let w1 :=
    snd (get_issue_comments quote_repr no_comments_source
           "https://example.atlassian.net" (JStr "PROJ-1") new_world) in
  dict_lookup "fields" i = Some (JObj d) /\
  (dict_lookup "status" d = Some JNull \/
   dict_lookup "issuetype" d = Some JNull \/
   dict_lookup "project" d = Some JNull) /\
  get_issue_comments quote_repr no_comments_source
    "https://example.atlassian.net" (dget i "key") new_world
    = (Ret (JList []), w1) /\
  wf_adf (dget_default d "description" (JObj [])) = true /\
  process_issue quote_repr plenty plenty no_comments_source "https://example.atlassian.net"
    (JObj i) new_world = (Raise AttributeError, w1).
Proof.
  intros i d w1.
  assert (H1 : dict_lookup "fields" i = Some (JObj d)) by reflexivity.
  assert (H2 : dict_lookup "status" d = Some JNull \/
               dict_lookup "issuetype" d = Some JNull \/
               dict_lookup "project" d = Some JNull) by (left; reflexivity).
  assert (H3 : get_issue_comments quote_repr no_comments_source
                 "https://example.atlassian.net" (dget i "key") new_world
               = (Ret (JList []), w1)) by (vm_compute; reflexivity).
  assert (H4 : wf_adf (dget_default d "description" (JObj [])) = true)
    by reflexivity.
  repeat (split; [assumption|]).
  exact (null_nested_object_raises quote_repr plenty plenty no_comments_source
           "https://example.atlassian.net" i d new_world w1 (JList [])
           H1 H2 H3 H4).
Defined.

Lemma element_rule_breaks_uniformity_witness :
  let o := [("value", JStr ""); ("name", JStr "N")] in
  startswith "customfield_" "customfield_1" = true /\
  startswith "customfield_" "customfield_2" = true /\
  "customfield_1" <> "customfield_2" /\
  dict_lookup "value" o = Some (JStr "") /\
  truthy (JStr "") = false /\
  _extract_custom_fields
    (JObj [("customfield_1", JList [JObj o]); ("customfield_2", JObj o)])
  = OK (JObj [("customfield_1", JList [JStr "N"]); ("customfield_2", JStr "")]).
Proof.
  intros o.
  split; [reflexivity|]. split; [reflexivity|]. split; [discriminate|].
  split; [reflexivity|]. split; [reflexivity|].
  exact (proj1 (element_rule_breaks_uniformity "customfield_1" "customfield_2" o
                  (JStr "") eq_refl eq_refl ltac:(discriminate) eq_refl eq_refl)).
Defined.

Lemma extract_custom_fields_projection_witness :
  NoDup (dict_keys custom_fields_sample) /\
  (forall k first rest,
     In (k, JList (first :: rest)) custom_fields_sample ->
     is_dict first = true -> forallb is_dict rest = true) /\
  exists custom,
    _extract_custom_fields (JObj custom_fields_sample) = OK (JObj custom) /\
    (is_Some (dict_lookup "customfield_4" custom) <->
     startswith "customfield_" "customfield_4" = true /\
     exists v, dict_lookup "customfield_4" custom_fields_sample = Some v /\
               v <> JNull).
Proof.
  assert (H1 : NoDup (dict_keys custom_fields_sample)).
  { apply (bool_decide_unpack _). vm_compute. exact I. }
  assert (H2 : forall k first rest,
            In (k, JList (first :: rest)) custom_fields_sample ->
            is_dict first = true -> forallb is_dict rest = true).
  { intros k first rest Hin _. cbn [custom_fields_sample In] in Hin.
    repeat (destruct Hin as [Hin|Hin];
            [try discriminate Hin; inversion Hin; subst; reflexivity|]).
    contradiction. }
  split; [exact H1|]. split; [exact H2|].
  destruct (extract_custom_fields_projection custom_fields_sample H1 H2)
    as [custom [Hrun Hkeys]].
  exists custom. split; [exact Hrun|].
  exact (proj1 (Hkeys "customfield_4")).
Defined.

(** The projections of the specification's examples. *)
Lemma custom_fields_examples :
  _extract_custom_fields (JObj custom_fields_sample) =
  OK (JObj [("customfield_1", JStr "High"); ("customfield_2", JStr "Gold");
            ("customfield_3", JList [JStr "A"; JStr "B"]);
            ("customfield_5", JInt 7)]).
Proof. reflexivity. Qed.

(** C8 as stated fails for the raw payload: two different raw issues, one
    with a [votes] field the other lacks, yield the same normalized
    record, so the payload cannot be reproduced from what is retained. *)
Lemma raw_payload_is_not_retained :
  raw_issue <> raw_issue_with_votes /\
  process_issue quote_repr plenty plenty one_comment_source "https://example.atlassian.net"
    raw_issue new_world =
  process_issue quote_repr plenty plenty one_comment_source "https://example.atlassian.net"
    raw_issue_with_votes new_world /\
  fst (process_issue quote_repr plenty plenty one_comment_source
         "https://example.atlassian.net" raw_issue new_world)
  = Ret normalized_sample.
Proof.
  split; [discriminate|]. split; vm_compute; reflexivity.
Qed.

Lemma raw_forms_retained_witness :
  process_issue quote_repr plenty plenty one_comment_source "https://example.atlassian.net"
    raw_issue new_world = (Ret normalized_sample, world_after_sample) /\
  insert_ticket dumps_plain normalized_sample new_database
    = (Ret tt, store_after_sample) /\
  exists cols rowid,
    In (mkTicketRow rowid cols) (tickets (current store_after_sample)) /\
    t_description_raw cols
      = Some (dumps_plain (dget normalized_sample "descriptionRaw")) /\
    t_raw_json cols = Some (dumps_plain (JObj normalized_sample)).
Proof.
  assert (H1 : process_issue quote_repr plenty plenty one_comment_source
                 "https://example.atlassian.net" raw_issue new_world
               = (Ret normalized_sample, world_after_sample))
    by (vm_compute; reflexivity).
  assert (H2 : insert_ticket dumps_plain normalized_sample new_database
               = (Ret tt, store_after_sample))
    by (vm_compute; reflexivity).
  split; [exact H1|]. split; [exact H2|].
  destruct (raw_forms_retained quote_repr plenty plenty one_comment_source
              "https://example.atlassian.net" dumps_plain raw_issue new_world
              world_after_sample normalized_sample new_database
              store_after_sample H1 H2)
    as (fields & issue_key & fetched & w1 & comment_list & infos & cols &
        rowid & crows & _ & _ & _ & _ & _ & _ & _ & Hin & Hd & Hr & _).
  exists cols, rowid. auto.
Defined.

Lemma upsert_idempotent_witness :
  bind_text (dget sample_ticket "key") = OK (Some "PROJ-1") /\
  insert_ticket dumps_plain sample_ticket new_database = (Ret tt, once_upserted) /\
  exists c2,
    insert_ticket dumps_plain sample_ticket once_upserted = (Ret tt, c2) /\
    count_tickets "PROJ-1" (current c2) = 1%nat /\
    count_comments "PROJ-1" (current c2) = 2%nat /\
    count_changelog "PROJ-1" (current c2) = 1%nat /\
    count_links "PROJ-1" (current c2) = 1%nat /\
    count_subtasks "PROJ-1" (current c2) = 0%nat.
Proof.
  assert (H1 : bind_text (dget sample_ticket "key") = OK (Some "PROJ-1"))
    by reflexivity.
  assert (H2 : insert_ticket dumps_plain sample_ticket new_database
               = (Ret tt, once_upserted)) by (vm_compute; reflexivity).
  split; [exact H1|]. split; [exact H2|].
  destruct (upsert_idempotent dumps_plain sample_ticket "PROJ-1" new_database
              once_upserted H1 H2)
    as (c2 & Hrun & Ht & Hc & Hh & Hl & Hs & _).
  exists c2. repeat split; assumption.
Defined.

(** A record without a key stands outside C1: a null primary key conflicts
    with nothing, so each ingestion adds a ticket row. *)
Lemma null_key_is_kept_twice :
  let record := [("summary", JStr "no key")] in
  let once := snd (insert_ticket dumps_plain record new_database) in
  insert_ticket dumps_plain record new_database = (Ret tt, once) /\
  fst (insert_ticket dumps_plain record once) = Ret tt /\
  length (tickets (current (snd (insert_ticket dumps_plain record once)))) = 2%nat.
Proof. vm_compute. repeat split. Qed.

Lemma reupsert_breaks_search_witness :
  ticket_params dumps_plain sample_ticket = OK sample_cols /\
  t_key sample_cols = Some "PROJ-1" /\
  insert_ticket dumps_plain sample_ticket (open_database empty_tables)
    = (Ret tt, once_upserted) /\
  insert_ticket dumps_plain sample_ticket once_upserted = (Ret tt, twice_upserted) /\
  "alpha" <> "" /\
  word_prefix_match (fts_query "alpha") = Some sample_hit /\
  sample_hit (t_key sample_cols, t_summary sample_cols, t_description sample_cols)
    = true /\
  search_db word_prefix_match contains_like "alpha" "" "" "" (current twice_upserted)
    = Err DatabaseError /\
  fst (rebuild_fts twice_upserted) = Ret tt /\
  search_db word_prefix_match contains_like "alpha" "" "" ""
    (current (snd (rebuild_fts twice_upserted)))
    = OK [select_summary sample_cols].
Proof.
  assert (H1 : ticket_params dumps_plain sample_ticket = OK sample_cols)
    by (vm_compute; reflexivity).
  assert (H2 : t_key sample_cols = Some "PROJ-1") by reflexivity.
  assert (H3 : insert_ticket dumps_plain sample_ticket (open_database empty_tables)
               = (Ret tt, once_upserted)) by (vm_compute; reflexivity).
  assert (H4 : insert_ticket dumps_plain sample_ticket once_upserted
               = (Ret tt, twice_upserted)) by (vm_compute; reflexivity).
  assert (H5 : "alpha" <> "") by discriminate.
  assert (H6 : word_prefix_match (fts_query "alpha") = Some sample_hit)
    by reflexivity.
  assert (H7 : sample_hit (t_key sample_cols, t_summary sample_cols,
                           t_description sample_cols) = true)
    by (vm_compute; reflexivity).
  repeat (split; [assumption|]).
  exact (reupsert_breaks_search dumps_plain word_prefix_match contains_like
           sample_ticket "PROJ-1" sample_cols once_upserted twice_upserted
           "alpha" sample_hit H1 H2 H3 H4 H5 H6 H7).
Defined.

(** The same run, evaluated: one upsert and the search finds the ticket; a
    second upsert of the same record and the search fails. *)
Lemma search_after_one_and_two_upserts :
  search_db word_prefix_match contains_like "alpha" "" "" "" (current once_upserted)
    = OK [select_summary sample_cols] /\
  search_db word_prefix_match contains_like "alpha" "" "" "" (current twice_upserted)
    = Err DatabaseError.
Proof. split; vm_compute; reflexivity. Qed.

Lemma federated_search_order_witness :
  search_all word_prefix_match contains_like [store_january; store_june]
    "" "" "" ""
    = OK [select_summary (t_cols (ticket_updated "B-1" "2024-06-01"));
          select_summary (t_cols (ticket_updated "A-1" "2024-01-01"))] /\
  tickets store_january = [ticket_updated "A-1" "2024-01-01"] /\
  tickets store_june = [ticket_updated "B-1" "2024-06-01"] /\
  t_updated (t_cols (ticket_updated "A-1" "2024-01-01")) = Some "2024-01-01" /\
  t_updated (t_cols (ticket_updated "B-1" "2024-06-01")) = Some "2024-06-01" /\
  search word_prefix_match contains_like [store_january; store_june] "" "" "" "" 1
    = OK ([select_summary (t_cols (ticket_updated "B-1" "2024-06-01"));
           select_summary (t_cols (ticket_updated "A-1" "2024-01-01"))], 1).
Proof.
  assert (H1 : search_all word_prefix_match contains_like
                 [store_january; store_june] "" "" "" ""
               = OK [select_summary (t_cols (ticket_updated "B-1" "2024-06-01"));
                     select_summary (t_cols (ticket_updated "A-1" "2024-01-01"))])
    by reflexivity.
  repeat (split; [first [exact H1 | reflexivity]|]).
  exact (proj1 (proj2 (proj2 (proj2 (proj2
    (federated_search_order word_prefix_match contains_like
       [store_january; store_june] "" "" "" "" _ store_january store_june
       (ticket_updated "A-1" "2024-01-01") (ticket_updated "B-1" "2024-06-01")
       H1 eq_refl eq_refl eq_refl eq_refl)))))).
Defined.

Lemma paginate_keeps_caller_params_witness :
  heap caller_world !! 0%nat = Some [("jql", JStr "project = PROJ")] /\
  heap (snd (_paginate quote_repr
               (offset_source (records (fun i => JInt (Z.of_nat i)) 250) 250)
               "https://example.atlassian.net" 5 "search" (Some 0%nat) "values"
               true caller_world)) !! 0%nat
    = Some [("jql", JStr "project = PROJ")].
Proof.
  split; [reflexivity|].
  exact (proj1 (paginate_keeps_caller_params quote_repr
                  (offset_source (records (fun i => JInt (Z.of_nat i)) 250) 250)
                  "https://example.atlassian.net" 5 "search" (Some 0%nat)
                  "values" true caller_world 0%nat
                  [("jql", JStr "project = PROJ")] eq_refl)).
Defined.

(** The copy the paginator works on does carry the pagination keys. *)
Lemma paginate_writes_to_its_copy :
  heap (snd (_paginate quote_repr
               (offset_source (records (fun i => JInt (Z.of_nat i)) 250) 250)
               "https://example.atlassian.net" 5 "search" (Some 0%nat) "values"
               false caller_world))
  = [[("jql", JStr "project = PROJ")];
     [("jql", JStr "project = PROJ"); ("startAt", JInt 200);
      ("maxResults", JInt 100)]].
Proof. vm_compute. reflexivity. Qed.
